(** * Deep Research Service: the SSE wrapper of [services/py-deep-research/main.py]

    A shallow embedding of the request model, the log interceptors, the two
    streaming generators, the citation extractors and the SSE formatter of
    [main.py], and the properties of the service proved about them.

    Python [str] values are modelled as [string]: one [ascii] per code point,
    so the model covers the texts whose code points are below 256.  Python
    [int] values are [Z].  A generator body is a computation in a state and
    exception monad; the [deep_researcher] library, which is not part of the
    repository, is a record of what its calls do during one request, and the
    asyncio event loop is a schedule that says how many pending tasks run at
    each suspension.  The first part of the file is the embedding, the
    second its properties. *)

From Stdlib Require Import ZArith Ascii String List Bool Lia DecimalString.
From stdpp Require Import base option list gmap strings.

Local Open Scope Z_scope.

(* ===================================================================== *)
(** * Python string primitives used by the service *)
(* ===================================================================== *)

Module PyStr.

Definition code (c : ascii) : N := N_of_ascii c.

(** [str.isspace] on one character, which is also the class [\s] of [re]
    on [str] patterns: TAB..CR, FS..US, SPACE, NEL and NBSP are the white
    space code points below 256. *)
Definition isspace (c : ascii) : bool :=
  let n := code c in
  ((9 <=? n) && (n <=? 13) || (28 <=? n) && (n <=? 32)
   || (n =? 133) || (n =? 160))%N.

Definition len (s : string) : Z := Z.of_nat (String.length s).

Definition is_empty (s : string) : bool :=
  match s with EmptyString => true | String _ _ => false end.

(** [sub in s] with [s] starting at the current position. *)
Fixpoint startswith (sub s : string) : bool :=
  match sub, s with
  | EmptyString, _ => true
  | String a sub', String b s' => Ascii.eqb a b && startswith sub' s'
  | String _ _, EmptyString => false
  end.

(** [sub in s] *)
Fixpoint contains (sub s : string) : bool :=
  startswith sub s ||
  match s with
  | EmptyString => false
  | String _ s' => contains sub s'
  end.

(** [s.find(sub)]: the lowest index where [sub] starts, [-1] when absent. *)
Fixpoint find_from (i : Z) (sub s : string) : Z :=
  if startswith sub s then i
  else match s with
       | EmptyString => -1
       | String _ s' => find_from (i + 1) sub s'
       end.

Definition find (sub s : string) : Z := find_from 0 sub s.

Fixpoint take (n : nat) (s : string) : string :=
  match n, s with
  | S k, String c s' => String c (take k s')
  | _, _ => EmptyString
  end.

Fixpoint drop (n : nat) (s : string) : string :=
  match n, s with
  | S k, String _ s' => drop k s'
  | _, _ => s
  end.

(** [s[a:b]] for indices [0 <= a] and [0 <= b], the only ones the service
    computes. *)
Definition slice (a b : Z) (s : string) : string :=
  take (Z.to_nat (b - a)) (drop (Z.to_nat a) s).

Fixpoint lstrip (s : string) : string :=
  match s with
  | EmptyString => EmptyString
  | String c s' => if isspace c then lstrip s' else s
  end.

Fixpoint rstrip (s : string) : string :=
  match s with
  | EmptyString => EmptyString
  | String c s' =>
      let r := rstrip s' in
      if is_empty r && isspace c then EmptyString else String c r
  end.

(** [s.strip()] *)
Definition strip (s : string) : string := rstrip (lstrip s).

(** [s.replace(old, new)] for a non-empty [old]: the occurrences are taken
    from the left and do not overlap; [skip] counts the characters of the
    occurrence just replaced that are still to be passed over. *)
Fixpoint replace_skip (old new s : string) (skip : nat) : string :=
  match s with
  | EmptyString => EmptyString
  | String c s' =>
      match skip with
      | S k => replace_skip old new s' k
      | O =>
          if startswith old s
          then new +:+ replace_skip old new s' (String.length old - 1)
          else String c (replace_skip old new s' 0)
      end
  end.

(** With an empty [old] Python puts [new] before every character and at
    the end. *)
Fixpoint intersperse (new s : string) : string :=
  match s with
  | EmptyString => new
  | String c s' => new +:+ String c (intersperse new s')
  end.

Definition replace (old new s : string) : string :=
  if is_empty old then intersperse new s else replace_skip old new s 0.

(** [s.split(sep)] for a one-character separator: never the empty list. *)
Fixpoint split (sep : ascii) (s : string) : list string :=
  match s with
  | EmptyString => [EmptyString]
  | String c s' =>
      if Ascii.eqb c sep then EmptyString :: split sep s'
      else match split sep s' with
           | [] => [String c EmptyString]
           | p :: ps => String c p :: ps
           end
  end.

(** [l[-1]] of a list that holds at least one string. *)
Definition last_item (l : list string) : string := List.last l EmptyString.

End PyStr.

(* ===================================================================== *)
(** * JSON values and [json.dumps] *)
(* ===================================================================== *)

(** The Python values the service serialises: [None], [bool], [int], [str],
    [list] and [dict] with [str] keys (a [dict] keeps its insertion order). *)
#[local] Set Warnings "-register-all".

Inductive json : Type :=
| JNull
| JBool (b : bool)
| JInt (z : Z)
| JStr (s : string)
| JList (l : list json)
| JDict (kv : list (string * json)).

Module Json.

(** The one-character string holding the double quote. *)
Definition quote : string := String (ascii_of_N 34) EmptyString.

Definition hex_digit (n : N) : ascii :=
  ascii_of_N (if (n <? 10)%N then 48 + n else 87 + n)%N.

(** ["\\u{0:04x}"] for a code point below 256 *)
Definition escape_u (c : ascii) : string :=
  let n := PyStr.code c in
  "\u00" +:+ String (hex_digit (n / 16)) (String (hex_digit (n mod 16)) EmptyString).

(** One character under [ensure_ascii=True]: the quote, the backslash and
    everything outside [' '..'~'] are escaped. *)
Definition escape_char (c : ascii) : string :=
  let n := PyStr.code c in
  if (n =? 34)%N then String "\" quote
  else if (n =? 92)%N then "\\"
  else if (n =? 10)%N then "\n"
  else if (n =? 13)%N then "\r"
  else if (n =? 9)%N then "\t"
  else if (n =? 8)%N then "\b"
  else if (n =? 12)%N then "\f"
  else if ((n <? 32) || (126 <? n))%N then escape_u c
  else String c EmptyString.

Fixpoint escape (s : string) : string :=
  match s with
  | EmptyString => EmptyString
  | String c s' => escape_char c +:+ escape s'
  end.

Definition dumps_str (s : string) : string := quote +:+ escape s +:+ quote.

Definition dumps_int (z : Z) : string := NilZero.string_of_int (Z.to_int z).

(** [", ".join(parts)] *)
Fixpoint join (parts : list string) : string :=
  match parts with
  | [] => EmptyString
  | [p] => p
  | p :: ps => p +:+ ", " +:+ join ps
  end.

(** [json.dumps(v)] with the default separators [", "] and [": "]. *)
Fixpoint dumps (v : json) : string :=
  match v with
  | JNull => "null"
  | JBool true => "true"
  | JBool false => "false"
  | JInt z => dumps_int z
  | JStr s => dumps_str s
  | JList l => "[" +:+ join (List.map dumps l) +:+ "]"
  | JDict kv =>
      "{" +:+ join (List.map (fun p => dumps_str (fst p) +:+ ": " +:+ dumps (snd p)) kv)
          +:+ "}"
  end.

End Json.

(* ===================================================================== *)
(** * The two regular expressions of the citation extractors *)
(* ===================================================================== *)

Module Re.

(** The longest prefix of [s] whose characters satisfy [p]: a greedy
    character class under [+] or [*]. *)
Fixpoint span (p : ascii -> bool) (s : string) : string :=
  match s with
  | EmptyString => EmptyString
  | String c s' => if p c then String c (span p s') else EmptyString
  end.

Definition one_of (codes : list N) (c : ascii) : bool :=
  existsb (N.eqb (PyStr.code c)) codes.

(** The class [[^\s<>\x22{}|\\^`\[\]]] of the URL pattern, its double
    quote written [\x22] here. *)
Definition url_char (c : ascii) : bool :=
  negb (PyStr.isspace c)
  && negb (one_of [60; 62; 34; 123; 125; 124; 92; 94; 96; 91; 93]%N c).

(** [https?://C+] anchored at the start of [s], for a character class [C];
    the match when there is one.  After [http] an [s] can only be consumed
    by [s?], so no other way of matching exists. *)
Definition match_scheme (cls : ascii -> bool) (s : string) : option string :=
  let scheme :=
    if PyStr.startswith "https://" s then Some "https://"
    else if PyStr.startswith "http://" s then Some "http://"
    else None in
  match scheme with
  | None => None
  | Some sch =>
      let body := span cls (PyStr.drop (String.length sch) s) in
      if PyStr.is_empty body then None else Some (sch +:+ body)
  end.

(** [https?://[^\s<>\x22{}|\\^`\[\]]+] anchored at the start of [s]. *)
Definition match_url (s : string) : option string := match_scheme url_char s.

(** [re.findall] of the URL pattern: the matches from the left, the scan
    resuming where a match ends; [skip] counts the characters of the last
    match still to be passed over. *)
Fixpoint findall_urls_skip (s : string) (skip : nat) : list string :=
  match s with
  | EmptyString => []
  | String _ s' =>
      match skip with
      | S k => findall_urls_skip s' k
      | O =>
          match match_url s with
          | Some u => u :: findall_urls_skip s' (String.length u - 1)
          | None => findall_urls_skip s' 0
          end
      end
  end.

Definition findall_urls (s : string) : list string := findall_urls_skip s 0.

Definition not_code (n : N) (c : ascii) : bool := negb (N.eqb (PyStr.code c) n).

(** [\[([^\]]+)\]\((https?://[^\)]+)\)] anchored at the start of [s]: the
    two groups and the length of the whole match.  Both classes are greedy
    and each is followed by the one character it excludes, so a shorter
    repetition never matches where the longest one fails. *)
Definition match_markdown_link (s : string) : option (string * string * nat) :=
  match s with
  | String c r =>
      if N.eqb (PyStr.code c) 91 then
        let title := span (not_code 93) r in
        let r1 := PyStr.drop (String.length title) r in
        if PyStr.is_empty title then None
        else if PyStr.startswith "](" r1 then
          match match_scheme (not_code 41) (PyStr.drop 2 r1) with
          | Some url =>
              if PyStr.startswith ")" (PyStr.drop (2 + String.length url) r1)
              then Some (title, url, (String.length title + String.length url + 4)%nat)
              else None
          | None => None
          end
        else None
      else None
  | EmptyString => None
  end.

(** [re.findall] of the markdown-link pattern: one [(title, url)] pair of
    groups per match. *)
Fixpoint findall_markdown_links_skip (s : string) (skip : nat)
  : list (string * string) :=
  match s with
  | EmptyString => []
  | String _ s' =>
      match skip with
      | S k => findall_markdown_links_skip s' k
      | O =>
          match match_markdown_link s with
          | Some (title, url, n) =>
              (title, url) :: findall_markdown_links_skip s' (n - 1)
          | None => findall_markdown_links_skip s' 0
          end
      end
  end.

Definition findall_markdown_links (s : string) : list (string * string) :=
  findall_markdown_links_skip s 0.

End Re.

(* ===================================================================== *)
(** * Citations *)
(* ===================================================================== *)

(** The dict literal built by both extractors. *)
Module Citation.

Record t : Type := mk {
  id : Z;
  url : string;
  title : string;
  sourceType : string;
  snippet : string
}.

(** The dict itself, its keys in the order of the literal. *)
Definition to_json (c : t) : json :=
  JDict [("id", JInt (id c)); ("url", JStr (url c)); ("title", JStr (title c));
         ("sourceType", JStr (sourceType c)); ("snippet", JStr (snippet c))].

Definition keys (v : json) : list string :=
  match v with
  | JDict kv => List.map fst kv
  | _ => []
  end.

End Citation.

(** [_extract_title_near_url] *)
Definition _extract_title_near_url (text url : string) : option string :=
  let url_pos := PyStr.find url text in
  if (0 <? url_pos)%Z then
    let before_text := PyStr.strip (PyStr.slice (Z.max 0 (url_pos - 100)) url_pos text) in
    let sentences := PyStr.split "." before_text in
    match sentences with
    | [] => None
    | _ :: _ => Some (PyStr.strip (PyStr.last_item sentences))
    end
  else None.

(** [title or url]: [None] and the empty string are both false. *)
Definition title_or (title : option string) (url : string) : string :=
  match title with
  | Some t => if PyStr.is_empty t then url else t
  | None => url
  end.

(** [finding[:200] + "..." if len(finding) > 200 else finding] *)
Definition snippet_of (finding : string) : string :=
  if (200 <? PyStr.len finding)%Z then PyStr.take 200 finding +:+ "..." else finding.

(** The state of an extraction loop: [citations] and [citation_id]. *)
Definition extraction : Type := list Citation.t * Z.

(** The body of the inner loop of [_extract_citations_from_findings]. *)
Definition findings_step (finding : string) (st : extraction) (url : string)
  : extraction :=
  let '(citations, citation_id) := st in
  let title := _extract_title_near_url finding url in
  (citations ++ [Citation.mk citation_id url (title_or title url) "web"
                   (snippet_of finding)],
   citation_id + 1).

(** [_extract_citations_from_findings] *)
Definition _extract_citations_from_findings (findings : list string)
  : list Citation.t :=
  fst (fold_left
         (fun st finding => fold_left (findings_step finding) (Re.findall_urls finding) st)
         findings ([], 1)).

(** The body of the loop over the markdown links. *)
Definition markdown_step (st : extraction) (link : string * string) : extraction :=
  let '(citations, citation_id) := st in
  let '(title, url) := link in
  (citations ++ [Citation.mk citation_id url title "web" EmptyString],
   citation_id + 1).

(** [any(c["url"] == url for c in citations)] *)
Definition any_url (url : string) (citations : list Citation.t) : bool :=
  existsb (fun c => String.eqb (Citation.url c) url) citations.

(** The body of the loop over the plain URLs. *)
Definition plain_step (st : extraction) (url : string) : extraction :=
  let '(citations, citation_id) := st in
  if negb (any_url url citations) then
    (citations ++ [Citation.mk citation_id url url "web" EmptyString],
     citation_id + 1)
  else st.

(** [_extract_citations_from_report] *)
Definition _extract_citations_from_report (report : string) : list Citation.t :=
  let markdown_links := Re.findall_markdown_links report in
  let st := fold_left markdown_step markdown_links ([], 1) in
  let plain_urls := Re.findall_urls report in
  fst (fold_left plain_step plain_urls st).

(* ===================================================================== *)
(** * Events, exceptions and the objects of the library *)
(* ===================================================================== *)

(** [ResearchEvent]: the model of the events kept in [self.events]. *)
Module ResearchEvent.
Record t : Type := mk { type : string; data : json }.
End ResearchEvent.

(** A coroutine object [self._emit_event(event_type, data)] that has not run
    yet. *)
Inductive coroutine : Type :=
| EmitEvent (event_type : string) (data : json).

(** A raised exception: [type(e).__name__], [str(e)] and
    [isinstance(e, Exception)]. The classes [asyncio.CancelledError],
    [KeyboardInterrupt], [GeneratorExit] and [SystemExit] derive from
    [BaseException] and not from [Exception]. *)
Record exception : Type := {
  exc_name : string;
  exc_str : string;
  is_Exception : bool
}.

(** The two [custom_log] closures. *)
Inductive interceptor : Type := IterativeLog | DeepLog.

(** What an attribute of a researcher can hold: an object or bound method of
    the library, named by a reference, or a [custom_log] closure together
    with the [original_log] it captured. *)
Inductive attr : Type :=
| Lib (ref : N)
| CustomLog (which : interceptor) (original_log : attr).

(** A researcher object ([IterativeResearcher] or [DeepResearcher]): the two
    attributes the wrapper names, and every other attribute by name. *)
Record researcher_obj : Type := {
  _log_message : attr;
  conversation : N;
  other_attrs : gmap string N
}.

(** What the wrapper does to the library, in program order. *)
Inductive access : Type :=
| Construct (cls : string)
| GetAttr (name : string)
| SetAttr (name : string)
| Call (method : string)
| RunReturned (report : string).

(** The behaviour of the [deep_researcher] library during one request, for
    the arguments the wrapper passes: whether the constructors raise, the
    messages [run] passes to [self._log_message], what [run] returns or
    raises (a cancellation of the request while [run] is awaited is raised
    there, as [asyncio.CancelledError]), and the findings of the
    conversation after it. *)
Record library : Type := {
  LLMConfig_result : option exception;
  Researcher_result : exception + researcher_obj;
  run_logs : list string;
  run_result : exception + string;
  all_findings : list string
}.

(** The state a request runs in. *)
Record world : Type := {
  sse : list string;                  (* what the generator has yielded *)
  events : list ResearchEvent.t;      (* self.events *)
  tasks : list coroutine;             (* the coroutines given to
                                         asyncio.create_task, not yet run *)
  schedule : list nat;                (* how many pending tasks the event loop
                                         runs at each coming suspension *)
  iteration_count : Z;                (* iteration_count[0] *)
  researcher : option researcher_obj; (* the local variable researcher *)
  trace : list access;
  original_log_calls : list (N * string)  (* the calls the library's own
                                         functions received *)
}.

Definition with_sse (f : list string -> list string) (w : world) : world :=
  {| sse := f (sse w); events := events w; tasks := tasks w;
     schedule := schedule w; iteration_count := iteration_count w;
     researcher := researcher w; trace := trace w;
     original_log_calls := original_log_calls w |}.

Definition with_loop
  (f : list ResearchEvent.t * list coroutine * list nat ->
       list ResearchEvent.t * list coroutine * list nat) (w : world) : world :=
  let st := f (events w, tasks w, schedule w) in
  {| sse := sse w; events := st.1.1; tasks := st.1.2;
     schedule := st.2; iteration_count := iteration_count w;
     researcher := researcher w; trace := trace w;
     original_log_calls := original_log_calls w |}.

Definition with_iteration_count (f : Z -> Z) (w : world) : world :=
  {| sse := sse w; events := events w; tasks := tasks w;
     schedule := schedule w; iteration_count := f (iteration_count w);
     researcher := researcher w; trace := trace w;
     original_log_calls := original_log_calls w |}.

Definition with_researcher (r : option researcher_obj) (w : world) : world :=
  {| sse := sse w; events := events w; tasks := tasks w;
     schedule := schedule w; iteration_count := iteration_count w;
     researcher := r; trace := trace w;
     original_log_calls := original_log_calls w |}.

Definition with_trace (a : access) (w : world) : world :=
  {| sse := sse w; events := events w; tasks := tasks w;
     schedule := schedule w; iteration_count := iteration_count w;
     researcher := researcher w; trace := trace w ++ [a];
     original_log_calls := original_log_calls w |}.

Definition with_original_log_call (c : N * string) (w : world) : world :=
  {| sse := sse w; events := events w; tasks := tasks w;
     schedule := schedule w; iteration_count := iteration_count w;
     researcher := researcher w; trace := trace w;
     original_log_calls := original_log_calls w ++ [c] |}.

(* ===================================================================== *)
(** * The monad of the generator bodies: state and exceptions *)
(* ===================================================================== *)

Inductive result (A : Type) : Type :=
| Ok (a : A)
| Raise (e : exception).
Arguments Ok {A} a.
Arguments Raise {A} e.

Definition gen (A : Type) : Type := world -> result A * world.

#[export] Instance gen_ret : MRet gen := fun A a w => (Ok a, w).

#[export] Instance gen_bind : MBind gen := fun A B k m w =>
  match m w with
  | (Ok a, w') => k a w'
  | (Raise e, w') => (Raise e, w')
  end.

Definition raise {A : Type} (e : exception) : gen A := fun w => (Raise e, w).

(** [try: body except Exception as e: handler(e)]: the clause catches the
    instances of [Exception]; any other exception leaves the statement as it
    was raised. *)
Definition try_except {A : Type} (body : gen A) (handler : exception -> gen A)
  : gen A := fun w =>
  match body w with
  | (Ok a, w') => (Ok a, w')
  | (Raise e, w') => if is_Exception e then handler e w' else (Raise e, w')
  end.

Definition get {A : Type} (f : world -> A) : gen A := fun w => (Ok (f w), w).

Definition modify (f : world -> world) : gen unit := fun w => (Ok tt, f w).

(** [for x in l: body(x)] *)
Fixpoint for_each {A : Type} (l : list A) (body : A -> gen unit) : gen unit :=
  match l with
  | [] => mret tt
  | x :: rest => body x ;; for_each rest body
  end.

(** [_emit_event]: [self.events.append(ResearchEvent(type=event_type,
    data=data))], on the list [self.events]. *)
Definition _emit_event (event_type : string) (data : json)
  (events : list ResearchEvent.t) : list ResearchEvent.t :=
  events ++ [ResearchEvent.mk event_type data].

Definition run_coroutine (events : list ResearchEvent.t) (c : coroutine)
  : list ResearchEvent.t :=
  match c with
  | EmitEvent event_type data => _emit_event event_type data events
  end.

(** The event loop runs the first [n] pending tasks, in the order they were
    created. *)
Definition run_tasks (n : nat)
  (st : list ResearchEvent.t * list coroutine * list nat)
  : list ResearchEvent.t * list coroutine * list nat :=
  (fold_left run_coroutine (take n st.1.2) st.1.1, drop n st.1.2, st.2).

(** A point where the running coroutine gives control back to the loop. *)
Definition suspend : gen unit :=
  modify (with_loop (fun st =>
    match st.2 with
    | [] => st
    | n :: sc' => run_tasks n (st.1, sc')
    end)).

(** [yield chunk] *)
Definition yield (chunk : string) : gen unit :=
  modify (with_sse (fun out => out ++ [chunk])) ;; suspend.

(* ===================================================================== *)
(** * [StreamingResearchWrapper] *)
(* ===================================================================== *)

(** Two line feeds. *)
Definition nl2 : string := String (ascii_of_N 10) (String (ascii_of_N 10) EmptyString).

(** [_format_event] *)
Definition _format_event (event_type : string) (data : json) : string :=
  let event_json := Json.dumps (JDict [("type", JStr event_type); ("data", data)]) in
  "data: " +:+ event_json +:+ nl2.

(** [asyncio.create_task(self._emit_event(event_type, data))]: the coroutine
    is handed to the loop and the task object is dropped; the body of
    [_emit_event] runs when the loop runs the task. *)
Definition create_task_emit_event (event_type : string) (data : json) : gen unit :=
  modify (with_loop (fun st =>
    (st.1.1, st.1.2 ++ [EmitEvent event_type data], st.2))).

(** [message.replace("<tag>", "").replace("</tag>", "").strip()] *)
Definition untag (open close message : string) : string :=
  PyStr.strip (PyStr.replace close EmptyString (PyStr.replace open EmptyString message)).

(** The [if]/[elif] chain of [custom_log] in [stream_iterative_research]. *)
Definition iterative_chain (message : string) : gen unit :=
  if PyStr.contains "Starting Iteration" message then
    modify (with_iteration_count (fun n => n + 1)) ;;
    n ← get iteration_count;
    create_task_emit_event "iteration_start"
      (JDict [("iteration", JInt n); ("message", JStr message)])
  else if PyStr.contains "<thought>" message then
    create_task_emit_event "observations"
      (JDict [("content", JStr (untag "<thought>" "</thought>" message))])
  else if PyStr.contains "<task>" message then
    create_task_emit_event "gap_detected"
      (JDict [("gap", JStr (untag "<task>" "</task>" message))])
  else if PyStr.contains "<action>" message then
    create_task_emit_event "tool_selection"
      (JDict [("tools", JStr (untag "<action>" "</action>" message))])
  else if PyStr.contains "Tool execution progress" message then
    create_task_emit_event "tool_progress" (JDict [("message", JStr message)])
  else if PyStr.contains "<findings>" message then
    create_task_emit_event "findings_update"
      (JDict [("findings", JStr (untag "<findings>" "</findings>" message))])
  else if PyStr.contains "Drafting Final Response" message then
    create_task_emit_event "finalizing"
      (JDict [("message", JStr "Creating final report...")])
  else mret tt.

(** The [if]/[elif] chain of [custom_log] in [stream_deep_research]. *)
Definition deep_chain (message : string) : gen unit :=
  if PyStr.contains "Building Report Plan" message then
    create_task_emit_event "planning"
      (JDict [("message", JStr "Creating report outline...")])
  else if PyStr.contains "Report plan created with" message then
    create_task_emit_event "plan_created" (JDict [("message", JStr message)])
  else if PyStr.contains "Initializing Research Loops" message then
    create_task_emit_event "research_start"
      (JDict [("message", JStr "Starting parallel section research...")])
  else if PyStr.contains "Building Final Report" message then
    create_task_emit_event "finalizing"
      (JDict [("message", JStr "Compiling final report...")])
  else if PyStr.contains "completed in" message then
    create_task_emit_event "progress" (JDict [("message", JStr message)])
  else mret tt.

Definition chain (which : interceptor) : string -> gen unit :=
  match which with
  | IterativeLog => iterative_chain
  | DeepLog => deep_chain
  end.

(** Calling what an attribute holds with one message: a function of the
    library receives it; a [custom_log] closure runs its chain and then
    [original_log(message)]. *)
Fixpoint call_log (f : attr) (message : string) : gen unit :=
  match f with
  | Lib ref => modify (with_original_log_call (ref, message))
  | CustomLog which original_log =>
      chain which message ;; call_log original_log message
  end.

(** [custom_log] of [stream_iterative_research], closed over [original_log]. *)
Definition custom_log (original_log : attr) (message : string) : gen unit :=
  iterative_chain message ;; call_log original_log message.

(** [custom_log] of [stream_deep_research]. *)
Definition custom_log_deep (original_log : attr) (message : string) : gen unit :=
  deep_chain message ;; call_log original_log message.

(** ** The calls into the library *)

Section Wrapper.

Variable lib : library.

Definition log_access (a : access) : gen unit := modify (with_trace a).

(** [LLMConfig(search_provider="openai", ...)] *)
Definition new_LLMConfig : gen unit :=
  log_access (Construct "LLMConfig") ;;
  match LLMConfig_result lib with
  | Some e => raise e
  | None => mret tt
  end.

(** [researcher = IterativeResearcher(...)] or [DeepResearcher(...)] *)
Definition new_Researcher (cls : string) : gen unit :=
  log_access (Construct cls) ;;
  match Researcher_result lib with
  | inl e => raise e
  | inr obj => modify (with_researcher (Some obj))
  end.

(** The object bound to the local variable [researcher]. *)
Definition the_researcher : gen researcher_obj :=
  r ← get researcher;
  match r with
  | Some obj => mret obj
  | None => raise {| exc_name := "UnboundLocalError"; exc_str := "researcher";
                     is_Exception := true |}
  end.

(** [researcher._log_message] *)
Definition get_log_message : gen attr :=
  log_access (GetAttr "_log_message") ;;
  obj ← the_researcher;
  mret (_log_message obj).

(** [researcher._log_message = f] *)
Definition set_log_message (f : attr) : gen unit :=
  log_access (SetAttr "_log_message") ;;
  obj ← the_researcher;
  modify (with_researcher (Some
    {| _log_message := f; conversation := conversation obj;
       other_attrs := other_attrs obj |})).

(** [await researcher.run(...)]: the library logs through the attribute
    [_log_message] of the object, whatever it holds at that time, and may
    give control to the loop before each message and before it ends. *)
Definition run : gen string :=
  log_access (Call "run") ;;
  for_each (run_logs lib) (fun message =>
    suspend ;;
    obj ← the_researcher;
    call_log (_log_message obj) message) ;;
  suspend ;;
  match run_result lib with
  | inl e => raise e
  | inr report => log_access (RunReturned report) ;; mret report
  end.

(** [researcher.conversation.get_all_findings()] *)
Definition get_all_findings : gen (list string) :=
  log_access (GetAttr "conversation") ;;
  log_access (Call "get_all_findings") ;;
  mret (all_findings lib).

Definition error_event (e : exception) : gen unit :=
  yield (_format_event "error"
           (JDict [("error", JStr (exc_str e)); ("type", JStr (exc_name e))])).

(** The [try] block of [stream_iterative_research]. *)
Definition iterative_body
  (query : string) (max_iterations max_time_minutes : Z)
  (output_length background_context : string) : gen unit :=
    (yield (_format_event "started"
              (JDict [("mode", JStr "iterative"); ("query", JStr query);
                      ("max_iterations", JInt max_iterations);
                      ("max_time_minutes", JInt max_time_minutes)])) ;;
     new_LLMConfig ;;
     new_Researcher "IterativeResearcher" ;;
     original_log ← get_log_message;
     modify (with_iteration_count (fun _ => 0)) ;;
     set_log_message (CustomLog IterativeLog original_log) ;;
     report ← run;
     findings ← get_all_findings;
     let citations := _extract_citations_from_findings findings in
     for_each citations (fun citation =>
       yield (_format_event "citation" (Citation.to_json citation))) ;;
     n ← get iteration_count;
     yield (_format_event "final_report"
              (JDict [("report", JStr report);
                      ("citations", JList (List.map Citation.to_json citations));
                      ("iterations", JInt n)])) ;;
     yield (_format_event "completed"
              (JDict [("message", JStr "Research completed successfully")]))).

(** [stream_iterative_research] *)
Definition stream_iterative_research
  (query : string) (max_iterations max_time_minutes : Z)
  (output_length background_context : string) : gen unit :=
  try_except
    (iterative_body query max_iterations max_time_minutes
       output_length background_context)
    error_event.

(** The [try] block of [stream_deep_research]; its [section_count] is
    never used. *)
Definition deep_body
  (query : string) (max_iterations max_time_minutes : Z) : gen unit :=
    (yield (_format_event "started"
              (JDict [("mode", JStr "deep"); ("query", JStr query);
                      ("max_iterations", JInt max_iterations);
                      ("max_time_minutes", JInt max_time_minutes)])) ;;
     new_LLMConfig ;;
     new_Researcher "DeepResearcher" ;;
     original_log ← get_log_message;
     set_log_message (CustomLog DeepLog original_log) ;;
     report ← run;
     let citations := _extract_citations_from_report report in
     for_each citations (fun citation =>
       yield (_format_event "citation" (Citation.to_json citation))) ;;
     yield (_format_event "final_report"
              (JDict [("report", JStr report);
                      ("citations", JList (List.map Citation.to_json citations))])) ;;
     yield (_format_event "completed"
              (JDict [("message", JStr "Deep research completed successfully")]))).

(** [stream_deep_research] *)
Definition stream_deep_research
  (query : string) (max_iterations max_time_minutes : Z) : gen unit :=
  try_except (deep_body query max_iterations max_time_minutes) error_event.

End Wrapper.

(** The state at the start of a request: [StreamingResearchWrapper()] has
    just set [self.events = []]; [sched] is what the event loop will do. *)
Definition new_world (sched : list nat) : world :=
  {| sse := []; events := []; tasks := []; schedule := sched;
     iteration_count := 0; researcher := None; trace := [];
     original_log_calls := [] |}.

(* ===================================================================== *)
(** * [ResearchRequest] and the endpoint [POST /research/stream] *)
(* ===================================================================== *)

Module ResearchRequest.
Record t : Type := mk {
  query : string;
  mode : string;
  max_iterations : Z;
  max_time_minutes : Z;
  output_length : string;
  background_context : string
}.
End ResearchRequest.

(** What the endpoint answers. *)
Inductive response : Type :=
| ValidationError                     (* the body is refused: no handler runs *)
| EventSourceResponse (body : gen unit)
| HTTPException (status_code : Z) (detail : string).

Section Endpoint.

(** How pydantic reads a JSON value for an [int] field and for a [str]
    field ([None] when it refuses the value); pydantic is not part of the
    repository, the results below hold for every such reading. *)
Variable as_int : json -> option Z.
Variable as_str : json -> option string.

(** A field with a default: absent from the body, the default. *)
Definition field {A : Type} (body : gmap string json) (name : string)
  (default : A) (read : json -> option A) : option A :=
  match body !! name with
  | None => Some default
  | Some v => read v
  end.

(** [Literal["iterative", "deep"]] *)
Definition as_mode (v : json) : option string :=
  match v with
  | JStr s => if String.eqb s "iterative" || String.eqb s "deep" then Some s else None
  | _ => None
  end.

(** [Field(..., ge=lo, le=hi)] on an [int] *)
Definition as_bounded_int (lo hi : Z) (v : json) : option Z :=
  n ← as_int v;
  if (lo <=? n) && (n <=? hi) then Some n else None.

(** The validation of the body against [ResearchRequest]. *)
Definition validate (body : gmap string json) : option ResearchRequest.t :=
  query ← body !! "query" ≫= as_str;
  mode ← field body "mode" "iterative" as_mode;
  max_iterations ← field body "max_iterations" 5 (as_bounded_int 1 20);
  max_time_minutes ← field body "max_time_minutes" 10 (as_bounded_int 1 60);
  output_length ← field body "output_length" "5 pages" as_str;
  background_context ← field body "background_context" EmptyString as_str;
  Some (ResearchRequest.mk query mode max_iterations max_time_minutes
          output_length background_context).

Variable lib : library.

(** [stream_research] *)
Definition stream_research (request : ResearchRequest.t) : response :=
  if String.eqb (ResearchRequest.mode request) "iterative" then
    EventSourceResponse
      (stream_iterative_research lib
         (ResearchRequest.query request)
         (ResearchRequest.max_iterations request)
         (ResearchRequest.max_time_minutes request)
         (ResearchRequest.output_length request)
         (ResearchRequest.background_context request))
  else if String.eqb (ResearchRequest.mode request) "deep" then
    EventSourceResponse
      (stream_deep_research lib
         (ResearchRequest.query request)
         (ResearchRequest.max_iterations request)
         (ResearchRequest.max_time_minutes request))
  else
    HTTPException 400 ("Invalid mode: " +:+ ResearchRequest.mode request).

(** [POST /research/stream]: the handler runs on a validated request only. *)
Definition post_research_stream (body : gmap string json) : response :=
  match validate body with
  | Some request => stream_research request
  | None => ValidationError
  end.

End Endpoint.

(** A reading that accepts JSON integers and JSON strings as they are. *)
Definition exact_int (v : json) : option Z :=
  match v with JInt z => Some z | _ => None end.

Definition exact_str (v : json) : option string :=
  match v with JStr s => Some s | _ => None end.

(* ===================================================================== *)
(** * The embedding on concrete inputs *)
(* ===================================================================== *)

Example strip_ex : PyStr.strip "  a b
 " = "a b".
Proof. reflexivity. Qed.

Example replace_ex :
  PyStr.replace "<thought>" EmptyString "<thought>x<thought></thought>" = "x</thought>".
Proof. reflexivity. Qed.

Example replace_overlap_ex : PyStr.replace "aa" "b" "aaaaa" = "bba".
Proof. reflexivity. Qed.

Example split_ex : PyStr.split "." "a.b..c." = ["a"; "b"; EmptyString; "c"; EmptyString].
Proof. reflexivity. Qed.

Example find_ex : PyStr.find "lo" "hello" = 3 /\ PyStr.find "z" "hello" = -1.
Proof. split; reflexivity. Qed.

Example slice_ex : PyStr.slice 1 3 "hello" = "el" /\ PyStr.slice 2 9 "hello" = "llo".
Proof. split; reflexivity. Qed.

Example dumps_ex :
  Json.dumps (JDict [("type", JStr "a<b"); ("data", JDict [("n", JInt (-12)); ("l", JList [JInt 0; JNull])])])
  = "{" +:+ Json.quote +:+ "type" +:+ Json.quote +:+ ": " +:+ Json.quote +:+ "a<b" +:+ Json.quote +:+ ", "
     +:+ Json.quote +:+ "data" +:+ Json.quote +:+ ": {" +:+ Json.quote +:+ "n" +:+ Json.quote +:+ ": -12, "
     +:+ Json.quote +:+ "l" +:+ Json.quote +:+ ": [0, null]}}".
Proof. reflexivity. Qed.

Example escape_ex :
  Json.escape (String (ascii_of_N 10) (String (ascii_of_N 233) (String (ascii_of_N 31) "a\")))
  = "\n\u00e9\u001fa\\".
Proof. reflexivity. Qed.

Example findall_urls_ex :
  Re.findall_urls "see http://a.b/c, https://x.y) and https:// or http://[z] http://q"
  = ["http://a.b/c,"; "https://x.y)"; "http://q"].
Proof. reflexivity. Qed.

Example findall_markdown_links_ex :
  Re.findall_markdown_links "[a [b](http://x.y/z) then [c](ftp://n) [d](https://w)(e)"
  = [("a [b", "http://x.y/z"); ("d", "https://w")].
Proof. reflexivity. Qed.

Example findings_ex :
  _extract_citations_from_findings
    ["Intro. The paper  http://a.b/c says"; "https://x.y first"]
  = [Citation.mk 1 "http://a.b/c" "The paper" "web" "Intro. The paper  http://a.b/c says";
     Citation.mk 2 "https://x.y" "https://x.y" "web" "https://x.y first"].
Proof. reflexivity. Qed.

Example title_near_url_ex :
  _extract_title_near_url "One. Two three http://a.b" "http://a.b" = Some "Two three"
  /\ _extract_title_near_url "http://a.b first" "http://a.b" = None
  /\ _extract_title_near_url "Ends here. http://a.b" "http://a.b" = Some EmptyString.
Proof. repeat split; reflexivity. Qed.

Example url_stops_at_white_space :
  Re.findall_urls ("http://a.b" +:+ String "160" "c http://d.e" +:+ String "009" "f")
  = ["http://a.b"; "http://d.e"].
Proof. reflexivity. Qed.

Example report_ex :
  _extract_citations_from_report
    "[A](http://a.b) [B](http://a.b) http://c.d http://c.d"
  = [Citation.mk 1 "http://a.b" "A" "web" EmptyString;
     Citation.mk 2 "http://a.b" "B" "web" EmptyString;
     Citation.mk 3 "http://a.b)" "http://a.b)" "web" EmptyString;
     Citation.mk 4 "http://c.d" "http://c.d" "web" EmptyString].
Proof. reflexivity. Qed.

(** The closure stored in [_log_message] is [custom_log]. *)
Example stored_closure_is_custom_log (original_log : attr) (message : string) :
  call_log (CustomLog IterativeLog original_log) message = custom_log original_log message
  /\ call_log (CustomLog DeepLog original_log) message
     = custom_log_deep original_log message.
Proof. split; reflexivity. Qed.

(* ===================================================================== *)
(** * Properties of the citation extractors *)
(* ===================================================================== *)

Section Loops.

Context {A B : Type}.

(** A property of the loop state that every iteration keeps holds when the
    loop ends. *)
Lemma fold_left_keeps (P : B -> Prop) (f : B -> A -> B) (l : list A) :
  forall b, P b -> (forall b a, In a l -> P b -> P (f b a)) -> P (fold_left f l b).
Proof.
  induction l as [|a l IH]; intros b Hb Hstep; simpl; [exact Hb|].
  apply IH.
  - apply Hstep; [now left | exact Hb].
  - intros b' a' Hin. apply Hstep. now right.
Qed.

End Loops.

(** The loop state numbers the citations 1, 2, ... and [citation_id] is the
    next number. *)
Definition numbered (st : extraction) : Prop :=
  List.map Citation.id st.1 = List.map Z.of_nat (seq 1 (length st.1))
  /\ st.2 = Z.of_nat (length st.1) + 1.

Lemma numbered_start : numbered ([], 1).
Proof. split; reflexivity. Qed.

Lemma numbered_append (citations : list Citation.t) (citation_id : Z) (c : Citation.t) :
  numbered (citations, citation_id) -> Citation.id c = citation_id ->
  numbered (citations ++ [c], citation_id + 1).
Proof.
  intros [Hids Hnext] Hc; simpl in *. split; simpl.
  - rewrite map_app, length_app, Nat.add_1_r, seq_S, map_app, Hids. simpl.
    rewrite Hc, Hnext. do 2 f_equal. lia.
  - rewrite length_app. simpl. lia.
Qed.

Lemma findings_step_numbered (finding : string) (st : extraction) (url : string) :
  numbered st -> numbered (findings_step finding st url).
Proof.
  destruct st as [citations citation_id]. intros H.
  unfold findings_step. now apply numbered_append.
Qed.

Lemma markdown_step_numbered (st : extraction) (link : string * string) :
  numbered st -> numbered (markdown_step st link).
Proof.
  destruct st as [citations citation_id], link as [title url]. intros H.
  unfold markdown_step. now apply numbered_append.
Qed.

Lemma plain_step_numbered (st : extraction) (url : string) :
  numbered st -> numbered (plain_step st url).
Proof.
  destruct st as [citations citation_id]. intros H. unfold plain_step.
  destruct (negb (any_url url citations)); [now apply numbered_append | exact H].
Qed.

(** C9. Citation ids are consecutive: in the list returned by
    [_extract_citations_from_findings] and in the list returned by
    [_extract_citations_from_report], for every input, the ids read in order
    are 1, 2, ..., n with n the number of citations: the k-th citation
    (counting from 1) has id k, with no gap and no repeat. *)
Theorem citation_ids_consecutive (findings : list string) (report : string) :
  List.map Citation.id (_extract_citations_from_findings findings)
    = List.map Z.of_nat (seq 1 (length (_extract_citations_from_findings findings)))
  /\ List.map Citation.id (_extract_citations_from_report report)
    = List.map Z.of_nat (seq 1 (length (_extract_citations_from_report report))).
Proof.
  split.
  - unfold _extract_citations_from_findings.
    apply (fold_left_keeps numbered); [exact numbered_start|].
    intros st finding _ Hst.
    apply (fold_left_keeps numbered); [exact Hst|].
    intros st' url _. apply findings_step_numbered.
  - unfold _extract_citations_from_report.
    apply (fold_left_keeps numbered).
    + apply (fold_left_keeps numbered); [exact numbered_start|].
      intros st link _. apply markdown_step_numbered.
    + intros st url _. apply plain_step_numbered.
Qed.

(** ** The plain-URL pass of [_extract_citations_from_report] *)

Definition link_of (c : Citation.t) : string * string :=
  (Citation.title c, Citation.url c).

Lemma markdown_pass_links (links : list (string * string)) :
  forall st,
    List.map link_of (fold_left markdown_step links st).1
    = List.map link_of st.1 ++ links.
Proof.
  induction links as [|[title url] links IH]; intros [citations citation_id]; simpl.
  - now rewrite app_nil_r.
  - rewrite IH. simpl. rewrite map_app. simpl. now rewrite <- app_assoc.
Qed.

Lemma any_url_false (url : string) (citations : list Citation.t) (i : nat) (c : Citation.t) :
  any_url url citations = false -> citations !! i = Some c -> Citation.url c <> url.
Proof.
  unfold any_url. intros Hany Hi Heq.
  assert (Hex : existsb (fun c => String.eqb (Citation.url c) url) citations = true).
  { apply existsb_exists. exists c. split.
    - apply list_elem_of_In. eapply list_elem_of_lookup_2. exact Hi.
    - now apply String.eqb_eq. }
  congruence.
Qed.

(** What the plain-URL loop keeps: the first [n] citations are those of the
    markdown pass, and two citations with one URL are both among them. *)
Definition deduplicated (first : list Citation.t) (st : extraction) : Prop :=
  take (length first) st.1 = first
  /\ (length first <= length st.1)%nat
  /\ forall i j ci cj,
       (i < j)%nat -> st.1 !! i = Some ci -> st.1 !! j = Some cj ->
       Citation.url ci = Citation.url cj -> (j < length first)%nat.

Lemma deduplicated_start (first : list Citation.t) (citation_id : Z) :
  deduplicated first (first, citation_id).
Proof.
  repeat split; simpl.
  - apply firstn_all.
  - lia.
  - intros i j ci cj _ _ Hj _. now apply lookup_lt_Some in Hj.
Qed.

Lemma plain_step_deduplicated (first : list Citation.t) (st : extraction) (url : string) :
  deduplicated first st -> deduplicated first (plain_step st url).
Proof.
  destruct st as [citations citation_id]. intros (Htake & Hlen & Huniq).
  unfold plain_step. destruct (any_url url citations) eqn:Hany; simpl;
    [repeat split; assumption|].
  simpl in *. repeat split; simpl.
  - rewrite take_app_le by exact Hlen. exact Htake.
  - rewrite length_app. simpl. lia.
  - intros i j ci cj Hij Hi Hj Hurl.
    destruct (decide (j < length citations)%nat) as [Hlt|Hge].
    + rewrite lookup_app_l in Hi by lia. rewrite lookup_app_l in Hj by lia.
      eapply Huniq; eauto.
    + exfalso.
      assert (Hjlen : (j < length (citations ++ [Citation.mk citation_id url url "web" EmptyString]))%nat)
        by (eapply lookup_lt_Some; exact Hj).
      rewrite length_app in Hjlen. simpl in Hjlen.
      assert (j = length citations) by lia. subst j.
      rewrite lookup_app_l in Hi by lia.
      rewrite lookup_app_r in Hj by lia.
      rewrite Nat.sub_diag in Hj. simpl in Hj. inversion Hj; subst cj. simpl in Hurl.
      eapply any_url_false; eauto.
Qed.

(** C10. Partial deduplication in [_extract_citations_from_report]: the
    citations of the markdown-link pass come first, one per link and in the
    order of the links; a citation added during the plain-URL scan has a URL
    different from the URL of every citation before it in the list, so if
    two citations at positions i < j of the returned list have the same URL,
    the later one (hence both) comes from a markdown link.  That markdown
    links themselves may repeat a URL is [markdown_links_may_repeat]. *)
Theorem report_plain_urls_deduplicated (report : string) :
  let citations := _extract_citations_from_report report in
  let links := Re.findall_markdown_links report in
  List.map link_of (take (length links) citations) = links
  /\ forall i j ci cj,
       (i < j)%nat -> citations !! i = Some ci -> citations !! j = Some cj ->
       Citation.url ci = Citation.url cj -> (j < length links)%nat.
Proof.
  intros citations links.
  set (st0 := fold_left markdown_step links ([], 1)).
  assert (Hlinks : List.map link_of st0.1 = links)
    by (unfold st0; now rewrite markdown_pass_links).
  assert (Hlen : length st0.1 = length links)
    by (rewrite <- (length_map link_of), Hlinks; reflexivity).
  assert (H : deduplicated st0.1 (fold_left plain_step (Re.findall_urls report) st0)).
  { apply (fold_left_keeps (deduplicated st0.1)).
    - destruct st0 as [c n]. apply deduplicated_start.
    - intros st url _. apply plain_step_deduplicated. }
  destruct H as (Htake & _ & Huniq). rewrite Hlen in *.
  split.
  - unfold citations, _extract_citations_from_report. fold links. fold st0.
    now rewrite Htake.
  - exact Huniq.
Qed.

Lemma report_plain_urls_deduplicated_witness :
  let report := "[A](http://a.b) [B](http://a.b) http://c.d http://c.d" in
  (1 < length (Re.findall_markdown_links report))%nat.
Proof.
  intros report.
  refine (proj2 (report_plain_urls_deduplicated report) 0%nat 1%nat
            (Citation.mk 1 "http://a.b" "A" "web" EmptyString)
            (Citation.mk 2 "http://a.b" "B" "web" EmptyString) _ _ _ _).
  - lia.
  - reflexivity.
  - reflexivity.
  - reflexivity.
Defined.

(** Two markdown links to one URL give two citations with that URL. *)
Lemma markdown_links_may_repeat :
  List.map Citation.url
    (_extract_citations_from_report "[A](http://a.b) [B](http://a.b)")
  = ["http://a.b"; "http://a.b"; "http://a.b)"].
Proof. reflexivity. Qed.

(** ** The shape of a citation *)

Definition citation_keys : list string :=
  ["id"; "url"; "title"; "sourceType"; "snippet"].

(** What holds of a citation made from [finding] for the URL it carries. *)
Definition made_from_finding (finding : string) (c : Citation.t) : Prop :=
  (PyStr.len finding <= 200 -> Citation.snippet c = finding)
  /\ (200 < PyStr.len finding ->
      Citation.snippet c = PyStr.take 200 finding +:+ "...")
  /\ (forall t, _extract_title_near_url finding (Citation.url c) = Some t ->
                t <> EmptyString -> Citation.title c = t)
  /\ (_extract_title_near_url finding (Citation.url c) = None
      \/ _extract_title_near_url finding (Citation.url c) = Some EmptyString ->
      Citation.title c = Citation.url c).

(** The pairs of a finding and a URL found in it, in the order the two
    loops of [_extract_citations_from_findings] visit them: the findings in
    order, and for each the matches of the URL pattern in it, in order. *)
Definition sources (findings : list string) : list (string * string) :=
  flat_map (fun finding => List.map (pair finding) (Re.findall_urls finding))
    findings.

(** The citation [c] is the one made for the URL [source.2] found in the
    finding [source.1]: its snippet and its title come from that finding. *)
Definition findings_citation (source : string * string) (c : Citation.t) : Prop :=
  Citation.keys (Citation.to_json c) = citation_keys
  /\ Citation.sourceType c = "web"
  /\ Citation.url c = source.2
  /\ made_from_finding source.1 c.

Definition report_citation (c : Citation.t) : Prop :=
  Citation.keys (Citation.to_json c) = citation_keys
  /\ Citation.sourceType c = "web"
  /\ Citation.snippet c = EmptyString.

Lemma made_from_finding_step (finding url : string) (citation_id : Z) :
  made_from_finding finding
    (Citation.mk citation_id url (title_or (_extract_title_near_url finding url) url)
       "web" (snippet_of finding)).
Proof.
  unfold made_from_finding, snippet_of; simpl. repeat split.
  - intros H. destruct (Z.ltb_spec 200 (PyStr.len finding)); [lia | reflexivity].
  - intros H. destruct (Z.ltb_spec 200 (PyStr.len finding)); [reflexivity | lia].
  - intros t Ht Hne. rewrite Ht. simpl. destruct t; [congruence | reflexivity].
  - intros [H|H]; rewrite H; reflexivity.
Qed.

Lemma findings_step_shape (finding : string) (st : extraction) (url : string)
  (srcs : list (string * string)) :
  Forall2 findings_citation srcs st.1 ->
  Forall2 findings_citation (srcs ++ [(finding, url)])
    (findings_step finding st url).1.
Proof.
  destruct st as [citations citation_id]. intros H. unfold findings_step. simpl.
  apply Forall2_app; [exact H|]. constructor; [|constructor].
  split; [reflexivity|]. split; [reflexivity|]. split; [reflexivity|].
  apply made_from_finding_step.
Qed.

(** The inner loop, over the URLs of one finding. *)
Lemma findings_inner_shape (finding : string) (urls : list string) :
  forall (st : extraction) (srcs : list (string * string)),
    Forall2 findings_citation srcs st.1 ->
    Forall2 findings_citation (srcs ++ List.map (pair finding) urls)
      (fold_left (findings_step finding) urls st).1.
Proof.
  induction urls as [|url urls IH]; intros st srcs H; simpl.
  - now rewrite app_nil_r.
  - rewrite (cons_middle (finding, url)), app_assoc.
    apply IH. now apply findings_step_shape.
Qed.

(** The outer loop, over the findings. *)
Lemma findings_outer_shape (findings : list string) :
  forall (st : extraction) (srcs : list (string * string)),
    Forall2 findings_citation srcs st.1 ->
    Forall2 findings_citation (srcs ++ sources findings)
      (fold_left
         (fun st finding =>
            fold_left (findings_step finding) (Re.findall_urls finding) st)
         findings st).1.
Proof.
  unfold sources.
  induction findings as [|finding findings IH]; intros st srcs H; simpl.
  - now rewrite app_nil_r.
  - rewrite app_assoc. apply IH. now apply findings_inner_shape.
Qed.

(** What the two loops of [_extract_citations_from_report] keep: every
    citation has the report shape, and those after the first [n] have their
    URL as title. *)
Definition report_shape (n : nat) (st : extraction) : Prop :=
  Forall report_citation st.1
  /\ (n <= length st.1)%nat
  /\ Forall (fun c => Citation.title c = Citation.url c) (drop n st.1).

Lemma markdown_step_shape (st : extraction) (link : string * string) :
  Forall report_citation st.1 -> Forall report_citation (markdown_step st link).1.
Proof.
  destruct st as [citations citation_id], link as [title url]. intros H. simpl.
  apply Forall_app. split; [exact H|]. constructor; [|constructor].
  repeat split.
Qed.

Lemma plain_step_shape (n : nat) (st : extraction) (url : string) :
  report_shape n st -> report_shape n (plain_step st url).
Proof.
  destruct st as [citations citation_id]. intros (Hall & Hlen & Hplain).
  unfold plain_step. destruct (negb (any_url url citations));
    [|repeat split; assumption].
  simpl in *. repeat split; simpl.
  - apply Forall_app. split; [exact Hall|]. constructor; [|constructor]. repeat split.
  - rewrite length_app. simpl. lia.
  - rewrite drop_app_le by exact Hlen.
    apply Forall_app. split; [exact Hplain|]. constructor; [reflexivity|constructor].
Qed.

Lemma markdown_pass_length (links : list (string * string)) (st : extraction) :
  length (fold_left markdown_step links st).1 = (length st.1 + length links)%nat.
Proof.
  rewrite <- (length_map link_of), markdown_pass_links, length_app, length_map.
  reflexivity.
Qed.

(** C5. Citation record shape: every citation produced by
    [_extract_citations_from_findings] or [_extract_citations_from_report]
    is a dict with exactly the keys id, url, title, sourceType and snippet,
    and its sourceType is the string web.  In the findings variant there is
    one citation per URL found in a finding, in the order of the findings
    and of the URLs in each, and the citation of a URL comes from the
    finding the URL was found in (its source finding): its snippet is that
    finding when the finding has at most 200 characters and otherwise the
    first 200 characters followed by three dots, and its title is the text
    found near the URL in that finding, or the URL itself when none (or an
    empty one) is found.  In the report variant the snippet is the empty
    string, and every citation of the plain-URL scan, for which no title is
    looked for, has its URL as title. *)
Theorem citation_record_shape (findings : list string) (report : string) :
  Forall2 findings_citation (sources findings)
    (_extract_citations_from_findings findings)
  /\ Forall report_citation (_extract_citations_from_report report)
  /\ Forall (fun c => Citation.title c = Citation.url c)
       (drop (length (Re.findall_markdown_links report))
          (_extract_citations_from_report report)).
Proof.
  split.
  - unfold _extract_citations_from_findings.
    apply (findings_outer_shape findings ([], 1) []). constructor.
  - set (links := Re.findall_markdown_links report).
    set (st0 := fold_left markdown_step links ([], 1)).
    assert (H0 : report_shape (length links) st0).
    { repeat split.
      - apply (fold_left_keeps (fun st => Forall report_citation st.1)); [constructor|].
        intros st link _. apply markdown_step_shape.
      - unfold st0. rewrite markdown_pass_length. simpl. lia.
      - rewrite drop_ge; [constructor|].
        unfold st0. rewrite markdown_pass_length. simpl. lia. }
    assert (H : report_shape (length links)
                  (fold_left plain_step (Re.findall_urls report) st0)).
    { apply (fold_left_keeps (report_shape (length links))); [exact H0|].
      intros st url _. apply plain_step_shape. }
    destruct H as (Hall & _ & Hplain). split; assumption.
Qed.

(** Two findings with one URL each: every citation takes its snippet and
    its title from its own finding. *)
Lemma citation_record_shape_witness :
  Forall2 findings_citation
    [("A http://a.b", "http://a.b"); ("Second text. B http://c.d", "http://c.d")]
    [Citation.mk 1 "http://a.b" "A" "web" "A http://a.b";
     Citation.mk 2 "http://c.d" "B" "web" "Second text. B http://c.d"].
Proof.
  exact (proj1 (citation_record_shape
                  ["A http://a.b"; "Second text. B http://c.d"] EmptyString)).
Defined.

(* ===================================================================== *)
(** * The log interceptor of the iterative mode *)
(* ===================================================================== *)

(** The translation as a table, in the order the patterns are tried: the
    text looked for, the type of the event, and its data from the message
    and the iteration count. *)
Definition iterative_table : list (string * string * (string -> Z -> json)) :=
  [("Starting Iteration", "iteration_start",
      fun message n => JDict [("iteration", JInt n); ("message", JStr message)]);
   ("<thought>", "observations",
      fun message _ => JDict [("content",
        JStr (PyStr.strip (PyStr.replace "</thought>" EmptyString
                (PyStr.replace "<thought>" EmptyString message))))]);
   ("<task>", "gap_detected",
      fun message _ => JDict [("gap",
        JStr (PyStr.strip (PyStr.replace "</task>" EmptyString
                (PyStr.replace "<task>" EmptyString message))))]);
   ("<action>", "tool_selection",
      fun message _ => JDict [("tools",
        JStr (PyStr.strip (PyStr.replace "</action>" EmptyString
                (PyStr.replace "<action>" EmptyString message))))]);
   ("Tool execution progress", "tool_progress",
      fun message _ => JDict [("message", JStr message)]);
   ("<findings>", "findings_update",
      fun message _ => JDict [("findings",
        JStr (PyStr.strip (PyStr.replace "</findings>" EmptyString
                (PyStr.replace "<findings>" EmptyString message))))]);
   ("Drafting Final Response", "finalizing",
      fun _ _ => JDict [("message", JStr "Creating final report...")])].

(** The first row of the table whose text occurs in the message. *)
Definition first_match (message : string)
  : option (string * string * (string -> Z -> json)) :=
  List.find (fun row => PyStr.contains row.1.1 message) iterative_table.


Example custom_log_first_pattern_wins :
  (tasks (custom_log (Lib 7) "<thought>Starting Iteration 2</thought>" (new_world [])).2,
   iteration_count (custom_log (Lib 7) "<thought>Starting Iteration 2</thought>" (new_world [])).2)
  = ([EmitEvent "iteration_start"
        (JDict [("iteration", JInt 1);
                ("message", JStr "<thought>Starting Iteration 2</thought>")])], 1).
Proof. reflexivity. Qed.

(* ===================================================================== *)
(** * Running the generators *)
(* ===================================================================== *)

Arguments _format_event : simpl never.
Arguments _extract_citations_from_findings : simpl never.
Arguments _extract_citations_from_report : simpl never.

(** Unfolds the monad under a state that is given. *)
Ltac run_gen :=
  cbv [mbind mret gen_bind gen_ret modify get raise create_task_emit_event]; cbn.

Lemma bind_Ok {A B : Type} (m : gen A) (k : A -> gen B) (w w' : world) (a : A) :
  m w = (Ok a, w') -> (m ≫= k) w = k a w'.
Proof. intros H. unfold mbind, gen_bind. now rewrite H. Qed.

Lemma bind_Raise {A B : Type} (m : gen A) (k : A -> gen B) (w w' : world) (e : exception) :
  m w = (Raise e, w') -> (m ≫= k) w = (Raise e, w').
Proof. intros H. unfold mbind, gen_bind. now rewrite H. Qed.

(** ** What the event loop may do to the state *)

(** The loop only moves tasks, in order, from the pending ones to
    [self.events], and new tasks are added at the end; with nothing left on
    the schedule it runs no task. *)
Definition pending_event (c : coroutine) : ResearchEvent.t :=
  match c with
  | EmitEvent event_type data => ResearchEvent.mk event_type data
  end.

Definition loop_ok (w w' : world) : Prop :=
  (exists emitted,
     events w' ++ List.map pending_event (tasks w')
     = (events w ++ List.map pending_event (tasks w)) ++ emitted)
  /\ (schedule w = [] -> schedule w' = [] /\ events w' = events w).

Lemma run_coroutines (cs : list coroutine) :
  forall events,
    fold_left run_coroutine cs events = events ++ List.map pending_event cs.
Proof.
  induction cs as [|[event_type data] cs IH]; intros events; simpl.
  - now rewrite app_nil_r.
  - rewrite IH. unfold _emit_event. now rewrite <- app_assoc.
Qed.

Lemma loop_ok_refl (w : world) : loop_ok w w.
Proof. split; [exists []; now rewrite app_nil_r | tauto]. Qed.

Lemma loop_ok_same (w w' : world) :
  events w' = events w -> tasks w' = tasks w -> schedule w' = schedule w ->
  loop_ok w w'.
Proof.
  intros He Ht Hs. unfold loop_ok. rewrite He, Ht, Hs.
  split; [exists []; now rewrite app_nil_r | tauto].
Qed.

Lemma loop_ok_trans (w1 w2 w3 : world) :
  loop_ok w1 w2 -> loop_ok w2 w3 -> loop_ok w1 w3.
Proof.
  intros [[e1 H1] S1] [[e2 H2] S2]. split.
  - exists (e1 ++ e2). rewrite H2, H1. now rewrite <- !app_assoc.
  - intros H. destruct (S1 H) as [Hs He]. destruct (S2 Hs) as [Hs' He'].
    split; congruence.
Qed.

(** A step that leaves alone all that the stream and the library see, and
    adds [dn] to the iteration counter. *)
Definition internal (dn : Z) (w w' : world) : Prop :=
  sse w' = sse w /\ trace w' = trace w /\ researcher w' = researcher w
  /\ iteration_count w' = iteration_count w + dn
  /\ loop_ok w w'.

Lemma internal_trans (d1 d2 : Z) (w1 w2 w3 : world) :
  internal d1 w1 w2 -> internal d2 w2 w3 -> internal (d1 + d2) w1 w3.
Proof.
  intros (A1 & B1 & C1 & D1 & E1) (A2 & B2 & C2 & D2 & E2).
  split; [congruence|]. split; [congruence|]. split; [congruence|].
  split; [lia | eapply loop_ok_trans; eauto].
Qed.

Lemma suspend_internal (w : world) :
  suspend w = (Ok tt, (suspend w).2) /\ internal 0 w (suspend w).2.
Proof.
  split; [reflexivity|]. unfold suspend, internal, loop_ok. cbn.
  do 3 (split; [reflexivity|]). split; [lia|]. split.
  - destruct (schedule w) as [|n sc]; cbn.
    + exists []. now rewrite app_nil_r.
    + exists []. rewrite app_nil_r, run_coroutines, <- app_assoc, <- map_app, take_drop.
      reflexivity.
  - intros ->. split; reflexivity.
Qed.

Lemma create_task_internal (event_type : string) (data : json) (w : world) :
  create_task_emit_event event_type data w
    = (Ok tt, (create_task_emit_event event_type data w).2)
  /\ internal 0 w (create_task_emit_event event_type data w).2.
Proof.
  split; [reflexivity|]. unfold internal, loop_ok. cbn.
  do 3 (split; [reflexivity|]). split; [lia|]. split.
  - exists [ResearchEvent.mk event_type data]. now rewrite map_app, app_assoc.
  - tauto.
Qed.

(** By how much one message moves the iteration counter when it is logged
    through what the attribute holds. *)
Fixpoint chain_count (f : attr) (message : string) : Z :=
  match f with
  | Lib _ => 0
  | CustomLog IterativeLog original_log =>
      (if PyStr.contains "Starting Iteration" message then 1 else 0)
      + chain_count original_log message
  | CustomLog DeepLog original_log => chain_count original_log message
  end.

Lemma iterative_chain_internal (message : string) (w : world) :
  iterative_chain message w = (Ok tt, (iterative_chain message w).2)
  /\ internal (if PyStr.contains "Starting Iteration" message then 1 else 0)
       w (iterative_chain message w).2.
Proof.
  unfold iterative_chain.
  destruct (PyStr.contains "Starting Iteration" message).
  { split; [reflexivity|]. unfold internal, loop_ok. run_gen.
    do 3 (split; [reflexivity|]). split; [lia|]. split.
    - eexists [_]. rewrite map_app, app_assoc. reflexivity.
    - tauto. }
  repeat match goal with
  | |- context [if ?b then _ else _] =>
      destruct b; [rewrite Z.add_0_r || idtac; apply create_task_internal|]
  end.
  split; [reflexivity|]. unfold internal. cbn.
  do 3 (split; [reflexivity|]). split; [lia | apply loop_ok_refl].
Qed.

Lemma deep_chain_internal (message : string) (w : world) :
  deep_chain message w = (Ok tt, (deep_chain message w).2)
  /\ internal 0 w (deep_chain message w).2.
Proof.
  unfold deep_chain.
  repeat match goal with
  | |- context [if ?b then _ else _] =>
      destruct b; [apply create_task_internal|]
  end.
  split; [reflexivity|]. unfold internal. cbn.
  do 3 (split; [reflexivity|]). split; [lia | apply loop_ok_refl].
Qed.

Lemma call_log_internal (f : attr) (message : string) :
  forall w, call_log f message w = (Ok tt, (call_log f message w).2)
            /\ internal (chain_count f message) w (call_log f message w).2.
Proof.
  induction f as [ref|which original_log IH]; intros w.
  - split; [reflexivity|]. unfold internal. cbn.
    do 3 (split; [reflexivity|]). split; [lia | apply loop_ok_same; reflexivity].
  - assert (Hc : chain which message w = (Ok tt, (chain which message w).2)
                 /\ internal (match which with
                              | IterativeLog =>
                                  if PyStr.contains "Starting Iteration" message
                                  then 1 else 0
                              | DeepLog => 0
                              end) w (chain which message w).2).
    { destruct which; [apply iterative_chain_internal | apply deep_chain_internal]. }
    destruct Hc as [Hc1 Hc2].
    destruct (IH (chain which message w).2) as [H1 H2].
    assert (Heq : call_log (CustomLog which original_log) message w
                  = call_log original_log message (chain which message w).2).
    { cbn [call_log]. now rewrite (bind_Ok _ _ _ _ _ Hc1). }
    rewrite Heq. split; [exact H1|].
    destruct which; cbn [chain_count].
    + eapply internal_trans; eauto.
    + replace (chain_count original_log message)
        with (0 + chain_count original_log message) by lia.
      eapply internal_trans; eauto.
Qed.

(** ** The two loops *)

(** By how much the messages of a run move the iteration counter. *)
Fixpoint logs_count (f : attr) (logs : list string) : Z :=
  match logs with
  | [] => 0
  | message :: rest => chain_count f message + logs_count f rest
  end.

Lemma log_loop_internal (logs : list string) (obj : researcher_obj) :
  forall w, researcher w = Some obj ->
    exists w',
      for_each logs (fun message =>
        suspend ;; obj ← the_researcher; call_log (_log_message obj) message) w
      = (Ok tt, w')
      /\ internal (logs_count (_log_message obj) logs) w w'.
Proof.
  induction logs as [|message rest IH]; intros w Hobj.
  - exists w. split; [reflexivity|]. unfold internal. simpl.
    do 3 (split; [reflexivity|]). split; [lia | apply loop_ok_refl].
  - destruct (suspend_internal w) as [Hs1 Hs2].
    set (w1 := (suspend w).2) in *.
    assert (Hobj1 : researcher w1 = Some obj)
      by (destruct Hs2 as (_ & _ & -> & _); exact Hobj).
    destruct (call_log_internal (_log_message obj) message w1) as [Hc1 Hc2].
    set (w2 := (call_log (_log_message obj) message w1).2) in *.
    assert (Hobj2 : researcher w2 = Some obj)
      by (destruct Hc2 as (_ & _ & -> & _); exact Hobj1).
    destruct (IH w2 Hobj2) as (w3 & Hloop & Hint).
    exists w3. split.
    + cbn [for_each].
      erewrite bind_Ok; [exact Hloop|].
      erewrite bind_Ok; [|exact Hs1].
      erewrite bind_Ok; [exact Hc1|].
      unfold the_researcher. erewrite bind_Ok; [|reflexivity].
      rewrite Hobj1. reflexivity.
    + cbn [logs_count].
      replace (chain_count (_log_message obj) message
               + logs_count (_log_message obj) rest)
        with (0 + chain_count (_log_message obj) message
              + logs_count (_log_message obj) rest) by lia.
      eapply internal_trans; [eapply internal_trans|]; eauto.
Qed.

(** What [await researcher.run(...)] does to a state in which [researcher]
    is bound. *)
Lemma run_spec (lib : library) (w : world) (obj : researcher_obj) :
  researcher w = Some obj ->
  exists w',
    run lib w = (match run_result lib with
                 | inl e => Raise e
                 | inr report => Ok report
                 end, w')
    /\ sse w' = sse w
    /\ trace w' = trace w ++ Call "run" ::
         match run_result lib with
         | inl _ => []
         | inr report => [RunReturned report]
         end
    /\ researcher w' = researcher w
    /\ iteration_count w'
       = iteration_count w + logs_count (_log_message obj) (run_logs lib)
    /\ loop_ok w w'.
Proof.
  intros Hobj. unfold run.
  set (w0 := with_trace (Call "run") w).
  destruct (log_loop_internal (run_logs lib) obj w0 Hobj)
    as (w1 & Hloop & (H1 & H2 & H3 & H4 & H5)).
  destruct (suspend_internal w1) as [Hs (S1 & S2 & S3 & S4 & S5)].
  set (w2 := (suspend w1).2) in *.
  assert (Hprefix : forall B (k : unit -> gen B),
    (log_access (Call "run") ;;
     for_each (run_logs lib) (fun message =>
       suspend ;; obj ← the_researcher; call_log (_log_message obj) message) ;;
     suspend ;; k tt) w = k tt w2).
  { intros B k. erewrite bind_Ok; [|reflexivity]. fold w0.
    erewrite bind_Ok; [|exact Hloop].
    erewrite bind_Ok; [|exact Hs]. reflexivity. }
  assert (Hloop02 : loop_ok w w2).
  { eapply loop_ok_trans; [|eapply loop_ok_trans; [exact H5 | exact S5]].
    apply loop_ok_same; reflexivity. }
  clearbody w2.
  destruct (run_result lib) as [e|report] eqn:Hres.
  - exists w2. split.
    + rewrite (Hprefix _ (fun _ => raise e)). reflexivity.
    + rewrite S1, H1, S2, H2, S3, H3, S4, H4. cbn.
      repeat (split; [first [reflexivity | lia]|]). exact Hloop02.
  - exists (with_trace (RunReturned report) w2). split.
    + rewrite (Hprefix _ (fun _ => log_access (RunReturned report) ;; mret report)).
      reflexivity.
    + cbn. rewrite S1, H1, S2, H2, S3, H3, S4, H4. cbn.
      split; [reflexivity|]. split; [now rewrite <- app_assoc|].
      split; [reflexivity|]. split; [lia|].
      eapply loop_ok_trans; [exact Hloop02 | apply loop_ok_same; reflexivity].
Qed.

(** A loop that yields one chunk per element. *)
Lemma yield_loop {A : Type} (f : A -> string) (l : list A) :
  forall w, exists w',
    for_each l (fun x => yield (f x)) w = (Ok tt, w')
    /\ sse w' = sse w ++ List.map f l
    /\ trace w' = trace w
    /\ researcher w' = researcher w
    /\ iteration_count w' = iteration_count w
    /\ loop_ok w w'.
Proof.
  induction l as [|x l IH]; intros w.
  - exists w. split; [reflexivity|]. simpl. rewrite app_nil_r.
    repeat (split; [reflexivity|]). apply loop_ok_refl.
  - set (w0 := with_sse (fun out => out ++ [f x]) w).
    destruct (suspend_internal w0) as [Hs (S1 & S2 & S3 & S4 & S5)].
    set (w1 := (suspend w0).2) in *.
    destruct (IH w1) as (w2 & Hloop & L1 & L2 & L3 & L4 & L5).
    exists w2. split.
    + cbn [for_each]. erewrite bind_Ok; [exact Hloop|].
      unfold yield. erewrite bind_Ok; [|reflexivity]. exact Hs.
    + rewrite L1, L2, L3, L4, S1, S2, S3, S4. cbn.
      split; [now rewrite <- app_assoc|].
      split; [reflexivity|]. split; [reflexivity|]. split; [lia|].
      eapply loop_ok_trans; [|exact L5].
      eapply loop_ok_trans; [|exact S5]. apply loop_ok_same; reflexivity.
Qed.

(** One [yield]. *)
Lemma yield_spec (chunk : string) (w : world) :
  exists w',
    yield chunk w = (Ok tt, w')
    /\ sse w' = sse w ++ [chunk]
    /\ trace w' = trace w
    /\ researcher w' = researcher w
    /\ iteration_count w' = iteration_count w
    /\ loop_ok w w'.
Proof.
  destruct (yield_loop (fun x : string => x) [chunk] w) as (w' & H & Hrest).
  exists w'. split; [|exact Hrest].
  cbn [for_each] in H. unfold mbind, gen_bind, mret, gen_ret in H.
  destruct (yield chunk w) as [[[]|e] w1]; cbn in H; congruence.
Qed.

(** ** The chunks of the stream *)

Definition started_chunk (mode query : string) (max_iterations max_time_minutes : Z)
  : string :=
  _format_event "started"
    (JDict [("mode", JStr mode); ("query", JStr query);
            ("max_iterations", JInt max_iterations);
            ("max_time_minutes", JInt max_time_minutes)]).

Definition citation_chunk (c : Citation.t) : string :=
  _format_event "citation" (Citation.to_json c).

Definition final_report_chunk (report : string) (citations : list Citation.t)
  (iterations : option Z) : string :=
  _format_event "final_report"
    (JDict ([("report", JStr report);
             ("citations", JList (List.map Citation.to_json citations))]
            ++ match iterations with
               | Some n => [("iterations", JInt n)]
               | None => []
               end)).

Definition completed_chunk (message : string) : string :=
  _format_event "completed" (JDict [("message", JStr message)]).

Definition error_chunk (e : exception) : string :=
  _format_event "error"
    (JDict [("error", JStr (exc_str e)); ("type", JStr (exc_name e))]).

(** The type of the event in a chunk: what stands between the quotes after
    the sixteen characters up to and with the quote that opens it. *)
Definition chunk_type (chunk : string) : string :=
  Re.span (Re.not_code 34) (PyStr.drop 16 chunk).

Lemma chunk_type_started (mode query : string) (max_iterations max_time_minutes : Z) :
  chunk_type (started_chunk mode query max_iterations max_time_minutes) = "started".
Proof. reflexivity. Qed.

Lemma chunk_type_citation (c : Citation.t) : chunk_type (citation_chunk c) = "citation".
Proof. reflexivity. Qed.

Lemma chunk_type_final_report (report : string) (citations : list Citation.t)
  (iterations : option Z) :
  chunk_type (final_report_chunk report citations iterations) = "final_report".
Proof. reflexivity. Qed.

Lemma chunk_type_completed (message : string) :
  chunk_type (completed_chunk message) = "completed".
Proof. reflexivity. Qed.

Lemma chunk_type_error (e : exception) : chunk_type (error_chunk e) = "error".
Proof. reflexivity. Qed.

(** The types of the events of a run that succeeds. *)
Definition success_types (citations : list Citation.t) : list string :=
  "started" :: List.map (fun _ => "citation") citations
  ++ ["final_report"; "completed"].

Lemma chunk_types_success (started final completed : string)
  (citations : list Citation.t) :
  chunk_type started = "started" -> chunk_type final = "final_report" ->
  chunk_type completed = "completed" ->
  List.map chunk_type
    (started :: List.map citation_chunk citations ++ [final; completed])
  = success_types citations.
Proof.
  intros Hs Hf Hc. unfold success_types. simpl.
  rewrite Hs, map_app, List.map_map. simpl. rewrite Hf, Hc. reflexivity.
Qed.

(** The researcher after [researcher._log_message = custom_log]. *)
Definition patched (which : interceptor) (obj : researcher_obj) : researcher_obj :=
  {| _log_message := CustomLog which (_log_message obj);
     conversation := conversation obj;
     other_attrs := other_attrs obj |}.

(** What the wrapper does to the library up to the call of [run]. *)
Definition setup_trace (cls : string) : list access :=
  [Construct "LLMConfig"; Construct cls; GetAttr "_log_message";
   SetAttr "_log_message"; Call "run"].

(** The [try] block of the iterative mode, case by case on what the library
    does. *)
Lemma iterative_body_spec (lib : library) (query : string)
  (max_iterations max_time_minutes : Z) (output_length background_context : string)
  (w : world) :
  exists r w',
    iterative_body lib query max_iterations max_time_minutes
      output_length background_context w = (r, w')
    /\ loop_ok w w'
    /\ match LLMConfig_result lib with
       | Some e =>
           r = Raise e
           /\ sse w' = sse w ++ [started_chunk "iterative" query max_iterations max_time_minutes]
           /\ trace w' = trace w ++ [Construct "LLMConfig"]
           /\ researcher w' = researcher w
       | None =>
         match Researcher_result lib with
         | inl e =>
             r = Raise e
             /\ sse w' = sse w ++ [started_chunk "iterative" query max_iterations max_time_minutes]
             /\ trace w' = trace w ++ [Construct "LLMConfig"; Construct "IterativeResearcher"]
             /\ researcher w' = researcher w
         | inr obj =>
             researcher w' = Some (patched IterativeLog obj)
             /\ iteration_count w'
                = logs_count (CustomLog IterativeLog (_log_message obj)) (run_logs lib)
             /\ match run_result lib with
                | inl e =>
                    r = Raise e
                    /\ sse w' = sse w ++ [started_chunk "iterative" query max_iterations max_time_minutes]
                    /\ trace w' = trace w ++ setup_trace "IterativeResearcher"
                | inr report =>
                    let citations := _extract_citations_from_findings (all_findings lib) in
                    r = Ok tt
                    /\ sse w' = sse w ++
                         started_chunk "iterative" query max_iterations max_time_minutes
                         :: List.map citation_chunk citations
                         ++ [final_report_chunk report citations (Some (iteration_count w'));
                             completed_chunk "Research completed successfully"]
                    /\ trace w' = trace w ++ setup_trace "IterativeResearcher"
                         ++ [RunReturned report; GetAttr "conversation";
                             Call "get_all_findings"]
                end
         end
       end.
Proof.
  destruct lib as [cfg res logs rr fs].
  destruct (iterative_body _ _ _ _ _ _ w) as [r w'] eqn:Hb.
  exists r, w'. split; [reflexivity|]. revert Hb.
  unfold iterative_body, setup_trace.
  cbn [LLMConfig_result Researcher_result run_result all_findings run_logs].
  destruct (yield_spec (started_chunk "iterative" query max_iterations max_time_minutes) w)
    as (w1 & Hy & Y1 & Y2 & Y3 & Y4 & Y5).
  erewrite bind_Ok by exact Hy.
  destruct cfg as [e|].
  { erewrite bind_Raise by reflexivity. intros H; injection H as <- <-. cbn.
    rewrite Y1, Y2, Y3. split; [|repeat split; reflexivity].
    eapply loop_ok_trans; [exact Y5 | apply loop_ok_same; reflexivity]. }
  erewrite bind_Ok by reflexivity.
  destruct res as [e|obj].
  { erewrite bind_Raise by reflexivity. intros H; injection H as <- <-. cbn.
    rewrite Y1, Y2, Y3. split; [|repeat split; try reflexivity].
    - eapply loop_ok_trans; [exact Y5 | apply loop_ok_same; reflexivity].
    - now rewrite <- app_assoc. }
  do 4 (erewrite bind_Ok by reflexivity).
  match goal with
  | |- (run ?l ≫= _) ?W = _ -> _ =>
      destruct (run_spec l W (patched IterativeLog obj) eq_refl)
        as (w2 & Hrun & R1 & R2 & R3 & R4 & R5)
  end.
  cbn in Hrun, R1, R2, R3, R4, R5.
  assert (L2 : loop_ok w w2).
  { eapply loop_ok_trans; [exact Y5|]. eapply loop_ok_trans; [|exact R5].
    apply loop_ok_same; reflexivity. }
  destruct rr as [e|report].
  { erewrite bind_Raise by exact Hrun. intros H; injection H as <- <-.
    rewrite R1, R2, R3, R4, Y1, Y2.
    split; [exact L2|]. split; [reflexivity|]. split; [reflexivity|].
    split; [reflexivity|]. split; [reflexivity|].
    rewrite <- !app_assoc. reflexivity. }
  erewrite bind_Ok by exact Hrun.
  erewrite bind_Ok by reflexivity.
  match goal with
  | |- (for_each ?l _ ≫= _) ?W = _ -> _ =>
      destruct (yield_loop citation_chunk l W)
        as (w3 & Hloop & C1 & C2 & C3 & C4 & C5)
  end.
  cbn in C1, C2, C3, C4, C5.
  erewrite bind_Ok by exact Hloop.
  erewrite bind_Ok by reflexivity.
  match goal with
  | |- (yield ?c ≫= _) ?W = _ -> _ =>
      destruct (yield_spec c W) as (w4 & Hf & F1 & F2 & F3 & F4 & F5)
  end.
  erewrite bind_Ok by exact Hf.
  match goal with
  | |- yield ?c ?W = _ -> _ =>
      destruct (yield_spec c W) as (w5 & Hc & D1 & D2 & D3 & D4 & D5)
  end.
  rewrite Hc. intros H; injection H as <- <-.
  assert (Hn : iteration_count w5
               = logs_count (CustomLog IterativeLog (_log_message obj)) logs)
    by (rewrite D4, F4, C4, R4; lia).
  split.
  { eapply loop_ok_trans; [exact L2|]. eapply loop_ok_trans; [|exact D5].
    eapply loop_ok_trans; [|exact F5].
    eapply loop_ok_trans; [|exact C5]. apply loop_ok_same; reflexivity. }
  split; [rewrite D3, F3, C3, R3; reflexivity|].
  split; [exact Hn|]. cbn zeta.
  split; [reflexivity|]. split.
  - rewrite D1, F1, C1, R1, Y1, Hn, C4, R4. rewrite <- !app_assoc. cbn.
    reflexivity.
  - rewrite D2, F2, C2, R2, Y2. rewrite <- !app_assoc. reflexivity.
Qed.

(** The [try] block of the deep mode, case by case on what the library
    does. *)
Lemma deep_body_spec (lib : library) (query : string)
  (max_iterations max_time_minutes : Z) (w : world) :
  exists r w',
    deep_body lib query max_iterations max_time_minutes w = (r, w')
    /\ loop_ok w w'
    /\ match LLMConfig_result lib with
       | Some e =>
           r = Raise e
           /\ sse w' = sse w ++ [started_chunk "deep" query max_iterations max_time_minutes]
           /\ trace w' = trace w ++ [Construct "LLMConfig"]
           /\ researcher w' = researcher w
       | None =>
         match Researcher_result lib with
         | inl e =>
             r = Raise e
             /\ sse w' = sse w ++ [started_chunk "deep" query max_iterations max_time_minutes]
             /\ trace w' = trace w ++ [Construct "LLMConfig"; Construct "DeepResearcher"]
             /\ researcher w' = researcher w
         | inr obj =>
             researcher w' = Some (patched DeepLog obj)
             /\ match run_result lib with
                | inl e =>
                    r = Raise e
                    /\ sse w' = sse w ++ [started_chunk "deep" query max_iterations max_time_minutes]
                    /\ trace w' = trace w ++ setup_trace "DeepResearcher"
                | inr report =>
                    let citations := _extract_citations_from_report report in
                    r = Ok tt
                    /\ sse w' = sse w ++
                         started_chunk "deep" query max_iterations max_time_minutes
                         :: List.map citation_chunk citations
                         ++ [final_report_chunk report citations None;
                             completed_chunk "Deep research completed successfully"]
                    /\ trace w' = trace w ++ setup_trace "DeepResearcher"
                         ++ [RunReturned report]
                end
         end
       end.
Proof.
  destruct lib as [cfg res logs rr fs].
  destruct (deep_body _ _ _ _ w) as [r w'] eqn:Hb.
  exists r, w'. split; [reflexivity|]. revert Hb.
  unfold deep_body, setup_trace.
  cbn [LLMConfig_result Researcher_result run_result all_findings run_logs].
  destruct (yield_spec (started_chunk "deep" query max_iterations max_time_minutes) w)
    as (w1 & Hy & Y1 & Y2 & Y3 & Y4 & Y5).
  erewrite bind_Ok by exact Hy.
  destruct cfg as [e|].
  { erewrite bind_Raise by reflexivity. intros H; injection H as <- <-. cbn.
    rewrite Y1, Y2, Y3. split; [|repeat split; reflexivity].
    eapply loop_ok_trans; [exact Y5 | apply loop_ok_same; reflexivity]. }
  erewrite bind_Ok by reflexivity.
  destruct res as [e|obj].
  { erewrite bind_Raise by reflexivity. intros H; injection H as <- <-. cbn.
    rewrite Y1, Y2, Y3. split; [|repeat split; try reflexivity].
    - eapply loop_ok_trans; [exact Y5 | apply loop_ok_same; reflexivity].
    - now rewrite <- app_assoc. }
  do 3 (erewrite bind_Ok by reflexivity).
  match goal with
  | |- (run ?l ≫= _) ?W = _ -> _ =>
      destruct (run_spec l W (patched DeepLog obj) eq_refl)
        as (w2 & Hrun & R1 & R2 & R3 & R4 & R5)
  end.
  cbn in Hrun, R1, R2, R3, R4, R5.
  assert (L2 : loop_ok w w2).
  { eapply loop_ok_trans; [exact Y5|]. eapply loop_ok_trans; [|exact R5].
    apply loop_ok_same; reflexivity. }
  destruct rr as [e|report].
  { erewrite bind_Raise by exact Hrun. intros H; injection H as <- <-.
    rewrite R1, R2, R3, Y1, Y2.
    split; [exact L2|]. split; [reflexivity|]. split; [reflexivity|].
    split; [reflexivity|].
    rewrite <- !app_assoc. reflexivity. }
  erewrite bind_Ok by exact Hrun.
  match goal with
  | |- (for_each ?l _ ≫= _) ?W = _ -> _ =>
      destruct (yield_loop citation_chunk l W)
        as (w3 & Hloop & C1 & C2 & C3 & C4 & C5)
  end.
  erewrite bind_Ok by exact Hloop.
  match goal with
  | |- (yield ?c ≫= _) ?W = _ -> _ =>
      destruct (yield_spec c W) as (w4 & Hf & F1 & F2 & F3 & F4 & F5)
  end.
  erewrite bind_Ok by exact Hf.
  match goal with
  | |- yield ?c ?W = _ -> _ =>
      destruct (yield_spec c W) as (w5 & Hc & D1 & D2 & D3 & D4 & D5)
  end.
  rewrite Hc. intros H; injection H as <- <-.
  split.
  { eapply loop_ok_trans; [exact L2|]. eapply loop_ok_trans; [|exact D5].
    eapply loop_ok_trans; [|exact F5]. exact C5. }
  split; [rewrite D3, F3, C3, R3; reflexivity|]. cbn zeta.
  split; [reflexivity|]. split.
  - rewrite D1, F1, C1, R1, Y1. rewrite <- !app_assoc. cbn. reflexivity.
  - rewrite D2, F2, C2, R2, Y2. rewrite <- !app_assoc. reflexivity.
Qed.

(** The exception that ends the [try] block, when the library raises. *)
Definition raised (lib : library) : option exception :=
  match LLMConfig_result lib with
  | Some e => Some e
  | None =>
    match Researcher_result lib with
    | inl e => Some e
    | inr _ =>
      match run_result lib with
      | inl e => Some e
      | inr _ => None
      end
    end
  end.

(** How a generator ends: normally, unless the library raises an exception
    that the [except Exception] clause does not catch. *)
Definition stream_result (lib : library) : result unit :=
  match raised lib with
  | Some e => if is_Exception e then Ok tt else Raise e
  | None => Ok tt
  end.

(** Every exception the library raises is an instance of [Exception]. *)
Definition raises_Exception_only (lib : library) : bool :=
  match raised lib with
  | Some e => is_Exception e
  | None => true
  end.

(** What the [except Exception] clause yields for the exception [e]. *)
Definition caught (e : exception) : list string :=
  if is_Exception e then [error_chunk e] else [].

(** The chunks of one run after the started event, from what the library
    does: the same for every state the request starts in. *)
Definition iterative_chunks (lib : library) : list string :=
  match LLMConfig_result lib with
  | Some e => caught e
  | None =>
    match Researcher_result lib with
    | inl e => caught e
    | inr obj =>
      match run_result lib with
      | inl e => caught e
      | inr report =>
          let citations := _extract_citations_from_findings (all_findings lib) in
          List.map citation_chunk citations
          ++ [final_report_chunk report citations
                (Some (logs_count (CustomLog IterativeLog (_log_message obj))
                         (run_logs lib)));
              completed_chunk "Research completed successfully"]
      end
    end
  end.

Definition deep_chunks (lib : library) : list string :=
  match LLMConfig_result lib with
  | Some e => caught e
  | None =>
    match Researcher_result lib with
    | inl e => caught e
    | inr obj =>
      match run_result lib with
      | inl e => caught e
      | inr report =>
          let citations := _extract_citations_from_report report in
          List.map citation_chunk citations
          ++ [final_report_chunk report citations None;
              completed_chunk "Deep research completed successfully"]
      end
    end
  end.

(** What the wrapper does to the library during one run. *)
Definition library_trace (cls : string) (after_run : list access) (lib : library)
  : list access :=
  match LLMConfig_result lib with
  | Some _ => [Construct "LLMConfig"]
  | None =>
    match Researcher_result lib with
    | inl _ => [Construct "LLMConfig"; Construct cls]
    | inr _ =>
        setup_trace cls
        ++ match run_result lib with
           | inl _ => []
           | inr report => RunReturned report :: after_run
           end
    end
  end.

(** The researcher at the end of a run. *)
Definition final_researcher (which : interceptor) (lib : library)
  (before : option researcher_obj) : option researcher_obj :=
  match LLMConfig_result lib, Researcher_result lib with
  | None, inr obj => Some (patched which obj)
  | _, _ => before
  end.

(** A run of a generator from the state [w]: it ends in the state [w']. *)
Record run_of (g : gen unit) (cls : string) (which : interceptor)
  (started : string) (chunks : list string) (after_run : list access)
  (lib : library) (w w' : world) : Prop := {
  run_ends : g w = (stream_result lib, w');
  run_sse : sse w' = sse w ++ started :: chunks;
  run_trace : trace w' = trace w ++ library_trace cls after_run lib;
  run_researcher : researcher w' = final_researcher which lib (researcher w);
  run_loop : loop_ok w w'
}.

Lemma try_except_Ok {A : Type} (body : gen A) (handler : exception -> gen A)
  (w w' : world) (a : A) :
  body w = (Ok a, w') -> try_except body handler w = (Ok a, w').
Proof. intros H. unfold try_except. now rewrite H. Qed.

Lemma try_except_Raise {A : Type} (body : gen A) (handler : exception -> gen A)
  (w w' : world) (e : exception) :
  body w = (Raise e, w') -> is_Exception e = true ->
  try_except body handler w = handler e w'.
Proof. intros H He. unfold try_except. now rewrite H, He. Qed.

Lemma try_except_propagates {A : Type} (body : gen A)
  (handler : exception -> gen A) (w w' : world) (e : exception) :
  body w = (Raise e, w') -> is_Exception e = false ->
  try_except body handler w = (Raise e, w').
Proof. intros H He. unfold try_except. now rewrite H, He. Qed.

(** The [except] clause after the body raised [e] in the state [w1]. *)
Lemma error_event_spec (e : exception) (w1 : world) :
  exists w',
    error_event e w1 = (Ok tt, w')
    /\ sse w' = sse w1 ++ [error_chunk e]
    /\ trace w' = trace w1
    /\ researcher w' = researcher w1
    /\ iteration_count w' = iteration_count w1
    /\ loop_ok w1 w'.
Proof. apply yield_spec. Qed.

(** The [try] statement after the body raised [e] in the state [w1]. *)
Lemma try_except_error_event (body : gen unit) (w w1 : world) (e : exception)
  (started : string) :
  body w = (Raise e, w1) -> loop_ok w w1 -> sse w1 = sse w ++ [started] ->
  exists w',
    try_except body error_event w
    = ((if is_Exception e then Ok tt else Raise e), w')
    /\ sse w' = sse w ++ started :: caught e
    /\ trace w' = trace w1 /\ researcher w' = researcher w1
    /\ iteration_count w' = iteration_count w1
    /\ loop_ok w w'.
Proof.
  intros Hb Hl Hsse. unfold caught. destruct (is_Exception e) eqn:He.
  - destruct (error_event_spec e w1) as (w' & Hh & E1 & E2 & E3 & E4 & E5).
    exists w'. split; [now rewrite (try_except_Raise _ _ _ _ _ Hb He)|].
    split; [rewrite E1, Hsse, <- app_assoc; reflexivity|].
    split; [exact E2|]. split; [exact E3|]. split; [exact E4|].
    eapply loop_ok_trans; eauto.
  - exists w1. split; [now apply try_except_propagates|].
    split; [exact Hsse|]. repeat (split; [reflexivity|]). exact Hl.
Qed.

Lemma stream_iterative_research_spec (lib : library) (query : string)
  (max_iterations max_time_minutes : Z) (output_length background_context : string)
  (w : world) :
  exists w',
    run_of (stream_iterative_research lib query max_iterations max_time_minutes
              output_length background_context)
      "IterativeResearcher" IterativeLog
      (started_chunk "iterative" query max_iterations max_time_minutes)
      (iterative_chunks lib)
      [GetAttr "conversation"; Call "get_all_findings"] lib w w'.
Proof.
  destruct (iterative_body_spec lib query max_iterations max_time_minutes
              output_length background_context w) as (r & w1 & Hb & Hl & H).
  unfold stream_iterative_research, iterative_chunks.
  destruct (LLMConfig_result lib) as [e|] eqn:E1.
  { destruct H as (-> & H1 & H2 & H3).
    destruct (try_except_error_event _ _ _ _ _ Hb Hl H1)
      as (w' & G1 & G2 & G3 & G4 & _ & G5).
    exists w'.
    constructor; unfold library_trace, final_researcher, stream_result, raised;
      rewrite ?E1; try assumption; congruence. }
  destruct (Researcher_result lib) as [e|obj] eqn:E2.
  { destruct H as (-> & H1 & H2 & H3).
    destruct (try_except_error_event _ _ _ _ _ Hb Hl H1)
      as (w' & G1 & G2 & G3 & G4 & _ & G5).
    exists w'.
    constructor; unfold library_trace, final_researcher, stream_result, raised;
      rewrite ?E1, ?E2; try assumption; congruence. }
  destruct H as (Hobj & Hn & H).
  destruct (run_result lib) as [e|report] eqn:E3.
  { destruct H as (-> & H1 & H2).
    destruct (try_except_error_event _ _ _ _ _ Hb Hl H1)
      as (w' & G1 & G2 & G3 & G4 & _ & G5).
    exists w'.
    constructor; unfold library_trace, final_researcher, stream_result, raised;
      rewrite ?E1, ?E2, ?E3; try assumption; try congruence.
    rewrite G3, H2, app_nil_r. reflexivity. }
  cbn zeta in H. destruct H as (-> & H1 & H2).
  exists w1.
  constructor; unfold library_trace, final_researcher, stream_result, raised;
    rewrite ?E1, ?E2, ?E3; try assumption.
  - now apply try_except_Ok.
  - rewrite H1, Hn. reflexivity.
Qed.

Lemma stream_deep_research_spec (lib : library) (query : string)
  (max_iterations max_time_minutes : Z) (w : world) :
  exists w',
    run_of (stream_deep_research lib query max_iterations max_time_minutes)
      "DeepResearcher" DeepLog
      (started_chunk "deep" query max_iterations max_time_minutes)
      (deep_chunks lib) [] lib w w'.
Proof.
  destruct (deep_body_spec lib query max_iterations max_time_minutes w)
    as (r & w1 & Hb & Hl & H).
  unfold stream_deep_research, deep_chunks.
  destruct (LLMConfig_result lib) as [e|] eqn:E1.
  { destruct H as (-> & H1 & H2 & H3).
    destruct (try_except_error_event _ _ _ _ _ Hb Hl H1)
      as (w' & G1 & G2 & G3 & G4 & _ & G5).
    exists w'.
    constructor; unfold library_trace, final_researcher, stream_result, raised;
      rewrite ?E1; try assumption; congruence. }
  destruct (Researcher_result lib) as [e|obj] eqn:E2.
  { destruct H as (-> & H1 & H2 & H3).
    destruct (try_except_error_event _ _ _ _ _ Hb Hl H1)
      as (w' & G1 & G2 & G3 & G4 & _ & G5).
    exists w'.
    constructor; unfold library_trace, final_researcher, stream_result, raised;
      rewrite ?E1, ?E2; try assumption; congruence. }
  destruct H as (Hobj & H).
  destruct (run_result lib) as [e|report] eqn:E3.
  { destruct H as (-> & H1 & H2).
    destruct (try_except_error_event _ _ _ _ _ Hb Hl H1)
      as (w' & G1 & G2 & G3 & G4 & _ & G5).
    exists w'.
    constructor; unfold library_trace, final_researcher, stream_result, raised;
      rewrite ?E1, ?E2, ?E3; try assumption; try congruence.
    rewrite G3, H2, app_nil_r. reflexivity. }
  cbn zeta in H. destruct H as (-> & H1 & H2).
  exists w1.
  constructor; unfold library_trace, final_researcher, stream_result, raised;
    rewrite ?E1, ?E2, ?E3; try assumption.
  now apply try_except_Ok.
Qed.

(** The counter at the end of a run of the iterative mode in which the
    researcher was constructed. *)
Lemma iterative_final_count (lib : library) (query : string)
  (max_iterations max_time_minutes : Z) (output_length background_context : string)
  (w : world) (obj : researcher_obj) :
  LLMConfig_result lib = None -> Researcher_result lib = inr obj ->
  iteration_count
    (stream_iterative_research lib query max_iterations max_time_minutes
       output_length background_context w).2
  = logs_count (CustomLog IterativeLog (_log_message obj)) (run_logs lib).
Proof.
  intros E1 E2.
  destruct (iterative_body_spec lib query max_iterations max_time_minutes
              output_length background_context w) as (r & w1 & Hb & _ & H).
  rewrite E1, E2 in H. destruct H as (_ & Hn & _).
  unfold stream_iterative_research. destruct r as [[]|e].
  - rewrite (try_except_Ok _ _ _ _ _ Hb). exact Hn.
  - destruct (is_Exception e) eqn:Hc.
    + rewrite (try_except_Raise _ _ _ _ _ Hb Hc).
      destruct (error_event_spec e w1) as (w' & He & _ & _ & _ & E4 & _).
      rewrite He. simpl. congruence.
    + rewrite (try_except_propagates _ _ _ _ _ Hb Hc). exact Hn.
Qed.

(* ===================================================================== *)
(** * The stream *)
(* ===================================================================== *)

Lemma RunReturned_in_library_trace (cls : string) (after_run : list access)
  (lib : library) (report : string) :
  Forall (fun a => forall r, a <> RunReturned r) after_run ->
  In (RunReturned report) (library_trace cls after_run lib) ->
  LLMConfig_result lib = None
  /\ (exists obj, Researcher_result lib = inr obj)
  /\ run_result lib = inr report.
Proof.
  intros Hafter. unfold library_trace, setup_trace.
  destruct (LLMConfig_result lib) as [e|].
  { simpl. intros [H|[]]. discriminate. }
  destruct (Researcher_result lib) as [e|obj].
  { simpl. intros [H|[H|[]]]; discriminate. }
  destruct (run_result lib) as [e|report'].
  { simpl. intros H. repeat (destruct H as [H|H]; [discriminate|]). destruct H. }
  simpl. intros H. repeat (destruct H as [H|H]; [discriminate|]).
  destruct H as [H|H].
  - injection H as ->. eauto.
  - exfalso. rewrite Forall_forall in Hafter. apply list_elem_of_In in H.
    exact (Hafter _ H report eq_refl).
Qed.

(** C3. Stream event order on success: in either mode the first chunk
    yielded is the started event, carrying the mode, the query,
    max_iterations and max_time_minutes; and whenever the library's [run]
    returns a report (the two constructors of the library succeed and [run]
    returns [report]), the whole stream is: the started event, one citation
    event per extracted citation in the order of extraction, one
    final_report event with the report and the list of all citations (and,
    in the iterative mode, the value of the iteration counter), one
    completed event, and nothing more: the generator ends there, and the
    types of the events of the stream, in order, are started, citation (once
    per citation), final_report, completed. *)
Theorem stream_event_order_on_success (lib : library) (query : string)
  (max_iterations max_time_minutes : Z) (output_length background_context : string)
  (sched : list nat) :
  let ri := stream_iterative_research lib query max_iterations max_time_minutes
              output_length background_context (new_world sched) in
  let rd := stream_deep_research lib query max_iterations max_time_minutes
              (new_world sched) in
  (exists rest,
     sse ri.2 = started_chunk "iterative" query max_iterations max_time_minutes :: rest)
  /\ (exists rest,
     sse rd.2 = started_chunk "deep" query max_iterations max_time_minutes :: rest)
  /\ (forall obj report,
      LLMConfig_result lib = None -> Researcher_result lib = inr obj ->
      run_result lib = inr report ->
      let citations := _extract_citations_from_findings (all_findings lib) in
      ri.1 = Ok tt
      /\ sse ri.2 = started_chunk "iterative" query max_iterations max_time_minutes
                    :: List.map citation_chunk citations
                    ++ [final_report_chunk report citations
                          (Some (iteration_count ri.2));
                        completed_chunk "Research completed successfully"]
      /\ List.map chunk_type (sse ri.2) = success_types citations)
  /\ (forall obj report,
      LLMConfig_result lib = None -> Researcher_result lib = inr obj ->
      run_result lib = inr report ->
      let citations := _extract_citations_from_report report in
      rd.1 = Ok tt
      /\ sse rd.2 = started_chunk "deep" query max_iterations max_time_minutes
                    :: List.map citation_chunk citations
                    ++ [final_report_chunk report citations None;
                        completed_chunk "Deep research completed successfully"]
      /\ List.map chunk_type (sse rd.2) = success_types citations).
Proof.
  intros ri rd.
  destruct (stream_iterative_research_spec lib query max_iterations max_time_minutes
              output_length background_context (new_world sched)) as (wi & Hi).
  destruct (stream_deep_research_spec lib query max_iterations max_time_minutes
              (new_world sched)) as (wd & Hd).
  assert (Eri : ri = (stream_result lib, wi)) by exact (run_ends _ _ _ _ _ _ _ _ _ Hi).
  assert (Erd : rd = (stream_result lib, wd)) by exact (run_ends _ _ _ _ _ _ _ _ _ Hd).
  split; [rewrite Eri; cbn [snd]; rewrite (run_sse _ _ _ _ _ _ _ _ _ Hi); simpl; eauto|].
  split; [rewrite Erd; cbn [snd]; rewrite (run_sse _ _ _ _ _ _ _ _ _ Hd); simpl; eauto|].
  split.
  - intros obj report E1 E2 E3 citations.
    pose proof (iterative_final_count lib query max_iterations max_time_minutes
                  output_length background_context (new_world sched) obj E1 E2)
      as Hn.
    fold ri in Hn. rewrite Hn, Eri. cbn [fst snd]. rewrite (run_sse _ _ _ _ _ _ _ _ _ Hi).
    unfold stream_result, raised, iterative_chunks.
    rewrite E1, E2, E3. split; [reflexivity|]. split; [reflexivity|].
    now apply chunk_types_success.
  - intros obj report E1 E2 E3 citations.
    rewrite Erd. cbn [fst snd]. rewrite (run_sse _ _ _ _ _ _ _ _ _ Hd).
    unfold stream_result, raised, deep_chunks.
    rewrite E1, E2, E3. split; [reflexivity|]. split; [reflexivity|].
    now apply chunk_types_success.
Qed.

(** A library whose run logs three messages and returns a report, one whose
    run raises an instance of [Exception], and one whose run is cancelled:
    [asyncio.CancelledError] is no instance of [Exception]. *)
Definition sample_researcher : researcher_obj :=
  {| _log_message := Lib 1; conversation := 2;
     other_attrs := {[ "max_iterations" := 3%N ]} |}.

Definition sample_library : library :=
  {| LLMConfig_result := None;
     Researcher_result := inr sample_researcher;
     run_logs := ["=== Starting Iteration 1 ==="; "<thought> look </thought>";
                  "=== Drafting Final Response ==="];
     run_result := inr "See [Doc](https://x.y/z).";
     all_findings := ["Intro. The paper  http://a.b/c says"] |}.

Definition TimeoutError : exception :=
  {| exc_name := "TimeoutError"; exc_str := "too slow"; is_Exception := true |}.

Definition CancelledError : exception :=
  {| exc_name := "CancelledError"; exc_str := EmptyString; is_Exception := false |}.

Definition failing_library : library :=
  {| LLMConfig_result := None;
     Researcher_result := inr sample_researcher;
     run_logs := ["=== Starting Iteration 1 ==="];
     run_result := inl TimeoutError;
     all_findings := [] |}.

Definition cancelled_library : library :=
  {| LLMConfig_result := None;
     Researcher_result := inr sample_researcher;
     run_logs := ["=== Starting Iteration 1 ==="];
     run_result := inl CancelledError;
     all_findings := [] |}.

Lemma stream_event_order_on_success_witness :
  (stream_iterative_research sample_library "q" 5 10 "5 pages" EmptyString
     (new_world [])).1 = Ok tt
  /\ sse (stream_iterative_research sample_library "q" 5 10 "5 pages" EmptyString
            (new_world [])).2
     = [started_chunk "iterative" "q" 5 10;
        citation_chunk (Citation.mk 1 "http://a.b/c" "The paper" "web"
                          "Intro. The paper  http://a.b/c says");
        final_report_chunk "See [Doc](https://x.y/z)."
          [Citation.mk 1 "http://a.b/c" "The paper" "web"
             "Intro. The paper  http://a.b/c says"] (Some 1);
        completed_chunk "Research completed successfully"]
  /\ (stream_deep_research sample_library "q" 5 10 (new_world [])).1 = Ok tt
  /\ sse (stream_deep_research sample_library "q" 5 10 (new_world [])).2
     = [started_chunk "deep" "q" 5 10;
        citation_chunk (Citation.mk 1 "https://x.y/z" "Doc" "web" EmptyString);
        citation_chunk
          (Citation.mk 2 "https://x.y/z)." "https://x.y/z)." "web" EmptyString);
        final_report_chunk "See [Doc](https://x.y/z)."
          [Citation.mk 1 "https://x.y/z" "Doc" "web" EmptyString;
           Citation.mk 2 "https://x.y/z)." "https://x.y/z)." "web" EmptyString]
          None;
        completed_chunk "Deep research completed successfully"].
Proof.
  pose proof (stream_event_order_on_success sample_library "q" 5 10 "5 pages"
                EmptyString []) as (_ & _ & Hi & Hd).
  destruct (Hi sample_researcher "See [Doc](https://x.y/z)." eq_refl eq_refl eq_refl)
    as (Hi1 & Hi2 & _).
  destruct (Hd sample_researcher "See [Doc](https://x.y/z)." eq_refl eq_refl eq_refl)
    as (Hd1 & Hd2 & _).
  split; [exact Hi1|]. split; [exact Hi2|]. split; [exact Hd1|]. exact Hd2.
Defined.

(** The claim as the specification states it, for one run of a generator
    [g] whose [try] block is [body]: whatever exception the block raises,
    the generator ends normally, and its stream is the started event
    followed by one error event for that exception. *)
Definition error_event_for_any_exception (g body : gen unit) (started : string)
  (w : world) : Prop :=
  forall e w1,
    body w = (Raise e, w1) ->
    exists w',
      g w = (Ok tt, w')
      /\ sse w' = [started; error_chunk e]
      /\ List.map chunk_type (sse w') = ["started"; "error"].

(** When the [await researcher.run(...)] of the deep mode is cancelled, the
    [try] block raises [CancelledError], which the clause [except Exception]
    does not catch: the generator raises it too, and the stream is the
    started event alone. *)
Example cancelled_run_has_no_error_event :
  let g := stream_deep_research cancelled_library "q" 5 10 in
  let body := deep_body cancelled_library "q" 5 10 in
  (body (new_world [])).1 = Raise CancelledError
  /\ (g (new_world [])).1 = Raise CancelledError
  /\ sse (g (new_world [])).2 = [started_chunk "deep" "q" 5 10]
  /\ List.map chunk_type (sse (g (new_world [])).2) = ["started"].
Proof. vm_compute. repeat split. Qed.

(** C8, as stated, does not hold: an exception that is no instance of
    [Exception] passes the clause [except Exception].  For the run of
    [cancelled_run_has_no_error_event] the [try] block raises and the
    generator neither ends normally nor yields an error event. *)
Lemma error_event_for_any_exception_fails :
  ~ error_event_for_any_exception
      (stream_deep_research cancelled_library "q" 5 10)
      (deep_body cancelled_library "q" 5 10)
      (started_chunk "deep" "q" 5 10) (new_world []).
Proof.
  intros H.
  set (g := stream_deep_research cancelled_library "q" 5 10) in *.
  set (body := deep_body cancelled_library "q" 5 10) in *.
  assert (Eb : (body (new_world [])).1 = Raise CancelledError)
    by (vm_compute; reflexivity).
  assert (Eg : (g (new_world [])).1 = Raise CancelledError)
    by (vm_compute; reflexivity).
  destruct (H CancelledError (body (new_world [])).2) as (w' & Hg & _).
  - rewrite <- Eb. apply surjective_pairing.
  - apply (f_equal fst) in Hg. rewrite Eg in Hg. discriminate Hg.
Qed.

(** C8. Error atomicity of the stream: if an exception [e] that is an
    instance of [Exception] is raised inside the [try] block of either
    generator (by a constructor of the library or by its [run]), the
    generator does not raise: it ends normally after yielding exactly one
    error event, whose data holds [str(e)] under error and the class name
    under type; that event is the last chunk of the stream, and the stream
    holds no citation, final_report or completed event: it is the started
    event followed by the error event, the types of its events being
    started, error.  An exception that is no instance of [Exception] is not
    caught: the generator raises it, and the stream is the started event
    alone.  The [try] block raises whatever a constructor of the library or
    its [run] raises. *)
Theorem stream_error_atomicity (lib : library) (query : string)
  (max_iterations max_time_minutes : Z) (output_length background_context : string)
  (sched : list nat) (e : exception) (w1 : world) :
  let gi := stream_iterative_research lib query max_iterations max_time_minutes
              output_length background_context in
  let gd := stream_deep_research lib query max_iterations max_time_minutes in
  let started_i := started_chunk "iterative" query max_iterations max_time_minutes in
  let started_d := started_chunk "deep" query max_iterations max_time_minutes in
  let error := _format_event "error"
                 (JDict [("error", JStr (exc_str e)); ("type", JStr (exc_name e))]) in
  (iterative_body lib query max_iterations max_time_minutes
     output_length background_context (new_world sched) = (Raise e, w1) ->
   (is_Exception e = true ->
    exists w',
      gi (new_world sched) = (Ok tt, w')
      /\ sse w' = [started_i; error]
      /\ List.map chunk_type (sse w') = ["started"; "error"])
   /\ (is_Exception e = false ->
       gi (new_world sched) = (Raise e, w1) /\ sse w1 = [started_i]))
  /\ (deep_body lib query max_iterations max_time_minutes (new_world sched)
      = (Raise e, w1) ->
   (is_Exception e = true ->
    exists w',
      gd (new_world sched) = (Ok tt, w')
      /\ sse w' = [started_d; error]
      /\ List.map chunk_type (sse w') = ["started"; "error"])
   /\ (is_Exception e = false ->
       gd (new_world sched) = (Raise e, w1) /\ sse w1 = [started_d]))
  /\ (raised lib = Some e ->
      (iterative_body lib query max_iterations max_time_minutes
         output_length background_context (new_world sched)).1 = Raise e
      /\ (deep_body lib query max_iterations max_time_minutes
            (new_world sched)).1 = Raise e).
Proof.
  intros gi gd started_i started_d error.
  split; [|split]; intros Hb.
  - destruct (iterative_body_spec lib query max_iterations max_time_minutes
                output_length background_context (new_world sched))
      as (r & w0 & Hb' & _ & H).
    rewrite Hb in Hb'. injection Hb' as <- <-.
    assert (Hsse : sse w1 = [started_i]).
    { destruct (LLMConfig_result lib); [tauto|].
      destruct (Researcher_result lib); [tauto|].
      destruct H as (_ & _ & H).
      destruct (run_result lib); [tauto|]. destruct H as [H _]. discriminate. }
    split; intros Hc.
    + destruct (error_event_spec e w1) as (w' & He & E1 & _).
      exists w'. split.
      * unfold gi, stream_iterative_research.
        now rewrite (try_except_Raise _ _ _ _ _ Hb Hc).
      * rewrite E1, Hsse. split; reflexivity.
    + split; [|exact Hsse].
      unfold gi, stream_iterative_research. now apply try_except_propagates.
  - destruct (deep_body_spec lib query max_iterations max_time_minutes (new_world sched))
      as (r & w0 & Hb' & _ & H).
    rewrite Hb in Hb'. injection Hb' as <- <-.
    assert (Hsse : sse w1 = [started_d]).
    { destruct (LLMConfig_result lib); [tauto|].
      destruct (Researcher_result lib); [tauto|].
      destruct H as (_ & H).
      destruct (run_result lib); [tauto|]. destruct H as [H _]. discriminate. }
    split; intros Hc.
    + destruct (error_event_spec e w1) as (w' & He & E1 & _).
      exists w'. split.
      * unfold gd, stream_deep_research.
        now rewrite (try_except_Raise _ _ _ _ _ Hb Hc).
      * rewrite E1, Hsse. split; reflexivity.
    + split; [|exact Hsse].
      unfold gd, stream_deep_research. now apply try_except_propagates.
  - unfold raised in Hb.
    destruct (iterative_body_spec lib query max_iterations max_time_minutes
                output_length background_context (new_world sched))
      as (ri & wi & Hi & _ & Hri).
    destruct (deep_body_spec lib query max_iterations max_time_minutes
                (new_world sched)) as (rd & wd & Hd & _ & Hrd).
    rewrite Hi, Hd. cbn [fst].
    destruct (LLMConfig_result lib) as [e1|].
    { injection Hb as ->. split; [apply Hri | apply Hrd]. }
    destruct (Researcher_result lib) as [e2|obj].
    { injection Hb as ->. split; [apply Hri | apply Hrd]. }
    destruct Hri as (_ & _ & Hri). destruct Hrd as (_ & Hrd).
    destruct (run_result lib) as [e3|report]; [|discriminate Hb].
    injection Hb as ->. split; [apply Hri | apply Hrd].
Qed.

Lemma stream_error_atomicity_witness :
  (exists w',
     stream_iterative_research failing_library "q" 5 10 "5 pages" EmptyString
       (new_world []) = (Ok tt, w')
     /\ sse w' = [started_chunk "iterative" "q" 5 10;
                  _format_event "error"
                    (JDict [("error", JStr "too slow"); ("type", JStr "TimeoutError")])]
     /\ List.map chunk_type (sse w') = ["started"; "error"])
  /\ (exists w',
     stream_deep_research failing_library "q" 5 10 (new_world []) = (Ok tt, w')
     /\ sse w' = [started_chunk "deep" "q" 5 10;
                  _format_event "error"
                    (JDict [("error", JStr "too slow"); ("type", JStr "TimeoutError")])]
     /\ List.map chunk_type (sse w') = ["started"; "error"])
  /\ stream_deep_research cancelled_library "q" 5 10 (new_world [])
     = (Raise CancelledError, (deep_body cancelled_library "q" 5 10 (new_world [])).2)
  /\ (iterative_body failing_library "q" 5 10 "5 pages" EmptyString
        (new_world [])).1 = Raise TimeoutError.
Proof.
  split; [|split; [|split]].
  - refine (proj1 (proj1 (stream_error_atomicity failing_library "q" 5 10 "5 pages"
              EmptyString [] TimeoutError
              (iterative_body failing_library "q" 5 10 "5 pages" EmptyString
                 (new_world [])).2) _) _); vm_compute; reflexivity.
  - refine (proj1 (proj1 (proj2 (stream_error_atomicity failing_library "q" 5 10
              "5 pages" EmptyString [] TimeoutError
              (deep_body failing_library "q" 5 10 (new_world [])).2)) _) _);
      vm_compute; reflexivity.
  - refine (proj1 (proj2 (proj1 (proj2 (stream_error_atomicity cancelled_library
              "q" 5 10 "5 pages" EmptyString [] CancelledError
              (deep_body cancelled_library "q" 5 10 (new_world [])).2)) _) _));
      vm_compute; reflexivity.
  - exact (proj1 (proj2 (proj2 (stream_error_atomicity failing_library "q" 5 10
             "5 pages" EmptyString [] TimeoutError (new_world []))) eq_refl)).
Defined.

Definition formatted (chunk : string) : Prop :=
  exists event_type data, chunk = _format_event event_type data.

Lemma formatted_caught (e : exception) : Forall formatted (caught e).
Proof.
  unfold caught. destruct (is_Exception e); repeat constructor.
  eexists _, _; reflexivity.
Qed.

Lemma formatted_chunks_iterative (lib : library) :
  Forall formatted (iterative_chunks lib).
Proof.
  unfold iterative_chunks.
  destruct (LLMConfig_result lib); [apply formatted_caught|].
  destruct (Researcher_result lib); [apply formatted_caught|].
  destruct (run_result lib); [apply formatted_caught|].
  apply Forall_app. split.
  - apply Forall_forall. intros chunk Hin.
    apply list_elem_of_In, in_map_iff in Hin as (c & <- & _).
    eexists _, _; reflexivity.
  - repeat constructor; eexists _, _; reflexivity.
Qed.

Lemma formatted_chunks_deep (lib : library) : Forall formatted (deep_chunks lib).
Proof.
  unfold deep_chunks.
  destruct (LLMConfig_result lib); [apply formatted_caught|].
  destruct (Researcher_result lib); [apply formatted_caught|].
  destruct (run_result lib); [apply formatted_caught|].
  apply Forall_app. split.
  - apply Forall_forall. intros chunk Hin.
    apply list_elem_of_In, in_map_iff in Hin as (c & <- & _).
    eexists _, _; reflexivity.
  - repeat constructor; eexists _, _; reflexivity.
Qed.

(** C4. SSE framing: for every event type t and every data d,
    [_format_event t d] is exactly the string data, colon, space, followed
    by the JSON serialisation of the dict with the two keys type (holding t)
    and data (holding d), followed by two line feeds; and every chunk that
    either generator yields, whatever the library does, is the value of
    [_format_event] at some type and data. *)
Theorem sse_framing (event_type : string) (data : json) (lib : library)
  (query : string) (max_iterations max_time_minutes : Z)
  (output_length background_context : string) (sched : list nat) :
  _format_event event_type data
    = "data: " +:+ Json.dumps (JDict [("type", JStr event_type); ("data", data)])
      +:+ String "010" (String "010" EmptyString)
  /\ Forall formatted
       (sse (stream_iterative_research lib query max_iterations max_time_minutes
               output_length background_context (new_world sched)).2)
  /\ Forall formatted
       (sse (stream_deep_research lib query max_iterations max_time_minutes
               (new_world sched)).2).
Proof.
  split; [reflexivity|]. split.
  - destruct (stream_iterative_research_spec lib query max_iterations max_time_minutes
                output_length background_context (new_world sched)) as (w' & H).
    rewrite (run_ends _ _ _ _ _ _ _ _ _ H). cbn [snd].
    rewrite (run_sse _ _ _ _ _ _ _ _ _ H). simpl.
    constructor; [eexists _, _; reflexivity | apply formatted_chunks_iterative].
  - destruct (stream_deep_research_spec lib query max_iterations max_time_minutes
                (new_world sched)) as (w' & H).
    rewrite (run_ends _ _ _ _ _ _ _ _ _ H). cbn [snd].
    rewrite (run_sse _ _ _ _ _ _ _ _ _ H). simpl.
    constructor; [eexists _, _; reflexivity | apply formatted_chunks_deep].
Qed.

Example _format_event_ex :
  _format_event "completed" (JDict [("message", JStr "ok")])
  = "data: {" +:+ Json.quote +:+ "type" +:+ Json.quote +:+ ": "
    +:+ Json.quote +:+ "completed" +:+ Json.quote +:+ ", "
    +:+ Json.quote +:+ "data" +:+ Json.quote +:+ ": {"
    +:+ Json.quote +:+ "message" +:+ Json.quote +:+ ": "
    +:+ Json.quote +:+ "ok" +:+ Json.quote +:+ "}}" +:+ nl2.
Proof. reflexivity. Qed.

(** The chains of both interceptors only hand tasks to the loop. *)
Lemma chain_schedules_only (which : interceptor) (message : string) (w : world) :
  sse (chain which message w).2 = sse w
  /\ events (chain which message w).2 = events w
  /\ exists new, tasks (chain which message w).2 = tasks w ++ new.
Proof.
  destruct which; unfold chain, iterative_chain, deep_chain;
    repeat match goal with
    | |- context [if ?b then _ else _] =>
        destruct b;
        [split; [reflexivity|]; split; [reflexivity|]; eexists [_]; reflexivity|]
    end;
    (split; [reflexivity|]; split; [reflexivity|]; exists [];
     cbn; now rewrite app_nil_r).
Qed.

(** C7. Interceptor events never reach the response: a [custom_log] chain
    yields nothing and appends nothing to [self.events] itself; it only hands
    [_emit_event] tasks to the loop.  The chunks a generator yields are the
    same list, fixed by what the library does and by the arguments, for
    every state the run starts in: whatever [self.events] and the pending
    tasks hold and whatever the loop will run.  The generator always ends,
    the same way in every state, and without raising when every exception
    the library raises is an instance of [Exception]; during the run
    [self.events] and the pending tasks only grow at the end, the loop moving
    tasks in order into [self.events]; and when the loop runs none of them
    (an empty schedule) the generator still ends, with [self.events] as it
    was: no task is awaited. *)
Theorem interceptor_events_never_reach_response (lib : library) (query : string)
  (max_iterations max_time_minutes : Z) (output_length background_context : string) :
  (forall which message w,
     sse (chain which message w).2 = sse w
     /\ events (chain which message w).2 = events w
     /\ exists new, tasks (chain which message w).2 = tasks w ++ new)
  /\ (exists out_iterative out_deep, forall w,
       let ri := stream_iterative_research lib query max_iterations max_time_minutes
                   output_length background_context w in
       let rd := stream_deep_research lib query max_iterations max_time_minutes w in
       (ri.1 = stream_result lib /\ sse ri.2 = sse w ++ out_iterative
        /\ loop_ok w ri.2)
       /\ (rd.1 = stream_result lib /\ sse rd.2 = sse w ++ out_deep
           /\ loop_ok w rd.2))
  /\ (raises_Exception_only lib = true -> stream_result lib = Ok tt).
Proof.
  split; [exact chain_schedules_only|]. split.
  - exists (started_chunk "iterative" query max_iterations max_time_minutes
            :: iterative_chunks lib),
           (started_chunk "deep" query max_iterations max_time_minutes
            :: deep_chunks lib).
    intros w ri rd.
    destruct (stream_iterative_research_spec lib query max_iterations
                max_time_minutes output_length background_context w) as (wi & Hi).
    destruct (stream_deep_research_spec lib query max_iterations max_time_minutes w)
      as (wd & Hd).
    unfold ri, rd.
    rewrite (run_ends _ _ _ _ _ _ _ _ _ Hi), (run_ends _ _ _ _ _ _ _ _ _ Hd).
    cbn [fst snd].
    split; (split; [reflexivity|]).
    + split; [apply (run_sse _ _ _ _ _ _ _ _ _ Hi)
             | apply (run_loop _ _ _ _ _ _ _ _ _ Hi)].
    + split; [apply (run_sse _ _ _ _ _ _ _ _ _ Hd)
             | apply (run_loop _ _ _ _ _ _ _ _ _ Hd)].
  - unfold raises_Exception_only, stream_result.
    destruct (raised lib) as [e|]; [|reflexivity].
    now intros ->.
Qed.

Lemma interceptor_events_never_reach_response_witness :
  stream_result failing_library = Ok tt
  /\ (stream_deep_research failing_library "q" 5 10 (new_world [])).1 = Ok tt.
Proof.
  pose proof (interceptor_events_never_reach_response failing_library "q" 5 10
                "5 pages" EmptyString) as (_ & (oi & od & H) & Hok).
  specialize (Hok eq_refl).
  split; [exact Hok|].
  destruct (H (new_world [])) as (_ & Hd & _).
  rewrite <- Hok. exact Hd.
Defined.

(** With an empty schedule the events of the interceptor stay pending and
    the stream is complete all the same. *)
Example tasks_left_pending :
  let w' := (stream_iterative_research sample_library "q" 5 10 "5 pages" EmptyString
               (new_world [])).2 in
  events w' = []
  /\ List.map (fun c => ResearchEvent.type (pending_event c)) (tasks w')
     = ["iteration_start"; "observations"; "finalizing"]
  /\ length (sse w') = 4%nat.
Proof. vm_compute. repeat split. Qed.

(* ===================================================================== *)
(** * The surface of the library the wrapper uses *)
(* ===================================================================== *)

Definition library_class (cls : string) : bool :=
  String.eqb cls "LLMConfig" || String.eqb cls "IterativeResearcher"
  || String.eqb cls "DeepResearcher".

(** An access through the public constructors and [run] only. *)
Definition public_access (a : access) : bool :=
  match a with
  | Construct cls => library_class cls
  | Call method => String.eqb method "run"
  | RunReturned _ => true
  | GetAttr _ | SetAttr _ => false
  end.

(** The statement that the library is consumed through its public surface
    only, for one run that ends in [w']: every access is a public one, no
    attribute whose name starts with an underscore is read or written, and
    the researcher is as its constructor made it. *)
Definition public_surface_only (lib : library) (w' : world) : Prop :=
  (forall a, In a (trace w') -> public_access a = true)
  /\ (forall name, PyStr.startswith "_" name = true ->
        ~ In (GetAttr name) (trace w') /\ ~ In (SetAttr name) (trace w'))
  /\ (forall obj, LLMConfig_result lib = None -> Researcher_result lib = inr obj ->
        researcher w' = Some obj).

(** What the wrapper does do. *)
Definition wrapper_access (a : access) : bool :=
  match a with
  | Construct cls => library_class cls
  | Call method => String.eqb method "run" || String.eqb method "get_all_findings"
  | RunReturned _ => true
  | GetAttr name => String.eqb name "_log_message" || String.eqb name "conversation"
  | SetAttr name => String.eqb name "_log_message"
  end.

(** The researcher [obj'] is [obj] with the interceptor in [_log_message]
    and nothing else changed. *)
Definition only_log_message_replaced (which : interceptor)
  (obj obj' : researcher_obj) : Prop :=
  _log_message obj' = CustomLog which (_log_message obj)
  /\ conversation obj' = conversation obj
  /\ other_attrs obj' = other_attrs obj.

Lemma library_trace_accesses (cls : string) (after_run : list access) (lib : library) :
  library_class cls = true -> forallb wrapper_access after_run = true ->
  forallb wrapper_access (library_trace cls after_run lib) = true.
Proof.
  intros Hcls Hafter. unfold library_trace, setup_trace.
  destruct (LLMConfig_result lib); [reflexivity|].
  destruct (Researcher_result lib); [simpl; now rewrite Hcls|].
  destruct (run_result lib); simpl; rewrite Hcls; [reflexivity | exact Hafter].
Qed.

Lemma final_researcher_frame (which : interceptor) (lib : library)
  (obj' : researcher_obj) :
  final_researcher which lib None = Some obj' ->
  exists obj, Researcher_result lib = inr obj
              /\ only_log_message_replaced which obj obj'.
Proof.
  unfold final_researcher.
  destruct (LLMConfig_result lib); [discriminate|].
  destruct (Researcher_result lib) as [e|obj]; [discriminate|].
  intros H; injection H as <-. exists obj. repeat split.
Qed.

(** C6, as the code has it.  The wrapper constructs [LLMConfig] and the
    researcher and calls [run]; besides that it reads the private attribute
    [_log_message] of the researcher and replaces it with its interceptor,
    and in the iterative mode it reads [researcher.conversation] and calls
    [get_all_findings()].  These are all its accesses; [_log_message] is the
    only attribute it writes, and at the end of a run every other attribute
    of the researcher is as the constructor made it. *)
Theorem library_surface_used (lib : library) (query : string)
  (max_iterations max_time_minutes : Z) (output_length background_context : string)
  (sched : list nat) :
  let wi := (stream_iterative_research lib query max_iterations max_time_minutes
               output_length background_context (new_world sched)).2 in
  let wd := (stream_deep_research lib query max_iterations max_time_minutes
               (new_world sched)).2 in
  forallb wrapper_access (trace wi) = true
  /\ forallb wrapper_access (trace wd) = true
  /\ (forall obj', researcher wi = Some obj' ->
        exists obj, Researcher_result lib = inr obj
                    /\ only_log_message_replaced IterativeLog obj obj')
  /\ (forall obj', researcher wd = Some obj' ->
        exists obj, Researcher_result lib = inr obj
                    /\ only_log_message_replaced DeepLog obj obj').
Proof.
  intros wi wd.
  destruct (stream_iterative_research_spec lib query max_iterations max_time_minutes
              output_length background_context (new_world sched)) as (wi' & Hi).
  destruct (stream_deep_research_spec lib query max_iterations max_time_minutes
              (new_world sched)) as (wd' & Hd).
  assert (Ewi : wi = wi') by (unfold wi; now rewrite (run_ends _ _ _ _ _ _ _ _ _ Hi)).
  assert (Ewd : wd = wd') by (unfold wd; now rewrite (run_ends _ _ _ _ _ _ _ _ _ Hd)).
  rewrite Ewi, Ewd.
  rewrite (run_trace _ _ _ _ _ _ _ _ _ Hi), (run_trace _ _ _ _ _ _ _ _ _ Hd).
  rewrite (run_researcher _ _ _ _ _ _ _ _ _ Hi), (run_researcher _ _ _ _ _ _ _ _ _ Hd).
  simpl trace. simpl researcher. simpl app.
  split; [now apply library_trace_accesses|].
  split; [now apply library_trace_accesses|].
  split; apply final_researcher_frame.
Qed.

Lemma library_surface_used_witness :
  exists obj, Researcher_result sample_library = inr obj
    /\ only_log_message_replaced IterativeLog obj
         {| _log_message := CustomLog IterativeLog (Lib 1); conversation := 2;
            other_attrs := {[ "max_iterations" := 3%N ]} |}.
Proof.
  refine (proj1 (proj2 (proj2
    (library_surface_used sample_library "q" 5 10 "5 pages" EmptyString []))) _ _).
  reflexivity.
Defined.

(** C6, as stated, fails: in a run of the iterative mode in which every call
    of the library succeeds, the wrapper writes the private attribute
    [_log_message] of the researcher, which is no access through a
    constructor or [run]. *)
Lemma public_surface_only_fails :
  ~ public_surface_only sample_library
      (stream_iterative_research sample_library "q" 5 10 "5 pages" EmptyString
         (new_world [])).2.
Proof.
  intros (Hpublic & _ & _).
  specialize (Hpublic (SetAttr "_log_message")).
  assert (Hin : In (SetAttr "_log_message")
                  (trace (stream_iterative_research sample_library "q" 5 10
                            "5 pages" EmptyString (new_world [])).2))
    by (vm_compute; repeat (first [left; reflexivity | right])).
  specialize (Hpublic Hin). discriminate.
Qed.

Example private_attribute_written :
  trace (stream_deep_research sample_library "q" 5 10 (new_world [])).2
  = [Construct "LLMConfig"; Construct "DeepResearcher"; GetAttr "_log_message";
     SetAttr "_log_message"; Call "run"; RunReturned "See [Doc](https://x.y/z)."]
  /\ researcher (stream_deep_research sample_library "q" 5 10 (new_world [])).2
     = Some {| _log_message := CustomLog DeepLog (Lib 1); conversation := 2;
               other_attrs := {[ "max_iterations" := 3%N ]} |}.
Proof. split; reflexivity. Qed.

(* ===================================================================== *)
(** * Request validation *)
(* ===================================================================== *)

Section Validation.

Variable as_int : json -> option Z.
Variable as_str : json -> option string.

(** The value [n] of an [int] field of the validated request: within its
    bounds, and read from the body or, the field omitted, the default. *)
Definition int_field_valid (body : gmap string json) (name : string)
  (default lo hi n : Z) : Prop :=
  lo <= n <= hi
  /\ match body !! name with
     | None => n = default
     | Some v => as_int v = Some n
     end.

Definition str_field_valid (body : gmap string json) (name : string)
  (default s : string) : Prop :=
  match body !! name with
  | None => s = default
  | Some v => as_str v = Some s
  end.

Definition mode_valid (body : gmap string json) (m : string) : Prop :=
  (m = "iterative" \/ m = "deep")
  /\ match body !! "mode" with
     | None => m = "iterative"
     | Some v => v = JStr m
     end.

Lemma as_mode_Some (v : json) (m : string) :
  as_mode v = Some m -> (m = "iterative" \/ m = "deep") /\ v = JStr m.
Proof.
  destruct v as [| | |s| |]; simpl; try discriminate.
  destruct (String.eqb_spec s "iterative") as [->|Hi]; simpl.
  - intros H; injection H as <-. auto.
  - destruct (String.eqb_spec s "deep") as [->|Hd]; [|discriminate].
    intros H; injection H as <-. auto.
Qed.

Lemma as_bounded_int_Some (lo hi : Z) (v : json) (n : Z) :
  as_bounded_int as_int lo hi v = Some n -> lo <= n <= hi /\ as_int v = Some n.
Proof.
  unfold as_bounded_int. destruct (as_int v) as [k|]; simpl; [|discriminate].
  destruct (Z.leb_spec lo k), (Z.leb_spec k hi); simpl; try discriminate.
  intros Heq; injection Heq as <-. split; [lia | reflexivity].
Qed.

Lemma validate_Some (body : gmap string json) (request : ResearchRequest.t) :
  validate as_int as_str body = Some request ->
  (exists v, body !! "query" = Some v
             /\ as_str v = Some (ResearchRequest.query request))
  /\ mode_valid body (ResearchRequest.mode request)
  /\ int_field_valid body "max_iterations" 5 1 20
       (ResearchRequest.max_iterations request)
  /\ int_field_valid body "max_time_minutes" 10 1 60
       (ResearchRequest.max_time_minutes request)
  /\ str_field_valid body "output_length" "5 pages"
       (ResearchRequest.output_length request)
  /\ str_field_valid body "background_context" EmptyString
       (ResearchRequest.background_context request).
Proof.
  unfold validate, field, mode_valid, int_field_valid, str_field_valid.
  destruct (body !! "query") as [vq|]; simpl; [|discriminate].
  destruct (as_str vq) as [q|] eqn:Hq; simpl; [|discriminate].
  destruct (match body !! "mode" with
            | Some v => as_mode v
            | None => Some "iterative"
            end) as [m|] eqn:Hm; simpl; [|discriminate].
  destruct (match body !! "max_iterations" with
            | Some v => as_bounded_int as_int 1 20 v
            | None => Some 5
            end) as [mi|] eqn:Hmi; simpl; [|discriminate].
  destruct (match body !! "max_time_minutes" with
            | Some v => as_bounded_int as_int 1 60 v
            | None => Some 10
            end) as [mt|] eqn:Hmt; simpl; [|discriminate].
  destruct (match body !! "output_length" with
            | Some v => as_str v
            | None => Some "5 pages"
            end) as [ol|] eqn:Hol; simpl; [|discriminate].
  destruct (match body !! "background_context" with
            | Some v => as_str v
            | None => Some EmptyString
            end) as [bc|] eqn:Hbc; simpl; [|discriminate].
  intros H; injection H as <-. simpl.
  split; [eauto|].
  split.
  { destruct (body !! "mode") as [v|].
    - now apply as_mode_Some.
    - injection Hm as <-. auto. }
  split.
  { destruct (body !! "max_iterations") as [v|].
    - now apply as_bounded_int_Some.
    - injection Hmi as <-. split; [lia | reflexivity]. }
  split.
  { destruct (body !! "max_time_minutes") as [v|].
    - now apply as_bounded_int_Some.
    - injection Hmt as <-. split; [lia | reflexivity]. }
  split.
  - destruct (body !! "output_length"); [exact Hol | congruence].
  - destruct (body !! "background_context"); [exact Hbc | congruence].
Qed.

End Validation.

(** C1. Request validation: a body of [POST /research/stream] is accepted
    only if its mode, when given, is exactly the string iterative or deep,
    its max_iterations, when given, reads as an integer n with 1 <= n <= 20
    and its max_time_minutes, when given, as an integer n with 1 <= n <= 60;
    an omitted field takes its default (mode iterative, max_iterations 5,
    max_time_minutes 10, output_length 5 pages, background_context empty).
    An accepted request is answered with the generator of its mode, called
    with the validated fields (the 400 branch of the handler is never
    taken); a body that is not accepted, in particular one that violates one
    of the bounds, is answered with the validation error, and no research
    method is called for it. *)
Theorem request_validation (as_int : json -> option Z) (as_str : json -> option string)
  (lib : library) (body : gmap string json) :
  (forall request, validate as_int as_str body = Some request ->
     mode_valid body (ResearchRequest.mode request)
     /\ int_field_valid as_int body "max_iterations" 5 1 20
          (ResearchRequest.max_iterations request)
     /\ int_field_valid as_int body "max_time_minutes" 10 1 60
          (ResearchRequest.max_time_minutes request)
     /\ str_field_valid as_str body "output_length" "5 pages"
          (ResearchRequest.output_length request)
     /\ str_field_valid as_str body "background_context" EmptyString
          (ResearchRequest.background_context request)
     /\ post_research_stream as_int as_str lib body
        = if String.eqb (ResearchRequest.mode request) "iterative"
          then EventSourceResponse
                 (stream_iterative_research lib
                    (ResearchRequest.query request)
                    (ResearchRequest.max_iterations request)
                    (ResearchRequest.max_time_minutes request)
                    (ResearchRequest.output_length request)
                    (ResearchRequest.background_context request))
          else EventSourceResponse
                 (stream_deep_research lib
                    (ResearchRequest.query request)
                    (ResearchRequest.max_iterations request)
                    (ResearchRequest.max_time_minutes request)))
  /\ (validate as_int as_str body = None ->
      post_research_stream as_int as_str lib body = ValidationError)
  /\ (forall v, body !! "mode" = Some v -> v <> JStr "iterative" -> v <> JStr "deep" ->
      post_research_stream as_int as_str lib body = ValidationError)
  /\ (forall v, body !! "max_iterations" = Some v ->
      (forall n, as_int v = Some n -> ~ (1 <= n <= 20)) ->
      post_research_stream as_int as_str lib body = ValidationError)
  /\ (forall v, body !! "max_time_minutes" = Some v ->
      (forall n, as_int v = Some n -> ~ (1 <= n <= 60)) ->
      post_research_stream as_int as_str lib body = ValidationError).
Proof.
  assert (Hnone : validate as_int as_str body = None ->
                  post_research_stream as_int as_str lib body = ValidationError).
  { intros H. unfold post_research_stream. now rewrite H. }
  split.
  { intros request Hv.
    destruct (validate_Some as_int as_str body request Hv)
      as (_ & Hmode & Hmi & Hmt & Hol & Hbc).
    repeat (split; [assumption|]).
    unfold post_research_stream, stream_research. rewrite Hv.
    destruct Hmode as [[-> | ->] _]; reflexivity. }
  split; [exact Hnone|].
  split.
  { intros v Hbody Hi Hd. apply Hnone.
    destruct (validate as_int as_str body) as [request|] eqn:Hv; [|reflexivity].
    destruct (validate_Some as_int as_str body request Hv) as (_ & [Hm Hb] & _).
    rewrite Hbody in Hb. destruct Hm as [Hm | Hm]; rewrite Hm in Hb; contradiction. }
  split.
  { intros v Hbody Hbad. apply Hnone.
    destruct (validate as_int as_str body) as [request|] eqn:Hv; [|reflexivity].
    destruct (validate_Some as_int as_str body request Hv) as (_ & _ & [Hr Hb] & _).
    rewrite Hbody in Hb. exfalso. exact (Hbad _ Hb Hr). }
  { intros v Hbody Hbad. apply Hnone.
    destruct (validate as_int as_str body) as [request|] eqn:Hv; [|reflexivity].
    destruct (validate_Some as_int as_str body request Hv)
      as (_ & _ & _ & [Hr Hb] & _).
    rewrite Hbody in Hb. exfalso. exact (Hbad _ Hb Hr). }
Qed.

Lemma request_validation_witness :
  post_research_stream exact_int exact_str sample_library
    {[ "query" := JStr "q"; "max_iterations" := JInt 21 ]}
  = ValidationError.
Proof.
  refine (proj1 (proj2 (proj2 (proj2
    (request_validation exact_int exact_str sample_library
       {[ "query" := JStr "q"; "max_iterations" := JInt 21 ]}))))
    (JInt 21) _ _).
  - reflexivity.
  - intros n Hn. injection Hn as <-. lia.
Defined.

Example request_defaults :
  validate exact_int exact_str {[ "query" := JStr "q" ]}
  = Some (ResearchRequest.mk "q" "iterative" 5 10 "5 pages" EmptyString).
Proof. reflexivity. Qed.

Example request_deep_accepted :
  post_research_stream exact_int exact_str sample_library
    {[ "query" := JStr "q"; "mode" := JStr "deep"; "max_time_minutes" := JInt 60 ]}
  = EventSourceResponse (stream_deep_research sample_library "q" 5 60).
Proof. reflexivity. Qed.


(* ===================================================================== *)
(** * Facts about the string primitives *)
(* ===================================================================== *)

(** Every character of the string satisfies [p]. *)
Fixpoint all_chars (p : ascii -> bool) (s : string) : bool :=
  match s with
  | EmptyString => true
  | String c s' => p c && all_chars p s'
  end.

Lemma append_cons (c : ascii) (a b : string) :
  String c a +:+ b = String c (a +:+ b).
Proof. reflexivity. Qed.

Lemma append_nil (b : string) : EmptyString +:+ b = b.
Proof. reflexivity. Qed.

Lemma length_append (a b : string) :
  String.length (a +:+ b) = (String.length a + String.length b)%nat.
Proof.
  induction a as [|c a IH]; [reflexivity|].
  rewrite append_cons. simpl. now rewrite IH.
Qed.

Lemma append_empty_r (a : string) : a +:+ EmptyString = a.
Proof.
  induction a as [|c a IH]; [reflexivity|]. now rewrite append_cons, IH.
Qed.

Lemma append_assoc (a b c : string) : (a +:+ b) +:+ c = a +:+ (b +:+ c).
Proof.
  induction a as [|x a IH]; [reflexivity|]. now rewrite !append_cons, IH.
Qed.

Lemma all_chars_append (p : ascii -> bool) (a b : string) :
  all_chars p (a +:+ b) = all_chars p a && all_chars p b.
Proof.
  induction a as [|c a IH]; [reflexivity|].
  rewrite append_cons. simpl. rewrite IH. now rewrite andb_assoc.
Qed.

Lemma all_chars_weaken (p q : ascii -> bool) (s : string) :
  (forall c, p c = true -> q c = true) ->
  all_chars p s = true -> all_chars q s = true.
Proof.
  intros Hpq. induction s as [|c s IH]; simpl; [reflexivity|].
  intros [Hc Hs]%andb_true_iff. rewrite (Hpq c Hc). now apply IH.
Qed.

Lemma startswith_append (a b : string) : PyStr.startswith a (a +:+ b) = true.
Proof.
  induction a as [|c a IH]; [reflexivity|].
  rewrite append_cons. simpl. now rewrite Ascii.eqb_refl, IH.
Qed.

Lemma startswith_split (a s : string) :
  PyStr.startswith a s = true -> s = a +:+ PyStr.drop (String.length a) s.
Proof.
  revert s. induction a as [|c a IH]; intros s; simpl.
  - destruct s; reflexivity.
  - destruct s as [|d s]; [discriminate|].
    intros [Hc Hs]%andb_true_iff. apply Ascii.eqb_eq in Hc as ->.
    rewrite append_cons. simpl. f_equal. now apply IH.
Qed.

Lemma startswith_append_l (a b s : string) :
  PyStr.startswith a s = true ->
  PyStr.startswith b (PyStr.drop (String.length a) s) = true ->
  PyStr.startswith (a +:+ b) s = true.
Proof.
  intros Ha Hb. rewrite (startswith_split a s Ha).
  rewrite (startswith_split b _ Hb), <- append_assoc.
  apply startswith_append.
Qed.

Lemma span_all_chars (p : ascii -> bool) (s : string) :
  all_chars p (Re.span p s) = true.
Proof.
  induction s as [|c s IH]; simpl; [reflexivity|].
  destruct (p c) eqn:Hc; simpl; [now rewrite Hc, IH | reflexivity].
Qed.

Lemma span_startswith (p : ascii -> bool) (s : string) :
  PyStr.startswith (Re.span p s) s = true.
Proof.
  induction s as [|c s IH]; simpl; [reflexivity|].
  destruct (p c); simpl; [now rewrite Ascii.eqb_refl, IH | reflexivity].
Qed.

Lemma contains_startswith (u s : string) :
  PyStr.startswith u s = true -> PyStr.contains u s = true.
Proof. intros H. destruct s; simpl in *; now rewrite H. Qed.

Lemma contains_cons (u : string) (c : ascii) (s : string) :
  PyStr.contains u s = true -> PyStr.contains u (String c s) = true.
Proof. intros H. cbn [PyStr.contains]. rewrite H. apply orb_true_r. Qed.

Lemma is_empty_true (s : string) : PyStr.is_empty s = true <-> s = EmptyString.
Proof. destruct s; simpl; split; congruence. Qed.

Lemma take_length_le (n : nat) (s : string) :
  (String.length (PyStr.take n s) <= n)%nat.
Proof.
  revert s. induction n as [|n IH]; intros [|c s]; simpl; try lia.
  specialize (IH s). lia.
Qed.

Lemma take_all (n : nat) (s : string) :
  (String.length s <= n)%nat -> PyStr.take n s = s.
Proof.
  revert s. induction n as [|n IH]; intros [|c s]; simpl; try reflexivity; try lia.
  intros H. f_equal. apply IH. lia.
Qed.

Lemma drop_drop (a b : nat) (s : string) :
  PyStr.drop b (PyStr.drop a s) = PyStr.drop (a + b) s.
Proof.
  revert s. induction a as [|a IH]; intros s; simpl.
  - destruct (PyStr.drop 0 s) eqn:E; destruct s; simpl in *; congruence.
  - destruct s as [|c s]; simpl; [destruct b; reflexivity | apply IH].
Qed.

Lemma contains_append_r (u a b : string) :
  PyStr.contains u b = true -> PyStr.contains u (a +:+ b) = true.
Proof.
  intros H. induction a as [|c a IH]; [exact H|].
  rewrite append_cons. now apply contains_cons.
Qed.

Lemma contains_drop (u : string) (n : nat) (s : string) :
  PyStr.contains u (PyStr.drop n s) = true -> PyStr.contains u s = true.
Proof.
  revert s. induction n as [|n IH]; intros s.
  - destruct s; exact (fun H => H).
  - destruct s as [|c s]; [exact (fun H => H)|].
    simpl PyStr.drop. intros H. apply contains_cons. now apply IH.
Qed.

Lemma startswith_append_r (u a b : string) :
  PyStr.startswith u a = true -> PyStr.startswith u (a +:+ b) = true.
Proof.
  revert a. induction u as [|c u IH]; intros a; [reflexivity|].
  destruct a as [|d a]; [discriminate|]. rewrite append_cons. simpl.
  intros [Hc Hu]%andb_true_iff. rewrite Hc. simpl. now apply IH.
Qed.

Lemma contains_append_l (u a b : string) :
  PyStr.contains u a = true -> PyStr.contains u (a +:+ b) = true.
Proof.
  induction a as [|c a IH].
  - simpl. rewrite orb_false_r. destruct u; [|discriminate].
    intros _. destruct b; reflexivity.
  - rewrite append_cons. cbn [PyStr.contains].
    intros [H|H]%orb_true_iff.
    + rewrite <- append_cons, (startswith_append_r _ _ _ H). reflexivity.
    + rewrite (IH H). apply orb_true_r.
Qed.

Lemma contains_prefix (u p s : string) :
  PyStr.startswith p s = true -> PyStr.contains u p = true ->
  PyStr.contains u s = true.
Proof.
  intros Hp Hu. rewrite (startswith_split p s Hp). now apply contains_append_l.
Qed.

(* ===================================================================== *)
(** * What the two patterns match *)
(* ===================================================================== *)

(** The match begins with one of the two schemes. *)
Definition has_scheme (u : string) : bool :=
  PyStr.startswith "http://" u || PyStr.startswith "https://" u.

(** A match of [https?://C+]: a scheme, then at least one character, all of
    them of the class. *)
Definition scheme_match (cls : ascii -> bool) (u : string) : Prop :=
  exists body,
    (u = "http://" +:+ body \/ u = "https://" +:+ body)
    /\ body <> EmptyString /\ all_chars cls body = true.

Lemma match_scheme_Some (cls : ascii -> bool) (s u : string) :
  Re.match_scheme cls s = Some u ->
  scheme_match cls u /\ PyStr.startswith u s = true.
Proof.
  unfold Re.match_scheme.
  destruct (PyStr.startswith "https://" s) eqn:Hs.
  - set (body := Re.span cls (PyStr.drop (String.length "https://") s)).
    destruct (PyStr.is_empty body) eqn:He; [discriminate|].
    intros H; injection H as <-. split.
    + exists body. split; [right; reflexivity|]. split.
      * intros Hb. rewrite Hb in He. discriminate.
      * apply span_all_chars.
    + apply startswith_append_l; [exact Hs | apply span_startswith].
  - destruct (PyStr.startswith "http://" s) eqn:Hp; [|discriminate].
    set (body := Re.span cls (PyStr.drop (String.length "http://") s)).
    destruct (PyStr.is_empty body) eqn:He; [discriminate|].
    intros H; injection H as <-. split.
    + exists body. split; [left; reflexivity|]. split.
      * intros Hb. rewrite Hb in He. discriminate.
      * apply span_all_chars.
    + apply startswith_append_l; [exact Hp | apply span_startswith].
Qed.

Lemma scheme_match_has_scheme (cls : ascii -> bool) (u : string) :
  scheme_match cls u -> has_scheme u = true /\ (8 <= String.length u)%nat.
Proof.
  intros (body & [-> | ->] & Hne & _); (split; [reflexivity|]);
    (destruct body; [congruence | simpl; lia]).
Qed.

(** A match of the URL pattern is made of URL characters throughout. *)
Lemma scheme_match_url_chars (u : string) :
  scheme_match Re.url_char u -> all_chars Re.url_char u = true.
Proof.
  intros (body & [-> | ->] & _ & Hb); rewrite all_chars_append, Hb; reflexivity.
Qed.

Lemma findall_urls_skip_matches (s : string) :
  forall skip,
    Forall (fun u => scheme_match Re.url_char u /\ PyStr.contains u s = true)
      (Re.findall_urls_skip s skip).
Proof.
  induction s as [|c s IH]; intros skip; [constructor|].
  assert (Hrest : forall k,
    Forall (fun u => scheme_match Re.url_char u
                     /\ PyStr.contains u (String c s) = true)
      (Re.findall_urls_skip s k)).
  { intros k. eapply Forall_impl; [apply IH|].
    intros u [H1 H2]. split; [exact H1 | now apply contains_cons]. }
  cbn [Re.findall_urls_skip]. destruct skip as [|k]; [|apply Hrest].
  destruct (Re.match_url (String c s)) as [u|] eqn:Hm; [|apply Hrest].
  constructor; [|apply Hrest].
  apply match_scheme_Some in Hm as [H1 H2].
  split; [exact H1 | now apply contains_startswith].
Qed.

(** What a match of the markdown-link pattern is: a non-empty title without
    a closing bracket, a URL with a scheme and without a closing
    parenthesis, and the text [title](url) at the start of [s]. *)
Lemma match_markdown_link_Some (s title url : string) (n : nat) :
  Re.match_markdown_link s = Some (title, url, n) ->
  title <> EmptyString
  /\ all_chars (Re.not_code 93) title = true
  /\ scheme_match (Re.not_code 41) url
  /\ PyStr.startswith ("[" +:+ title +:+ "](" +:+ url +:+ ")") s = true
  /\ n = String.length ("[" +:+ title +:+ "](" +:+ url +:+ ")").
Proof.
  destruct s as [|c r]; [discriminate|]. cbn [Re.match_markdown_link].
  destruct (N.eqb (PyStr.code c) 91) eqn:Hc; [|discriminate].
  set (t := Re.span (Re.not_code 93) r).
  destruct (PyStr.is_empty t) eqn:He; [discriminate|].
  destruct (PyStr.startswith "](" (PyStr.drop (String.length t) r)) eqn:Hb;
    [|discriminate].
  destruct (Re.match_scheme _ _) as [u|] eqn:Hm; [|discriminate].
  destruct (PyStr.startswith ")" _) eqn:Hp; [|discriminate].
  intros H; injection H as <- <- <-.
  apply match_scheme_Some in Hm as [Hu1 Hu2].
  split; [intros Ht; rewrite Ht in He; discriminate|].
  split; [apply span_all_chars|]. split; [exact Hu1|]. split.
  - assert (c = "["%char) as ->.
    { apply N.eqb_eq in Hc. unfold PyStr.code in Hc.
      rewrite <- (ascii_N_embedding c), Hc. reflexivity. }
    change ("[" +:+ t +:+ "](" +:+ u +:+ ")")
      with (String "[" (t +:+ "](" +:+ u +:+ ")")).
    cbn [PyStr.startswith]. rewrite Ascii.eqb_refl. simpl andb.
    apply startswith_append_l; [apply span_startswith|].
    apply startswith_append_l; [exact Hb|].
    apply startswith_append_l; [exact Hu2|].
    rewrite drop_drop. exact Hp.
  - rewrite append_cons, append_nil. simpl String.length.
    rewrite !length_append. simpl. lia.
Qed.

Lemma findall_markdown_links_skip_matches (s : string) :
  forall skip,
    Forall (fun link =>
              link.1 <> EmptyString
              /\ all_chars (Re.not_code 93) link.1 = true
              /\ scheme_match (Re.not_code 41) link.2
              /\ PyStr.contains link.2 s = true)
      (Re.findall_markdown_links_skip s skip).
Proof.
  induction s as [|c s IH]; intros skip; [constructor|].
  assert (Hrest : forall k,
    Forall (fun link =>
              link.1 <> EmptyString
              /\ all_chars (Re.not_code 93) link.1 = true
              /\ scheme_match (Re.not_code 41) link.2
              /\ PyStr.contains link.2 (String c s) = true)
      (Re.findall_markdown_links_skip s k)).
  { intros k. eapply Forall_impl; [apply IH|].
    intros u (H1 & H2 & H3 & H4). repeat (split; [assumption|]).
    now apply contains_cons. }
  cbn [Re.findall_markdown_links_skip]. destruct skip as [|k]; [|apply Hrest].
  destruct (Re.match_markdown_link (String c s)) as [[[title url] n]|] eqn:Hm;
    [|apply Hrest].
  constructor; [|apply Hrest].
  apply match_markdown_link_Some in Hm as (H1 & H2 & H3 & H4 & _).
  simpl. repeat (split; [assumption|]).
  apply (contains_prefix url _ _ H4).
  apply (contains_append_r url "["), (contains_append_r url title),
    (contains_append_r url "](").
  apply contains_startswith, startswith_append.
Qed.

(* ===================================================================== *)
(** * Facts about [strip], [split] and slices *)
(* ===================================================================== *)

Lemma lstrip_length (s : string) :
  (String.length (PyStr.lstrip s) <= String.length s)%nat.
Proof.
  induction s as [|c s IH]; simpl; [lia|]. destruct (PyStr.isspace c); simpl; lia.
Qed.

Lemma rstrip_length (s : string) :
  (String.length (PyStr.rstrip s) <= String.length s)%nat.
Proof.
  induction s as [|c s IH]; simpl; [lia|].
  destruct (PyStr.is_empty (PyStr.rstrip s) && PyStr.isspace c); simpl; lia.
Qed.

Lemma strip_length (s : string) :
  (String.length (PyStr.strip s) <= String.length s)%nat.
Proof.
  unfold PyStr.strip. pose proof (lstrip_length s).
  pose proof (rstrip_length (PyStr.lstrip s)). lia.
Qed.

Lemma lstrip_all_chars (p : ascii -> bool) (s : string) :
  all_chars p s = true -> all_chars p (PyStr.lstrip s) = true.
Proof.
  induction s as [|c s IH]; simpl; [reflexivity|].
  intros [Hc Hs]%andb_true_iff.
  destruct (PyStr.isspace c); [now apply IH | simpl; now rewrite Hc, Hs].
Qed.

Lemma rstrip_all_chars (p : ascii -> bool) (s : string) :
  all_chars p s = true -> all_chars p (PyStr.rstrip s) = true.
Proof.
  induction s as [|c s IH]; simpl; [reflexivity|].
  intros [Hc Hs]%andb_true_iff.
  destruct (PyStr.is_empty (PyStr.rstrip s) && PyStr.isspace c);
    [reflexivity | simpl; now rewrite Hc, IH].
Qed.

Lemma strip_all_chars (p : ascii -> bool) (s : string) :
  all_chars p s = true -> all_chars p (PyStr.strip s) = true.
Proof. intros H. now apply rstrip_all_chars, lstrip_all_chars. Qed.

(** A string that [lstrip] leaves alone does not start with white space,
    and neither does what [rstrip] keeps of it. *)
Lemma lstrip_fixed_head (c : ascii) (s : string) :
  PyStr.lstrip (String c s) = String c s -> PyStr.isspace c = false.
Proof.
  simpl. destruct (PyStr.isspace c); [|reflexivity].
  intros H. pose proof (lstrip_length s) as Hl. rewrite H in Hl. simpl in Hl. lia.
Qed.

Lemma lstrip_idempotent (s : string) :
  PyStr.lstrip (PyStr.lstrip s) = PyStr.lstrip s.
Proof.
  induction s as [|c s IH]; simpl; [reflexivity|].
  destruct (PyStr.isspace c) eqn:Hc; [exact IH | simpl; now rewrite Hc].
Qed.

Lemma rstrip_idempotent (s : string) :
  PyStr.rstrip (PyStr.rstrip s) = PyStr.rstrip s.
Proof.
  induction s as [|c s IH]; simpl; [reflexivity|].
  destruct (PyStr.is_empty (PyStr.rstrip s) && PyStr.isspace c) eqn:Hc;
    [reflexivity|].
  simpl. rewrite IH, Hc. reflexivity.
Qed.

Lemma lstrip_rstrip (s : string) :
  PyStr.lstrip s = s -> PyStr.lstrip (PyStr.rstrip s) = PyStr.rstrip s.
Proof.
  destruct s as [|c s]; [reflexivity|]. intros H.
  apply lstrip_fixed_head in H. simpl. rewrite H, andb_false_r. simpl.
  now rewrite H.
Qed.

(** [strip] twice is [strip] once: its result has no white space at either
    end. *)
Lemma strip_idempotent (s : string) :
  PyStr.strip (PyStr.strip s) = PyStr.strip s.
Proof.
  unfold PyStr.strip.
  rewrite (lstrip_rstrip (PyStr.lstrip s) (lstrip_idempotent s)).
  apply rstrip_idempotent.
Qed.

Definition not_char (sep c : ascii) : bool := negb (Ascii.eqb c sep).

Lemma split_nonempty (sep : ascii) (s : string) : PyStr.split sep s <> [].
Proof.
  induction s as [|c s IH]; simpl; [discriminate|].
  destruct (Ascii.eqb c sep); [discriminate|].
  destruct (PyStr.split sep s); discriminate.
Qed.

Lemma split_pieces (sep : ascii) (s : string) :
  Forall (fun piece => all_chars (not_char sep) piece = true
                       /\ (String.length piece <= String.length s)%nat)
    (PyStr.split sep s).
Proof.
  induction s as [|c s IH]; simpl.
  - repeat constructor.
  - assert (Hweak : Forall (fun piece =>
              all_chars (not_char sep) piece = true
              /\ (String.length piece <= S (String.length s))%nat)
              (PyStr.split sep s)).
    { eapply Forall_impl; [exact IH|]. intros p [H1 H2]. split; [exact H1 | lia]. }
    destruct (Ascii.eqb c sep) eqn:Hc.
    + constructor; [split; [reflexivity | simpl; lia] | exact Hweak].
    + destruct (PyStr.split sep s) as [|p ps] eqn:Hs.
      * constructor; [|constructor]. unfold not_char. simpl.
        rewrite Hc. split; [reflexivity | lia].
      * inversion IH as [|? ? [Hp1 Hp2] Hps]; subst.
        inversion Hweak as [|? ? _ Hps']; subst.
        constructor; [|exact Hps'].
        unfold not_char in *. simpl. rewrite Hc, Hp1. split; [reflexivity | lia].
Qed.

Lemma last_item_in (l : list string) :
  l <> [] -> In (PyStr.last_item l) l.
Proof.
  unfold PyStr.last_item. induction l as [|x l IH]; [congruence|]. intros _.
  destruct l as [|y l]; [now left|]. right. apply IH. discriminate.
Qed.

Lemma drop_length (n : nat) (s : string) :
  (String.length (PyStr.drop n s) <= String.length s)%nat.
Proof.
  revert s. induction n as [|n IH]; intros [|c s]; simpl; try lia.
  specialize (IH s). lia.
Qed.

Lemma slice_length (a b : Z) (s : string) :
  (String.length (PyStr.slice a b s) <= Z.to_nat (b - a))%nat.
Proof. unfold PyStr.slice. apply take_length_le. Qed.

(* ===================================================================== *)
(** * More about the citation extractors *)
(* ===================================================================== *)

Lemma title_near_url_Some (text url t : string) :
  _extract_title_near_url text url = Some t ->
  PyStr.strip t = t
  /\ all_chars (not_char ".") t = true
  /\ (String.length t <= 100)%nat.
Proof.
  unfold _extract_title_near_url.
  set (pos := PyStr.find url text).
  set (before := PyStr.strip (PyStr.slice (Z.max 0 (pos - 100)) pos text)).
  destruct (Z.ltb_spec 0 pos) as [Hpos|Hpos]; [|discriminate].
  destruct (PyStr.split "." before) as [|p ps] eqn:Hs; [discriminate|].
  intros Ht. injection Ht as <-. rewrite <- Hs.
  pose proof (split_pieces "." before) as Hall.
  rewrite Forall_forall in Hall.
  assert (Hin : In (PyStr.last_item (PyStr.split "." before))
                  (PyStr.split "." before))
    by (apply last_item_in, split_nonempty).
  apply list_elem_of_In in Hin. destruct (Hall _ Hin) as [Hdot Hlen].
  split; [apply strip_idempotent|]. split; [now apply strip_all_chars|].
  pose proof (strip_length (PyStr.last_item (PyStr.split "." before))).
  pose proof (strip_length (PyStr.slice (Z.max 0 (pos - 100)) pos text)) as Hb.
  pose proof (slice_length (Z.max 0 (pos - 100)) pos text).
  fold before in Hb. lia.
Qed.

(** X1. [_extract_title_near_url] gives no title exactly when the URL does not
    occur in the text or occurs at its very start; a title it gives has no
    white space at its ends, holds no full stop and has at most 100
    characters. *)
Theorem title_near_url_spec (text url : string) :
  (_extract_title_near_url text url = None <-> PyStr.find url text <= 0)
  /\ forall t, _extract_title_near_url text url = Some t ->
       PyStr.strip t = t
       /\ all_chars (not_char ".") t = true
       /\ (String.length t <= 100)%nat.
Proof.
  split; [|intros t; apply title_near_url_Some].
  unfold _extract_title_near_url.
  destruct (Z.ltb_spec 0 (PyStr.find url text)) as [Hpos|Hpos].
  - destruct (PyStr.split "." _) as [|p ps] eqn:Hs;
      [exfalso; exact (split_nonempty _ _ Hs)|].
    split; [discriminate | lia].
  - split; [intros _; exact Hpos | reflexivity].
Qed.

Lemma title_near_url_spec_witness :
  PyStr.strip "Two three" = "Two three"
  /\ all_chars (not_char ".") "Two three" = true
  /\ (String.length "Two three" <= 100)%nat.
Proof.
  refine (proj2 (title_near_url_spec "One. Two three http://a.b" "http://a.b")
            "Two three" _).
  reflexivity.
Defined.

(** ** Where a citation comes from *)

(** A citation of the findings variant is built from one match of the URL
    pattern in one finding. *)
Definition from_finding (findings : list string) (c : Citation.t) : Prop :=
  exists finding,
    In finding findings
    /\ In (Citation.url c) (Re.findall_urls finding)
    /\ Citation.title c
       = title_or (_extract_title_near_url finding (Citation.url c)) (Citation.url c)
    /\ Citation.snippet c = snippet_of finding.

Lemma findings_provenance (findings : list string) :
  Forall (from_finding findings) (_extract_citations_from_findings findings).
Proof.
  unfold _extract_citations_from_findings.
  apply (fold_left_keeps (fun st => Forall (from_finding findings) st.1));
    [constructor|].
  intros st finding Hin Hst.
  apply (fold_left_keeps (fun st => Forall (from_finding findings) st.1));
    [exact Hst|].
  intros [citations citation_id] url Hurl Hcits. simpl in *.
  apply Forall_app. split; [exact Hcits|]. constructor; [|constructor].
  exists finding. simpl. auto.
Qed.

(** A citation of the report variant is built from a markdown link or from a
    match of the URL pattern. *)
Definition from_report (report : string) (c : Citation.t) : Prop :=
  In (Citation.title c, Citation.url c) (Re.findall_markdown_links report)
  \/ (In (Citation.url c) (Re.findall_urls report)
      /\ Citation.title c = Citation.url c).

Lemma report_provenance (report : string) :
  Forall (from_report report) (_extract_citations_from_report report).
Proof.
  unfold _extract_citations_from_report.
  apply (fold_left_keeps (fun st => Forall (from_report report) st.1)).
  - apply (fold_left_keeps (fun st => Forall (from_report report) st.1));
      [constructor|].
    intros [citations citation_id] [title url] Hin Hcits. simpl in *.
    apply Forall_app. split; [exact Hcits|]. constructor; [|constructor].
    left. exact Hin.
  - intros [citations citation_id] url Hin Hcits. unfold plain_step.
    destruct (negb (any_url url citations)); [|exact Hcits]. simpl in *.
    apply Forall_app. split; [exact Hcits|]. constructor; [|constructor].
    right. simpl. auto.
Qed.

Lemma findall_urls_matches (s u : string) :
  In u (Re.findall_urls s) ->
  scheme_match Re.url_char u /\ PyStr.contains u s = true.
Proof.
  intros Hin. pose proof (findall_urls_skip_matches s 0) as H.
  rewrite Forall_forall in H. apply (H u). now apply list_elem_of_In.
Qed.

Lemma findall_markdown_links_matches (s title url : string) :
  In (title, url) (Re.findall_markdown_links s) ->
  title <> EmptyString
  /\ all_chars (Re.not_code 93) title = true
  /\ scheme_match (Re.not_code 41) url
  /\ PyStr.contains url s = true.
Proof.
  intros Hin. pose proof (findall_markdown_links_skip_matches s 0) as H.
  rewrite Forall_forall in H. apply (H (title, url)). now apply list_elem_of_In.
Qed.

(** X2. Every URL of a citation begins with [http://] or [https://] and occurs
    in the text it was taken from; in the findings variant it holds no white
    space and none of the characters the pattern excludes. *)
Theorem citation_urls_well_formed (findings : list string) (report : string) :
  Forall (fun c =>
            has_scheme (Citation.url c) = true
            /\ all_chars Re.url_char (Citation.url c) = true
            /\ exists finding, In finding findings
                 /\ PyStr.contains (Citation.url c) finding = true)
    (_extract_citations_from_findings findings)
  /\ Forall (fun c =>
               has_scheme (Citation.url c) = true
               /\ PyStr.contains (Citation.url c) report = true)
       (_extract_citations_from_report report).
Proof.
  split.
  - eapply Forall_impl; [apply findings_provenance|].
    intros c (finding & Hin & Hurl & _).
    apply findall_urls_matches in Hurl as [Hm Hc].
    split; [now apply (scheme_match_has_scheme Re.url_char)|].
    split; [now apply scheme_match_url_chars | eauto].
  - eapply Forall_impl; [apply report_provenance|].
    intros c [Hlink | [Hurl _]].
    + apply findall_markdown_links_matches in Hlink as (_ & _ & Hm & Hc).
      split; [now apply (scheme_match_has_scheme (Re.not_code 41)) | exact Hc].
    + apply findall_urls_matches in Hurl as [Hm Hc].
      split; [now apply (scheme_match_has_scheme Re.url_char) | exact Hc].
Qed.

Lemma scheme_match_nonempty (cls : ascii -> bool) (u : string) :
  scheme_match cls u -> u <> EmptyString.
Proof. intros (body & [-> | ->] & _); discriminate. Qed.

Lemma title_or_nonempty (title : option string) (url : string) :
  url <> EmptyString -> title_or title url <> EmptyString.
Proof.
  intros Hu. unfold title_or. destruct title as [[|c t]|]; simpl;
    [exact Hu | discriminate | exact Hu].
Qed.

(** X3. No citation has an empty URL or an empty title. *)
Theorem citation_url_and_title_nonempty (findings : list string) (report : string) :
  Forall (fun c => Citation.url c <> EmptyString /\ Citation.title c <> EmptyString)
    (_extract_citations_from_findings findings)
  /\ Forall (fun c => Citation.url c <> EmptyString /\ Citation.title c <> EmptyString)
       (_extract_citations_from_report report).
Proof.
  split.
  - eapply Forall_impl; [apply findings_provenance|].
    intros c (finding & _ & Hurl & Htitle & _).
    apply findall_urls_matches in Hurl as [Hm _].
    apply scheme_match_nonempty in Hm.
    split; [exact Hm | rewrite Htitle; now apply title_or_nonempty].
  - eapply Forall_impl; [apply report_provenance|].
    intros c [Hlink | [Hurl Htitle]].
    + apply findall_markdown_links_matches in Hlink as (Ht & _ & Hm & _).
      split; [now apply (scheme_match_nonempty (Re.not_code 41)) | exact Ht].
    + apply findall_urls_matches in Hurl as [Hm _].
      apply scheme_match_nonempty in Hm. split; [exact Hm | now rewrite Htitle].
Qed.

Lemma snippet_of_length (finding : string) :
  (String.length (snippet_of finding) <= 203)%nat.
Proof.
  unfold snippet_of, PyStr.len.
  destruct (Z.ltb_spec 200 (Z.of_nat (String.length finding))).
  - rewrite length_append. pose proof (take_length_le 200 finding).
    change (String.length "...") with 3%nat. lia.
  - lia.
Qed.

(** X4. The sizes of a citation of the findings variant: the snippet has at most
    203 characters; the title is the URL, or else a text of at most 100
    characters that is not empty, has no white space at its ends and holds
    no full stop. *)
Theorem findings_citation_bounds (findings : list string) :
  Forall (fun c =>
            (String.length (Citation.snippet c) <= 203)%nat
            /\ (Citation.title c = Citation.url c
                \/ (Citation.title c <> EmptyString
                    /\ PyStr.strip (Citation.title c) = Citation.title c
                    /\ all_chars (not_char ".") (Citation.title c) = true
                    /\ (String.length (Citation.title c) <= 100)%nat)))
    (_extract_citations_from_findings findings).
Proof.
  eapply Forall_impl; [apply findings_provenance|].
  intros c (finding & _ & _ & Htitle & Hsnippet).
  split; [rewrite Hsnippet; apply snippet_of_length|].
  rewrite Htitle. unfold title_or.
  destruct (_extract_title_near_url finding (Citation.url c)) as [t|] eqn:Ht;
    [|now left].
  destruct t as [|x t]; [now left|]. right. simpl.
  split; [discriminate|].
  exact (title_near_url_Some finding (Citation.url c) _ Ht).
Qed.

Lemma findings_inner_urls (finding : string) (urls : list string) :
  forall st,
    List.map Citation.url (fold_left (findings_step finding) urls st).1
    = List.map Citation.url st.1 ++ urls.
Proof.
  induction urls as [|u urls IH]; intros [citations citation_id]; simpl.
  - now rewrite app_nil_r.
  - rewrite IH. simpl. rewrite map_app. simpl. now rewrite <- app_assoc.
Qed.

Lemma findings_outer_urls (findings : list string) :
  forall st,
    List.map Citation.url
      (fold_left
         (fun st finding =>
            fold_left (findings_step finding) (Re.findall_urls finding) st)
         findings st).1
    = List.map Citation.url st.1
      ++ List.concat (List.map Re.findall_urls findings).
Proof.
  induction findings as [|f findings IH]; intros st; simpl.
  - now rewrite app_nil_r.
  - rewrite IH, findings_inner_urls. now rewrite <- app_assoc.
Qed.

(** X5. The findings variant makes one citation for every match of the URL
    pattern in every finding, in the order of the findings and of the
    matches, repeated URLs included; so the citations of two lists of
    findings put together are those of the first followed by those of the
    second, as far as the URLs go. *)
Theorem findings_one_citation_per_match (findings more : list string) :
  List.map Citation.url (_extract_citations_from_findings findings)
  = List.concat (List.map Re.findall_urls findings)
  /\ List.map Citation.url (_extract_citations_from_findings (findings ++ more))
     = List.map Citation.url (_extract_citations_from_findings findings)
       ++ List.map Citation.url (_extract_citations_from_findings more).
Proof.
  assert (H : forall fs, List.map Citation.url (_extract_citations_from_findings fs)
                         = List.concat (List.map Re.findall_urls fs)).
  { intros fs. unfold _extract_citations_from_findings.
    now rewrite findings_outer_urls. }
  split; [apply H|]. rewrite !H, map_app. apply concat_app.
Qed.

Example findings_keep_repeats :
  List.map Citation.url
    (_extract_citations_from_findings ["a http://x.y b http://x.y"; "http://x.y"])
  = ["http://x.y"; "http://x.y"; "http://x.y"].
Proof. reflexivity. Qed.

Lemma any_url_true (url : string) (citations : list Citation.t) :
  any_url url citations = true -> In url (List.map Citation.url citations).
Proof.
  unfold any_url. intros (c & Hin & Heq)%existsb_exists.
  apply String.eqb_eq in Heq as <-. now apply in_map.
Qed.

Lemma plain_pass (urls : list string) :
  forall st,
    let st' := fold_left plain_step urls st in
    (forall c, In c st.1 -> In c st'.1)
    /\ (forall u, In u urls -> In u (List.map Citation.url st'.1))
    /\ (length st.1 <= length st'.1 <= length st.1 + length urls)%nat.
Proof.
  induction urls as [|u urls IH]; intros [citations citation_id];
    cbn [fold_left fst length].
  - split; [auto|]. split; [intros u []|lia].
  - set (st1 := plain_step (citations, citation_id) u).
    destruct (IH st1) as (Hkeep & Hall & Hlen).
    assert (H1 : (forall c, In c citations -> In c st1.1)
                 /\ In u (List.map Citation.url st1.1)
                 /\ (length citations <= length st1.1 <= S (length citations))%nat).
    { unfold st1, plain_step.
      destruct (any_url u citations) eqn:Hany; simpl.
      - split; [auto|]. split; [now apply any_url_true | lia].
      - split; [intros c Hc; apply in_or_app; now left|].
        split; [rewrite map_app; apply in_or_app; right; now left|].
        rewrite length_app. simpl. lia. }
    destruct H1 as (Hk1 & Hu1 & Hl1).
    split; [intros c Hc; apply Hkeep, Hk1, Hc|].
    split; [|lia].
    intros v [<- | Hv]; [|now apply Hall].
    apply in_map_iff in Hu1 as (c & Hc1 & Hc2).
    apply in_map_iff. exists c. split; [exact Hc1 | now apply Hkeep].
Qed.

(** X6. The report variant loses nothing: every markdown link has its citation,
    with the link text as title, every match of the URL pattern in the
    report is the URL of some citation, and the number of citations lies
    between the number of links and the number of links plus the number of
    URL matches. *)
Theorem report_citations_complete (report : string) :
  let citations := _extract_citations_from_report report in
  let links := Re.findall_markdown_links report in
  let plain_urls := Re.findall_urls report in
  (forall title url, In (title, url) links ->
     exists c, In c citations /\ Citation.title c = title /\ Citation.url c = url)
  /\ (forall u, In u plain_urls -> In u (List.map Citation.url citations))
  /\ (length links <= length citations <= length links + length plain_urls)%nat.
Proof.
  intros citations links plain_urls.
  set (st0 := fold_left markdown_step links ([], 1)).
  assert (Hlinks : List.map link_of st0.1 = links)
    by (unfold st0; now rewrite markdown_pass_links).
  assert (Hlen0 : length st0.1 = length links)
    by (unfold st0; now rewrite markdown_pass_length).
  destruct (plain_pass plain_urls st0) as (Hkeep & Hall & Hlen).
  fold citations in Hkeep, Hall, Hlen.
  change (fold_left plain_step plain_urls st0).1 with citations in *.
  split; [|split; [exact Hall | lia]].
  intros title url Hin. rewrite <- Hlinks in Hin.
  apply in_map_iff in Hin as (c & Hc & Hin).
  exists c. split; [now apply Hkeep|].
  unfold link_of in Hc. now injection Hc.
Qed.

Lemma report_citations_complete_witness :
  In "http://c.d"
    (List.map Citation.url
       (_extract_citations_from_report "[A](http://a.b) http://c.d http://c.d")).
Proof.
  refine (proj1 (proj2
    (report_citations_complete "[A](http://a.b) http://c.d http://c.d"))
    "http://c.d" _).
  vm_compute. right. left. reflexivity.
Defined.

Lemma startswith_trans (p u s : string) :
  PyStr.startswith p u = true -> PyStr.startswith u s = true ->
  PyStr.startswith p s = true.
Proof.
  intros Hp Hu. rewrite (startswith_split u s Hu).
  now apply startswith_append_r.
Qed.

Lemma contains_trans (p u s : string) :
  PyStr.startswith p u = true -> PyStr.contains u s = true ->
  PyStr.contains p s = true.
Proof.
  intros Hp. induction s as [|c s IH].
  - simpl. rewrite !orb_false_r. intros Hu.
    apply (startswith_trans p u _ Hp Hu).
  - cbn [PyStr.contains]. intros [H|H]%orb_true_iff.
    + rewrite (startswith_trans p u _ Hp H). reflexivity.
    + rewrite (IH H). apply orb_true_r.
Qed.

Lemma scheme_match_http (cls : ascii -> bool) (u : string) :
  scheme_match cls u -> PyStr.startswith "http" u = true.
Proof. intros (body & [-> | ->] & _); reflexivity. Qed.

Lemma no_http_no_urls (s : string) :
  PyStr.contains "http" s = false ->
  Re.findall_urls s = [] /\ Re.findall_markdown_links s = [].
Proof.
  intros Hno. split.
  - destruct (Re.findall_urls s) as [|u us] eqn:E; [reflexivity|]. exfalso.
    assert (Hin : In u (Re.findall_urls s)) by (rewrite E; now left).
    apply findall_urls_matches in Hin as [Hm Hc].
    rewrite (contains_trans "http" u s (scheme_match_http _ _ Hm) Hc) in Hno.
    discriminate.
  - destruct (Re.findall_markdown_links s) as [|[t u] us] eqn:E; [reflexivity|].
    exfalso.
    assert (Hin : In (t, u) (Re.findall_markdown_links s)) by (rewrite E; now left).
    apply findall_markdown_links_matches in Hin as (_ & _ & Hm & Hc).
    rewrite (contains_trans "http" u s (scheme_match_http _ _ Hm) Hc) in Hno.
    discriminate.
Qed.

(** X7. Texts in which [http] does not occur give no citation: neither
    extractor invents one, and the empty list of findings and the empty
    report are such texts. *)
Theorem no_http_no_citations (findings : list string) (report : string) :
  (Forall (fun finding => PyStr.contains "http" finding = false) findings ->
   _extract_citations_from_findings findings = [])
  /\ (PyStr.contains "http" report = false ->
      _extract_citations_from_report report = []).
Proof.
  split.
  - intros Hall. apply (map_eq_nil Citation.url).
    unfold _extract_citations_from_findings. rewrite findings_outer_urls.
    cbn [fst List.map app].
    induction Hall as [|f fs Hf _ IH]; [reflexivity|]. simpl.
    rewrite (proj1 (no_http_no_urls f Hf)), IH. reflexivity.
  - intros Hno. unfold _extract_citations_from_report.
    destruct (no_http_no_urls report Hno) as [-> ->]. reflexivity.
Qed.

Lemma no_http_no_citations_witness :
  _extract_citations_from_findings ["no link here"; EmptyString] = []
  /\ _extract_citations_from_report "see ftp://a.b and [x](y)" = [].
Proof.
  split.
  - refine (proj1 (no_http_no_citations ["no link here"; EmptyString] EmptyString) _).
    repeat constructor.
  - refine (proj2 (no_http_no_citations [] "see ftp://a.b and [x](y)") _).
    reflexivity.
Defined.

(* ===================================================================== *)
(** * The log interceptor of the deep mode *)
(* ===================================================================== *)

(** The translation of the deep mode as a table, in the order the patterns
    are tried: the text looked for, the type of the event, and its data from
    the message. *)
Definition deep_table : list (string * string * (string -> json)) :=
  [("Building Report Plan", "planning",
      fun _ => JDict [("message", JStr "Creating report outline...")]);
   ("Report plan created with", "plan_created",
      fun message => JDict [("message", JStr message)]);
   ("Initializing Research Loops", "research_start",
      fun _ => JDict [("message", JStr "Starting parallel section research...")]);
   ("Building Final Report", "finalizing",
      fun _ => JDict [("message", JStr "Compiling final report...")]);
   ("completed in", "progress",
      fun message => JDict [("message", JStr message)])].

Definition first_match_deep (message : string)
  : option (string * string * (string -> json)) :=
  List.find (fun row => PyStr.contains row.1.1 message) deep_table.

(** X8. The [custom_log] of the deep mode, whose [original_log] is a function of
    the library: the original log function is called once with the
    unmodified message, nothing is yielded, nothing is appended to
    [self.events] and the iteration counter is not touched; the first of the
    patterns Building Report Plan, Report plan created with, Initializing
    Research Loops, Building Final Report, completed in that occurs in the
    message decides the one event handed to the loop (planning,
    plan_created, research_start, finalizing, progress); plan_created and
    progress carry the message itself, the others a fixed text; a message
    with none of the patterns records no event. *)
Theorem custom_log_deep_translation (ref : N) (message : string) (w : world) :
  let w' := (custom_log_deep (Lib ref) message w).2 in
  (custom_log_deep (Lib ref) message w).1 = Ok tt
  /\ original_log_calls w' = original_log_calls w ++ [(ref, message)]
  /\ sse w' = sse w
  /\ events w' = events w
  /\ iteration_count w' = iteration_count w
  /\ tasks w' = tasks w ++
       match first_match_deep message with
       | Some (_, event_type, data) => [EmitEvent event_type (data message)]
       | None => []
       end.
Proof.
  unfold first_match_deep, custom_log_deep, deep_chain. simpl.
  destruct (PyStr.contains "Building Report Plan" message);
    [cbn; repeat split; reflexivity|].
  destruct (PyStr.contains "Report plan created with" message);
    [cbn; repeat split; reflexivity|].
  destruct (PyStr.contains "Initializing Research Loops" message);
    [cbn; repeat split; reflexivity|].
  destruct (PyStr.contains "Building Final Report" message);
    [cbn; repeat split; reflexivity|].
  destruct (PyStr.contains "completed in" message);
    cbn; repeat split; try reflexivity.
  now rewrite app_nil_r.
Qed.

Example custom_log_deep_first_pattern_wins :
  tasks (custom_log_deep (Lib 7) "Building Final Report completed in 3s"
           (new_world [])).2
  = [EmitEvent "finalizing" (JDict [("message", JStr "Compiling final report...")])].
Proof. reflexivity. Qed.

(* ===================================================================== *)
(** * The log of a whole run *)
(* ===================================================================== *)

(** The events of [self.events] followed by those of the tasks that have not
    run yet, in the order the tasks were created. *)
Definition recorded (w : world) : list ResearchEvent.t :=
  events w ++ List.map pending_event (tasks w).

(** What the interceptors and the loggers change: the iteration counter, the
    recorded events, the calls the library's functions received. *)
Definition view : Type := Z * list ResearchEvent.t * list (N * string).

Definition view_of (w : world) : view :=
  (iteration_count w, recorded w, original_log_calls w).

(** The event one message is translated to, and the counter after it. *)
Definition translate (which : interceptor) (n : Z) (message : string)
  : Z * list ResearchEvent.t :=
  match which with
  | IterativeLog =>
      match first_match message with
      | Some (pattern, event_type, data) =>
          let n' := if String.eqb pattern "Starting Iteration" then n + 1 else n in
          (n', [ResearchEvent.mk event_type (data message n')])
      | None => (n, [])
      end
  | DeepLog =>
      match first_match_deep message with
      | Some (_, event_type, data) => (n, [ResearchEvent.mk event_type (data message)])
      | None => (n, [])
      end
  end.

(** One message logged through what an attribute holds. *)
Fixpoint log_view (f : attr) (message : string) (v : view) : view :=
  match f with
  | Lib ref => (v.1.1, v.1.2, v.2 ++ [(ref, message)])
  | CustomLog which original_log =>
      let t := translate which v.1.1 message in
      log_view original_log message (t.1, v.1.2 ++ t.2, v.2)
  end.

Lemma chain_view (which : interceptor) (message : string) (w : world) :
  (chain which message w).1 = Ok tt
  /\ researcher (chain which message w).2 = researcher w
  /\ view_of (chain which message w).2
     = ((translate which (iteration_count w) message).1,
        recorded w ++ (translate which (iteration_count w) message).2,
        original_log_calls w).
Proof.
  unfold view_of, recorded, translate, first_match, first_match_deep.
  destruct which; unfold chain, iterative_chain, deep_chain, untag; simpl List.find;
    repeat match goal with
    | |- context [if PyStr.contains ?p message then _ else _] =>
        destruct (PyStr.contains p message);
        [run_gen; rewrite map_app, app_assoc; repeat split; reflexivity|]
    end;
    run_gen; rewrite app_nil_r; repeat split; reflexivity.
Qed.

Lemma call_log_view (f : attr) (message : string) :
  forall w,
    (call_log f message w).1 = Ok tt
    /\ researcher (call_log f message w).2 = researcher w
    /\ view_of (call_log f message w).2 = log_view f message (view_of w).
Proof.
  induction f as [ref|which original_log IH]; intros w.
  - repeat split; reflexivity.
  - destruct (chain_view which message w) as (Hc1 & Hc2 & Hc3).
    destruct (IH (chain which message w).2) as (H1 & H2 & H3).
    assert (Heq : call_log (CustomLog which original_log) message w
                  = call_log original_log message (chain which message w).2).
    { cbn [call_log].
      rewrite (bind_Ok _ _ w (chain which message w).2 tt); [reflexivity|].
      destruct (chain which message w) as [r w1]. simpl in Hc1. now subst r. }
    rewrite Heq. split; [exact H1|]. split; [congruence|].
    rewrite H3, Hc3. reflexivity.
Qed.

Lemma suspend_view (w : world) :
  suspend w = (Ok tt, (suspend w).2)
  /\ researcher (suspend w).2 = researcher w
  /\ view_of (suspend w).2 = view_of w.
Proof.
  split; [reflexivity|]. split; [reflexivity|].
  unfold view_of, recorded, suspend. cbn.
  destruct (schedule w) as [|n sc]; cbn; [reflexivity|].
  rewrite run_coroutines, <- app_assoc, <- map_app, take_drop. reflexivity.
Qed.

Lemma yield_view (chunk : string) (w : world) :
  exists w',
    yield chunk w = (Ok tt, w')
    /\ researcher w' = researcher w
    /\ view_of w' = view_of w.
Proof.
  set (w0 := with_sse (fun out => out ++ [chunk]) w).
  destruct (suspend_view w0) as (Hs & Hr & Hv).
  exists (suspend w0).2. split.
  - unfold yield. erewrite bind_Ok; [exact Hs | reflexivity].
  - rewrite Hr, Hv. split; reflexivity.
Qed.

Lemma yield_loop_view {A : Type} (f : A -> string) (l : list A) :
  forall w, exists w',
    for_each l (fun x => yield (f x)) w = (Ok tt, w')
    /\ researcher w' = researcher w
    /\ view_of w' = view_of w.
Proof.
  induction l as [|x l IH]; intros w.
  - exists w. repeat split.
  - destruct (yield_view (f x) w) as (w1 & Hy & Hr1 & Hv1).
    destruct (IH w1) as (w2 & Hl & Hr2 & Hv2).
    exists w2. split; [|split; congruence].
    cbn [for_each]. erewrite bind_Ok; [exact Hl | exact Hy].
Qed.

(** The view after all the messages of a run were logged through [f]. *)
Definition logs_view (f : attr) (logs : list string) (v : view) : view :=
  fold_left (fun v message => log_view f message v) logs v.

Lemma log_loop_view (logs : list string) (obj : researcher_obj) :
  forall w, researcher w = Some obj ->
    exists w',
      for_each logs (fun message =>
        suspend ;; obj ← the_researcher; call_log (_log_message obj) message) w
      = (Ok tt, w')
      /\ researcher w' = researcher w
      /\ view_of w' = logs_view (_log_message obj) logs (view_of w).
Proof.
  induction logs as [|message rest IH]; intros w Hobj.
  - exists w. repeat split.
  - destruct (suspend_view w) as (Hs & Hr1 & Hv1).
    set (w1 := (suspend w).2) in *. clearbody w1.
    destruct (call_log_view (_log_message obj) message w1) as (Hc & Hr2 & Hv2).
    set (w2 := (call_log (_log_message obj) message w1).2) in *.
    assert (Hcall : call_log (_log_message obj) message w1 = (Ok tt, w2)).
    { unfold w2. destruct (call_log (_log_message obj) message w1) as [r x].
      simpl in Hc. now subst r. }
    clearbody w2.
    assert (Hobj2 : researcher w2 = Some obj) by congruence.
    destruct (IH w2 Hobj2) as (w3 & Hloop & Hr3 & Hv3).
    exists w3. split; [|split; [congruence|]].
    + cbn [for_each].
      erewrite bind_Ok; [exact Hloop|].
      erewrite bind_Ok; [|exact Hs].
      erewrite bind_Ok; [exact Hcall|].
      unfold the_researcher. erewrite bind_Ok; [|reflexivity].
      rewrite Hr1, Hobj. reflexivity.
    + rewrite Hv3, Hv2, Hv1. reflexivity.
Qed.

Lemma run_view (lib : library) (w : world) (obj : researcher_obj) :
  researcher w = Some obj ->
  exists w',
    run lib w = (match run_result lib with
                 | inl e => Raise e
                 | inr report => Ok report
                 end, w')
    /\ researcher w' = researcher w
    /\ view_of w' = logs_view (_log_message obj) (run_logs lib) (view_of w).
Proof.
  intros Hobj. unfold run.
  set (w0 := with_trace (Call "run") w).
  destruct (log_loop_view (run_logs lib) obj w0 Hobj) as (w1 & Hloop & Hr1 & Hv1).
  destruct (suspend_view w1) as (Hs & Hr2 & Hv2).
  set (w2 := (suspend w1).2) in *. clearbody w2.
  assert (Hprefix : forall B (k : unit -> gen B),
    (log_access (Call "run") ;;
     for_each (run_logs lib) (fun message =>
       suspend ;; obj ← the_researcher; call_log (_log_message obj) message) ;;
     suspend ;; k tt) w = k tt w2).
  { intros B k. erewrite bind_Ok; [|reflexivity]. fold w0.
    erewrite bind_Ok; [|exact Hloop].
    erewrite bind_Ok; [|exact Hs]. reflexivity. }
  destruct (run_result lib) as [e|report].
  - exists w2. split; [rewrite (Hprefix _ (fun _ => raise e)); reflexivity|].
    rewrite Hr2, Hr1, Hv2, Hv1. split; reflexivity.
  - exists (with_trace (RunReturned report) w2). split.
    + rewrite (Hprefix _ (fun _ => log_access (RunReturned report) ;; mret report)).
      reflexivity.
    + split; [cbn; rewrite Hr2, Hr1; reflexivity|].
      change (view_of (with_trace (RunReturned report) w2)) with (view_of w2).
      rewrite Hv2, Hv1. reflexivity.
Qed.

(** The view at the end of a run of a generator that starts in [w]: when
    both constructors succeed, every message of [run] is logged through the
    interceptor, from the counter value [n0]. *)
Definition stream_view (which : interceptor) (n0 : Z) (lib : library) (w : world)
  : view :=
  match LLMConfig_result lib, Researcher_result lib with
  | None, inr obj =>
      logs_view (CustomLog which (_log_message obj)) (run_logs lib)
        (n0, recorded w, original_log_calls w)
  | _, _ => view_of w
  end.

Lemma stream_iterative_research_view (lib : library) (query : string)
  (max_iterations max_time_minutes : Z) (output_length background_context : string)
  (w : world) :
  view_of (stream_iterative_research lib query max_iterations max_time_minutes
             output_length background_context w).2
  = stream_view IterativeLog 0 lib w.
Proof.
  unfold stream_iterative_research, try_except.
  assert (Hbody : exists r w1,
    iterative_body lib query max_iterations max_time_minutes
      output_length background_context w = (r, w1)
    /\ view_of w1 = stream_view IterativeLog 0 lib w).
  { destruct lib as [cfg res logs rr fs]. unfold stream_view.
    destruct (iterative_body _ _ _ _ _ _ w) as [r w1] eqn:Hb.
    exists r, w1. split; [reflexivity|]. revert Hb. unfold iterative_body.
    cbn [LLMConfig_result Researcher_result run_result all_findings run_logs].
    destruct (yield_view (_format_event "started"
                (JDict [("mode", JStr "iterative"); ("query", JStr query);
                        ("max_iterations", JInt max_iterations);
                        ("max_time_minutes", JInt max_time_minutes)])) w)
      as (w0 & Hy & Hr0 & Hv0).
    erewrite bind_Ok by exact Hy.
    destruct cfg as [e|].
    { erewrite bind_Raise by reflexivity. intros H; injection H as <- <-.
      exact Hv0. }
    erewrite bind_Ok by reflexivity.
    destruct res as [e|obj].
    { erewrite bind_Raise by reflexivity. intros H; injection H as <- <-.
      exact Hv0. }
    do 4 (erewrite bind_Ok by reflexivity).
    match goal with
    | |- (run ?l ≫= _) ?W = _ -> _ =>
        destruct (run_view l W (patched IterativeLog obj) eq_refl)
          as (w2 & Hrun & Hr2 & Hv2);
        assert (HW : view_of W = (0, recorded w, original_log_calls w))
          by (unfold view_of in *; injection Hv0 as _ <- <-; reflexivity)
    end.
    rewrite HW in Hv2. cbn [run_logs run_result patched _log_message] in Hrun, Hv2.
    destruct rr as [e|report].
    { erewrite bind_Raise by exact Hrun. intros H; injection H as <- <-.
      exact Hv2. }
    erewrite bind_Ok by exact Hrun.
    erewrite bind_Ok by reflexivity.
    match goal with
    | |- (for_each ?l _ ≫= _) ?W = _ -> _ =>
        destruct (yield_loop_view citation_chunk l W) as (w3 & Hloop & Hr3 & Hv3);
        change (view_of W) with (view_of w2) in Hv3
    end.
    erewrite bind_Ok by exact Hloop.
    erewrite bind_Ok by reflexivity.
    match goal with
    | |- (yield ?c ≫= _) ?W = _ -> _ =>
        destruct (yield_view c W) as (w4 & Hf & Hr4 & Hv4)
    end.
    erewrite bind_Ok by exact Hf.
    match goal with
    | |- yield ?c ?W = _ -> _ =>
        destruct (yield_view c W) as (w5 & Hc & Hr5 & Hv5)
    end.
    rewrite Hc. intros H; injection H as <- <-. congruence. }
  destruct Hbody as (r & w1 & Hb & Hv). rewrite Hb.
  destruct r as [[]|e]; [exact Hv|].
  destruct (is_Exception e); [|exact Hv].
  destruct (yield_view (_format_event "error"
              (JDict [("error", JStr (exc_str e)); ("type", JStr (exc_name e))])) w1)
    as (w' & He & _ & Hv').
  unfold error_event. rewrite He. simpl. congruence.
Qed.

Lemma stream_deep_research_view (lib : library) (query : string)
  (max_iterations max_time_minutes : Z) (w : world) :
  view_of (stream_deep_research lib query max_iterations max_time_minutes w).2
  = stream_view DeepLog (iteration_count w) lib w.
Proof.
  unfold stream_deep_research, try_except.
  assert (Hbody : exists r w1,
    deep_body lib query max_iterations max_time_minutes w = (r, w1)
    /\ view_of w1 = stream_view DeepLog (iteration_count w) lib w).
  { destruct lib as [cfg res logs rr fs]. unfold stream_view.
    destruct (deep_body _ _ _ _ w) as [r w1] eqn:Hb.
    exists r, w1. split; [reflexivity|]. revert Hb. unfold deep_body.
    cbn [LLMConfig_result Researcher_result run_result all_findings run_logs].
    destruct (yield_view (_format_event "started"
                (JDict [("mode", JStr "deep"); ("query", JStr query);
                        ("max_iterations", JInt max_iterations);
                        ("max_time_minutes", JInt max_time_minutes)])) w)
      as (w0 & Hy & Hr0 & Hv0).
    erewrite bind_Ok by exact Hy.
    destruct cfg as [e|].
    { erewrite bind_Raise by reflexivity. intros H; injection H as <- <-.
      exact Hv0. }
    erewrite bind_Ok by reflexivity.
    destruct res as [e|obj].
    { erewrite bind_Raise by reflexivity. intros H; injection H as <- <-.
      exact Hv0. }
    do 3 (erewrite bind_Ok by reflexivity).
    match goal with
    | |- (run ?l ≫= _) ?W = _ -> _ =>
        destruct (run_view l W (patched DeepLog obj) eq_refl)
          as (w2 & Hrun & Hr2 & Hv2);
        change (view_of W) with (view_of w0) in Hv2
    end.
    rewrite Hv0 in Hv2. cbn [run_logs run_result patched _log_message] in Hrun, Hv2.
    destruct rr as [e|report].
    { erewrite bind_Raise by exact Hrun. intros H; injection H as <- <-.
      exact Hv2. }
    erewrite bind_Ok by exact Hrun.
    match goal with
    | |- (for_each ?l _ ≫= _) ?W = _ -> _ =>
        destruct (yield_loop_view citation_chunk l W) as (w3 & Hloop & Hr3 & Hv3)
    end.
    erewrite bind_Ok by exact Hloop.
    match goal with
    | |- (yield ?c ≫= _) ?W = _ -> _ =>
        destruct (yield_view c W) as (w4 & Hf & Hr4 & Hv4)
    end.
    erewrite bind_Ok by exact Hf.
    match goal with
    | |- yield ?c ?W = _ -> _ =>
        destruct (yield_view c W) as (w5 & Hc & Hr5 & Hv5)
    end.
    rewrite Hc. intros H; injection H as <- <-.
    rewrite Hv5, Hv4, Hv3, Hv2. reflexivity. }
  destruct Hbody as (r & w1 & Hb & Hv). rewrite Hb.
  destruct r as [[]|e]; [exact Hv|].
  destruct (is_Exception e); [|exact Hv].
  destruct (yield_view (_format_event "error"
              (JDict [("error", JStr (exc_str e)); ("type", JStr (exc_name e))])) w1)
    as (w' & He & _ & Hv').
  unfold error_event. rewrite He. simpl. congruence.
Qed.

(** ** What a run leaves behind *)

(** The events all the messages are translated to, from the counter value
    [n]. *)
Fixpoint translate_all (which : interceptor) (n : Z) (logs : list string)
  : list ResearchEvent.t :=
  match logs with
  | [] => []
  | message :: rest =>
      (translate which n message).2
      ++ translate_all which (translate which n message).1 rest
  end.

(** The number of messages in which Starting Iteration occurs. *)
Definition iterations_started (logs : list string) : Z :=
  Z.of_nat (length (List.filter (PyStr.contains "Starting Iteration") logs)).

Lemma translate_count (which : interceptor) (n : Z) (message : string) :
  (translate which n message).1
  = match which with
    | IterativeLog =>
        if PyStr.contains "Starting Iteration" message then n + 1 else n
    | DeepLog => n
    end.
Proof.
  destruct which; unfold translate, first_match, first_match_deep; simpl List.find.
  - destruct (PyStr.contains "Starting Iteration" message); [reflexivity|].
    repeat match goal with
    | |- context [if PyStr.contains ?p message then _ else _] =>
        destruct (PyStr.contains p message); [reflexivity|]
    end.
    reflexivity.
  - repeat match goal with
    | |- context [if PyStr.contains ?p message then _ else _] =>
        destruct (PyStr.contains p message); [reflexivity|]
    end.
    reflexivity.
Qed.

Lemma logs_view_library (which : interceptor) (ref : N) (logs : list string) :
  forall n rec calls,
    logs_view (CustomLog which (Lib ref)) logs (n, rec, calls)
    = (match which with
       | IterativeLog => n + iterations_started logs
       | DeepLog => n
       end,
       rec ++ translate_all which n logs,
       calls ++ List.map (fun message => (ref, message)) logs).
Proof.
  unfold logs_view, iterations_started.
  induction logs as [|message rest IH]; intros n rec calls.
  - simpl. rewrite !app_nil_r. destruct which; [now rewrite Z.add_0_r | reflexivity].
  - cbn [fold_left log_view translate_all List.map List.filter fst snd].
    rewrite IH, translate_count. rewrite <- !app_assoc. simpl app.
    destruct which; [|reflexivity].
    destruct (PyStr.contains "Starting Iteration" message); [|reflexivity].
    cbn [length]. f_equal. f_equal. lia.
Qed.

Lemma translate_all_length (which : interceptor) (logs : list string) :
  forall n, (length (translate_all which n logs) <= length logs)%nat.
Proof.
  induction logs as [|message rest IH]; intros n; simpl; [lia|].
  rewrite length_app. specialize (IH (translate which n message).1).
  assert (H : (length (translate which n message).2 <= 1)%nat).
  { destruct which; unfold translate.
    - destruct (first_match message) as [[[p t] d]|]; simpl; lia.
    - destruct (first_match_deep message) as [[[p t] d]|]; simpl; lia. }
  lia.
Qed.

(** X9. The interceptor is transparent to the library's own logging: in a run
    in which the researcher was constructed, with a library function as its
    [_log_message], that function receives every message of [run] exactly
    once, unmodified and in order, in both modes, whether [run] returns or
    raises and whatever the event loop does. *)
Theorem original_log_receives_every_message (lib : library) (query : string)
  (max_iterations max_time_minutes : Z) (output_length background_context : string)
  (sched : list nat) (obj : researcher_obj) (ref : N) :
  LLMConfig_result lib = None -> Researcher_result lib = inr obj ->
  _log_message obj = Lib ref ->
  original_log_calls
    (stream_iterative_research lib query max_iterations max_time_minutes
       output_length background_context (new_world sched)).2
  = List.map (fun message => (ref, message)) (run_logs lib)
  /\ original_log_calls
       (stream_deep_research lib query max_iterations max_time_minutes
          (new_world sched)).2
     = List.map (fun message => (ref, message)) (run_logs lib).
Proof.
  intros E1 E2 E3.
  pose proof (stream_iterative_research_view lib query max_iterations
                max_time_minutes output_length background_context (new_world sched))
    as Hi.
  pose proof (stream_deep_research_view lib query max_iterations
                max_time_minutes (new_world sched)) as Hd.
  unfold stream_view in Hi, Hd. rewrite E1, E2, E3, logs_view_library in Hi, Hd.
  unfold view_of in Hi, Hd.
  split; [injection Hi as _ _ Hc | injection Hd as _ _ Hc]; exact Hc.
Qed.

Lemma original_log_receives_every_message_witness :
  original_log_calls
    (stream_deep_research failing_library "q" 5 10 (new_world [])).2
  = [(1%N, "=== Starting Iteration 1 ===")].
Proof.
  refine (proj2 (original_log_receives_every_message failing_library "q" 5 10
                   EmptyString EmptyString [] sample_researcher 1 _ _ _));
    reflexivity.
Defined.

(** X10. The events of the interceptor are kept in the order of the log: at the
    end of a run in which the researcher was constructed, [self.events]
    followed by the events of the tasks still pending is the list of the
    translations of the messages of [run], in order, at most one per
    message, in both modes, whatever the event loop ran and whether [run]
    returned or raised. *)
Theorem interceptor_events_in_log_order (lib : library) (query : string)
  (max_iterations max_time_minutes : Z) (output_length background_context : string)
  (sched : list nat) (obj : researcher_obj) (ref : N) :
  LLMConfig_result lib = None -> Researcher_result lib = inr obj ->
  _log_message obj = Lib ref ->
  recorded
    (stream_iterative_research lib query max_iterations max_time_minutes
       output_length background_context (new_world sched)).2
  = translate_all IterativeLog 0 (run_logs lib)
  /\ recorded
       (stream_deep_research lib query max_iterations max_time_minutes
          (new_world sched)).2
     = translate_all DeepLog 0 (run_logs lib)
  /\ (length (translate_all IterativeLog 0 (run_logs lib)) <= length (run_logs lib))%nat
  /\ (length (translate_all DeepLog 0 (run_logs lib)) <= length (run_logs lib))%nat.
Proof.
  intros E1 E2 E3.
  pose proof (stream_iterative_research_view lib query max_iterations
                max_time_minutes output_length background_context (new_world sched))
    as Hi.
  pose proof (stream_deep_research_view lib query max_iterations
                max_time_minutes (new_world sched)) as Hd.
  unfold stream_view in Hi, Hd. rewrite E1, E2, E3, logs_view_library in Hi, Hd.
  unfold view_of in Hi, Hd.
  split; [injection Hi as _ Hr _; exact Hr|].
  split; [injection Hd as _ Hr _; exact Hr|].
  split; apply translate_all_length.
Qed.

Lemma interceptor_events_in_log_order_witness :
  List.map ResearchEvent.type
    (recorded (stream_iterative_research sample_library "q" 5 10 "5 pages"
                 EmptyString (new_world [1; 0; 5]%nat)).2)
  = ["iteration_start"; "observations"; "finalizing"].
Proof.
  rewrite (proj1 (interceptor_events_in_log_order sample_library "q" 5 10
                    "5 pages" EmptyString [1; 0; 5]%nat sample_researcher 1
                    eq_refl eq_refl eq_refl)).
  reflexivity.
Defined.

Lemma logs_count_library (ref : N) (logs : list string) :
  logs_count (CustomLog IterativeLog (Lib ref)) logs = iterations_started logs.
Proof.
  unfold iterations_started. induction logs as [|message rest IH]; [reflexivity|].
  cbn [logs_count chain_count List.filter]. rewrite IH.
  destruct (PyStr.contains "Starting Iteration" message); cbn [length]; lia.
Qed.

(** X11. The iteration count of the final report is the number of log messages
    in which Starting Iteration occurs: in a run of the iterative mode in
    which the researcher was constructed with a library function as its
    [_log_message], the counter ends at that number, and when [run] returns
    a report the final_report event carries it. *)
Theorem final_report_counts_iterations (lib : library) (query : string)
  (max_iterations max_time_minutes : Z) (output_length background_context : string)
  (sched : list nat) (obj : researcher_obj) (ref : N) :
  LLMConfig_result lib = None -> Researcher_result lib = inr obj ->
  _log_message obj = Lib ref ->
  let w' := (stream_iterative_research lib query max_iterations max_time_minutes
               output_length background_context (new_world sched)).2 in
  iteration_count w' = iterations_started (run_logs lib)
  /\ forall report, run_result lib = inr report ->
       let citations := _extract_citations_from_findings (all_findings lib) in
       sse w' = started_chunk "iterative" query max_iterations max_time_minutes
                :: List.map citation_chunk citations
                ++ [final_report_chunk report citations
                      (Some (iterations_started (run_logs lib)));
                    completed_chunk "Research completed successfully"].
Proof.
  intros E1 E2 E3 w'. split.
  - unfold w'. rewrite (iterative_final_count _ _ _ _ _ _ _ obj E1 E2), E3.
    apply logs_count_library.
  - intros report E4 citations.
    destruct (stream_iterative_research_spec lib query max_iterations
                max_time_minutes output_length background_context (new_world sched))
      as (w1 & H).
    unfold w'. rewrite (run_ends _ _ _ _ _ _ _ _ _ H). cbn [snd].
    rewrite (run_sse _ _ _ _ _ _ _ _ _ H). unfold iterative_chunks.
    rewrite E1, E2, E3, E4, logs_count_library. reflexivity.
Qed.

Lemma final_report_counts_iterations_witness :
  iteration_count
    (stream_iterative_research sample_library "q" 5 10 "5 pages" EmptyString
       (new_world [])).2 = 1.
Proof.
  refine (proj1 (final_report_counts_iterations sample_library "q" 5 10 "5 pages"
                   EmptyString [] sample_researcher 1 _ _ _)); reflexivity.
Defined.

(* ===================================================================== *)
(** * When [run] is called *)
(* ===================================================================== *)

Definition is_run (a : access) : bool :=
  match a with
  | Call method => String.eqb method "run"
  | _ => false
  end.

(** In the trace [tr] the call of [run] is the fifth access, after the two
    constructors and after the interceptor was put in [_log_message], and
    there is no other call of [run]. *)
Definition run_after_setup (cls : string) (tr : list access) : Prop :=
  exists rest,
    tr = [Construct "LLMConfig"; Construct cls; GetAttr "_log_message";
          SetAttr "_log_message"; Call "run"] ++ rest
    /\ List.filter is_run rest = [].

Lemma library_trace_run (cls : string) (after_run : list access) (lib : library) :
  List.filter is_run after_run = [] ->
  let tr := library_trace cls after_run lib in
  (length (List.filter is_run tr) <= 1)%nat
  /\ (In (Call "run") tr -> run_after_setup cls tr)
  /\ (In (Call "run") tr <->
      LLMConfig_result lib = None /\ exists obj, Researcher_result lib = inr obj).
Proof.
  intros Hafter. unfold library_trace, setup_trace, run_after_setup.
  destruct (LLMConfig_result lib) as [e|].
  { simpl. split; [lia|]. split; [intros [H|[]]; discriminate|].
    split; [intros [H|[]]; discriminate | intros [H _]; discriminate]. }
  destruct (Researcher_result lib) as [e|obj].
  { simpl. split; [lia|]. split; [intros [H|[H|[]]]; discriminate|].
    split; [intros [H|[H|[]]]; discriminate | intros [_ [obj H]]; discriminate]. }
  assert (Htail : List.filter is_run
                    match run_result lib with
                    | inl _ => []
                    | inr report => RunReturned report :: after_run
                    end = []).
  { destruct (run_result lib); [reflexivity | exact Hafter]. }
  split; [simpl; rewrite Htail; simpl; lia|].
  split; [intros _; eexists; split; [reflexivity | exact Htail]|].
  split; [eauto|]. intros _. simpl. auto 10.
Qed.

(** X12. The library's [run] is called at most once in a request; it is called
    exactly when both constructors succeeded, and then only after the
    interceptor has been installed in [_log_message]: [run] never logs
    through an unpatched researcher. *)
Theorem run_called_once_after_setup (lib : library) (query : string)
  (max_iterations max_time_minutes : Z) (output_length background_context : string)
  (sched : list nat) :
  let ti := trace (stream_iterative_research lib query max_iterations
                     max_time_minutes output_length background_context
                     (new_world sched)).2 in
  let td := trace (stream_deep_research lib query max_iterations
                     max_time_minutes (new_world sched)).2 in
  ((length (List.filter is_run ti) <= 1)%nat
   /\ (In (Call "run") ti -> run_after_setup "IterativeResearcher" ti)
   /\ (In (Call "run") ti <->
       LLMConfig_result lib = None /\ exists obj, Researcher_result lib = inr obj))
  /\ ((length (List.filter is_run td) <= 1)%nat
      /\ (In (Call "run") td -> run_after_setup "DeepResearcher" td)
      /\ (In (Call "run") td <->
          LLMConfig_result lib = None /\ exists obj, Researcher_result lib = inr obj)).
Proof.
  intros ti td.
  destruct (stream_iterative_research_spec lib query max_iterations max_time_minutes
              output_length background_context (new_world sched)) as (wi & Hi).
  destruct (stream_deep_research_spec lib query max_iterations max_time_minutes
              (new_world sched)) as (wd & Hd).
  unfold ti, td.
  rewrite (run_ends _ _ _ _ _ _ _ _ _ Hi), (run_ends _ _ _ _ _ _ _ _ _ Hd).
  cbn [snd].
  rewrite (run_trace _ _ _ _ _ _ _ _ _ Hi), (run_trace _ _ _ _ _ _ _ _ _ Hd).
  simpl trace. simpl app.
  split; apply library_trace_run; reflexivity.
Qed.

Lemma run_called_once_after_setup_witness :
  run_after_setup "DeepResearcher"
    (trace (stream_deep_research failing_library "q" 5 10 (new_world [])).2).
Proof.
  refine (proj1 (proj2 (proj2
    (run_called_once_after_setup failing_library "q" 5 10 EmptyString EmptyString [])))
    _).
  vm_compute. repeat (first [left; reflexivity | right]).
Defined.

(* ===================================================================== *)
(** * Every chunk is one line of printable ASCII *)
(* ===================================================================== *)

(** The characters from the space to the tilde. *)
Definition printable (c : ascii) : bool :=
  ((32 <=? PyStr.code c) && (PyStr.code c <=? 126))%N.

Section JsonInduction.

Variable P : json -> Prop.
Hypothesis P_null : P JNull.
Hypothesis P_bool : forall b, P (JBool b).
Hypothesis P_int : forall z, P (JInt z).
Hypothesis P_str : forall s, P (JStr s).
Hypothesis P_list : forall l, Forall P l -> P (JList l).
Hypothesis P_dict : forall kv, Forall (fun p => P p.2) kv -> P (JDict kv).

(** Induction on a JSON value, with the property known of the members of a
    list and of the values of a dict. *)
Fixpoint json_nested_ind (v : json) : P v :=
  match v with
  | JNull => P_null
  | JBool b => P_bool b
  | JInt z => P_int z
  | JStr s => P_str s
  | JList l =>
      P_list l
        ((fix members (l : list json) : Forall P l :=
            match l with
            | [] => @List.Forall_nil _ P
            | x :: rest =>
                @List.Forall_cons _ P x rest (json_nested_ind x) (members rest)
            end) l)
  | JDict kv =>
      P_dict kv
        ((fix values (kv : list (string * json)) : Forall (fun p => P p.2) kv :=
            match kv with
            | [] => @List.Forall_nil _ (fun p => P p.2)
            | p :: rest =>
                @List.Forall_cons _ (fun p => P p.2) p rest
                  (json_nested_ind p.2) (values rest)
            end) kv)
  end.

End JsonInduction.

Lemma escape_char_printable (c : ascii) :
  all_chars printable (Json.escape_char c) = true.
Proof.
  destruct c as [b0 b1 b2 b3 b4 b5 b6 b7].
  destruct b0, b1, b2, b3, b4, b5, b6, b7; reflexivity.
Qed.

Lemma escape_printable (s : string) : all_chars printable (Json.escape s) = true.
Proof.
  induction s as [|c s IH]; [reflexivity|]. simpl.
  now rewrite all_chars_append, escape_char_printable, IH.
Qed.

Lemma dumps_str_printable (s : string) :
  all_chars printable (Json.dumps_str s) = true.
Proof.
  unfold Json.dumps_str. now rewrite !all_chars_append, escape_printable.
Qed.

Lemma string_of_uint_printable (d : Decimal.uint) :
  all_chars printable (NilEmpty.string_of_uint d) = true.
Proof. induction d; simpl; try reflexivity; exact IHd. Qed.

Lemma nilzero_uint_printable (d : Decimal.uint) :
  all_chars printable (NilZero.string_of_uint d) = true.
Proof.
  destruct d; [reflexivity|..];
    match goal with
    | |- all_chars printable (NilZero.string_of_uint ?x) = true =>
        exact (string_of_uint_printable x)
    end.
Qed.

Lemma dumps_int_printable (z : Z) : all_chars printable (Json.dumps_int z) = true.
Proof.
  unfold Json.dumps_int, NilZero.string_of_int.
  destruct (Z.to_int z) as [d|d]; [apply nilzero_uint_printable|].
  cbn [all_chars]. now rewrite nilzero_uint_printable.
Qed.

Lemma join_printable (parts : list string) :
  Forall (fun part => all_chars printable part = true) parts ->
  all_chars printable (Json.join parts) = true.
Proof.
  induction 1 as [|p parts Hp Hparts IH]; [reflexivity|].
  cbn [Json.join]. destruct parts as [|q parts]; [exact Hp|].
  now rewrite !all_chars_append, Hp, IH.
Qed.

Lemma dumps_printable (v : json) : all_chars printable (Json.dumps v) = true.
Proof.
  induction v as [|b|z|s|l IH|kv IH] using json_nested_ind.
  - reflexivity.
  - destruct b; reflexivity.
  - apply dumps_int_printable.
  - apply dumps_str_printable.
  - cbn [Json.dumps]. rewrite !all_chars_append, join_printable; [reflexivity|].
    induction IH as [|x l Hx _ IHl]; constructor; assumption.
  - cbn [Json.dumps]. rewrite !all_chars_append, join_printable; [reflexivity|].
    induction IH as [|p kv Hp _ IHkv]; constructor; [|assumption].
    now rewrite !all_chars_append, dumps_str_printable, Hp.
Qed.

(** An SSE frame of one [data:] line: the line and the blank line that ends
    the event, with nothing but printable ASCII in the line. *)
Definition sse_frame (chunk : string) : Prop :=
  exists line,
    chunk = line +:+ String "010" (String "010" EmptyString)
    /\ PyStr.startswith "data: " line = true
    /\ all_chars printable line = true.

Lemma _format_event_frame (event_type : string) (data : json) :
  sse_frame (_format_event event_type data).
Proof.
  exists ("data: " +:+ Json.dumps (JDict [("type", JStr event_type); ("data", data)])).
  split; [unfold _format_event; now rewrite append_assoc|].
  split; [reflexivity|].
  now rewrite all_chars_append, dumps_printable.
Qed.

(** X13. Whatever the event type and the data hold (quotes, line feeds, control
    or non-ASCII characters in the query, the report or an error message),
    [_format_event] gives one [data:] line of printable ASCII followed by
    the blank line, and so is every chunk of both generators: no text can
    break the framing of the stream. *)
Theorem chunks_are_single_line_frames (event_type : string) (data : json)
  (lib : library) (query : string) (max_iterations max_time_minutes : Z)
  (output_length background_context : string) (sched : list nat) :
  sse_frame (_format_event event_type data)
  /\ Forall sse_frame
       (sse (stream_iterative_research lib query max_iterations max_time_minutes
               output_length background_context (new_world sched)).2)
  /\ Forall sse_frame
       (sse (stream_deep_research lib query max_iterations max_time_minutes
               (new_world sched)).2).
Proof.
  assert (Hall : forall chunks, Forall formatted chunks -> Forall sse_frame chunks).
  { intros chunks H. eapply Forall_impl; [exact H|].
    intros chunk (t & d & ->). apply _format_event_frame. }
  split; [apply _format_event_frame|]. split.
  - destruct (stream_iterative_research_spec lib query max_iterations max_time_minutes
                output_length background_context (new_world sched)) as (w' & H).
    rewrite (run_ends _ _ _ _ _ _ _ _ _ H). cbn [snd].
    rewrite (run_sse _ _ _ _ _ _ _ _ _ H). simpl.
    constructor; [apply _format_event_frame | apply Hall, formatted_chunks_iterative].
  - destruct (stream_deep_research_spec lib query max_iterations max_time_minutes
                (new_world sched)) as (w' & H).
    rewrite (run_ends _ _ _ _ _ _ _ _ _ H). cbn [snd].
    rewrite (run_sse _ _ _ _ _ _ _ _ _ H). simpl.
    constructor; [apply _format_event_frame | apply Hall, formatted_chunks_deep].
Qed.

Example line_feed_in_query_is_escaped :
  _format_event "started" (JDict [("query", JStr (String "010" "x"))])
  = "data: {" +:+ Json.quote +:+ "type" +:+ Json.quote +:+ ": "
    +:+ Json.quote +:+ "started" +:+ Json.quote +:+ ", "
    +:+ Json.quote +:+ "data" +:+ Json.quote +:+ ": {"
    +:+ Json.quote +:+ "query" +:+ Json.quote +:+ ": "
    +:+ Json.quote +:+ "\nx" +:+ Json.quote +:+ "}}" +:+ nl2.
Proof. reflexivity. Qed.

(* ===================================================================== *)
(** * More about the endpoints *)
(* ===================================================================== *)

(** [root]: the dict [GET /] answers with. *)
Definition root : json :=
  JDict [("service", JStr "Deep Research Service"); ("status", JStr "running");
         ("version", JStr "1.0.0");
         ("modes", JList [JStr "iterative"; JStr "deep"])].

(** [health]: the dict [GET /health] answers with. *)
Definition health : json := JDict [("status", JStr "healthy")].

(** [d[key]] of a dict. *)
Definition dict_get (key : string) (d : json) : option json :=
  match d with
  | JDict kv => snd <$> List.find (fun p => String.eqb p.1 key) kv
  | _ => None
  end.

(** The modes [GET /] lists. *)
Definition advertised_modes : list json :=
  match dict_get "modes" root with
  | Some (JList modes) => modes
  | _ => []
  end.

Definition is_stream (r : response) : Prop :=
  match r with
  | EventSourceResponse _ => True
  | _ => False
  end.

(** X14. The modes that [GET /] lists are the modes the service accepts and
    serves: a mode string passes the validation exactly when it is listed,
    the handler answers a request with a stream exactly when its mode is
    listed, and for any other mode it answers 400 with the detail Invalid
    mode followed by the mode. *)
Theorem advertised_modes_are_served (lib : library) (m : string)
  (request : ResearchRequest.t) :
  (In (JStr m) advertised_modes <-> as_mode (JStr m) = Some m)
  /\ (In (JStr (ResearchRequest.mode request)) advertised_modes
      <-> is_stream (stream_research lib request))
  /\ (~ In (JStr (ResearchRequest.mode request)) advertised_modes ->
      stream_research lib request
      = HTTPException 400 ("Invalid mode: " +:+ ResearchRequest.mode request)).
Proof.
  assert (Hin : forall s, In (JStr s) advertised_modes
                          <-> s = "iterative" \/ s = "deep").
  { intros s. cbn. split.
    - intros [H|[H|[]]]; injection H as <-; auto.
    - intros [-> | ->]; auto. }
  split; [|split].
  - rewrite Hin. unfold as_mode.
    destruct (String.eqb_spec m "iterative") as [->|Hi]; [simpl; tauto|].
    destruct (String.eqb_spec m "deep") as [->|Hd]; [simpl; tauto|].
    simpl. split; [intros [?|?]; contradiction | discriminate].
  - rewrite Hin. unfold stream_research.
    destruct (String.eqb_spec (ResearchRequest.mode request) "iterative") as [->|Hi];
      [simpl; tauto|].
    destruct (String.eqb_spec (ResearchRequest.mode request) "deep") as [->|Hd];
      [simpl; tauto|].
    simpl. split; [intros [?|?]; contradiction | contradiction].
  - rewrite Hin. intros Hno. unfold stream_research.
    destruct (String.eqb_spec (ResearchRequest.mode request) "iterative") as [Hi|Hi];
      [exfalso; auto|].
    destruct (String.eqb_spec (ResearchRequest.mode request) "deep") as [Hd|Hd];
      [exfalso; auto | reflexivity].
Qed.

Lemma advertised_modes_are_served_witness :
  stream_research sample_library
    (ResearchRequest.mk "q" "fast" 5 10 "5 pages" EmptyString)
  = HTTPException 400 "Invalid mode: fast".
Proof.
  refine (proj2 (proj2 (advertised_modes_are_served sample_library "fast"
            (ResearchRequest.mk "q" "fast" 5 10 "5 pages" EmptyString))) _).
  cbn. intros [H|[H|[]]]; discriminate.
Defined.

(** X15. The validation accepts every well-formed body and needs the query: a
    body whose query is missing or does not read as a string is refused
    whatever else it holds; a body whose query reads as a string, whose mode
    is absent or one of the two modes, whose two integers are absent or read
    within their bounds and whose two other strings are absent or read as
    strings is accepted, with that query. *)
Theorem validate_accepts_well_formed (as_int : json -> option Z)
  (as_str : json -> option string) (body : gmap string json) :
  ((body !! "query" = None
    \/ exists v, body !! "query" = Some v /\ as_str v = None) ->
   validate as_int as_str body = None)
  /\ forall q,
       (exists v, body !! "query" = Some v /\ as_str v = Some q) ->
       (forall v, body !! "mode" = Some v -> v = JStr "iterative" \/ v = JStr "deep") ->
       (forall v, body !! "max_iterations" = Some v ->
          exists n, as_int v = Some n /\ 1 <= n <= 20) ->
       (forall v, body !! "max_time_minutes" = Some v ->
          exists n, as_int v = Some n /\ 1 <= n <= 60) ->
       (forall v, body !! "output_length" = Some v -> exists s, as_str v = Some s) ->
       (forall v, body !! "background_context" = Some v ->
          exists s, as_str v = Some s) ->
       exists request,
         validate as_int as_str body = Some request
         /\ ResearchRequest.query request = q.
Proof.
  split.
  - unfold validate. intros [-> | (v & -> & Hv)]; simpl; [reflexivity|].
    rewrite Hv. reflexivity.
  - intros q (vq & Hq & Hqs) Hmode Hmi Hmt Hol Hbc.
    unfold validate, field. rewrite Hq. simpl. rewrite Hqs. simpl.
    assert (Em : exists m, match body !! "mode" with
                           | Some v => as_mode v
                           | None => Some "iterative"
                           end = Some m).
    { destruct (body !! "mode") as [v|]; [|eauto].
      destruct (Hmode v eq_refl) as [-> | ->]; simpl; eauto. }
    destruct Em as [m ->]. simpl.
    assert (Ei : forall name lo hi default,
              (forall v, body !! name = Some v ->
                 exists n, as_int v = Some n /\ lo <= n <= hi) ->
              exists n, match body !! name with
                        | Some v => as_bounded_int as_int lo hi v
                        | None => Some default
                        end = Some n).
    { intros name lo hi default H. destruct (body !! name) as [v|]; [|eauto].
      destruct (H v eq_refl) as (n & Hn & Hb). exists n.
      unfold as_bounded_int. rewrite Hn. simpl.
      destruct (Z.leb_spec lo n), (Z.leb_spec n hi); simpl; try lia. reflexivity. }
    destruct (Ei "max_iterations" 1 20 5 Hmi) as [mi ->]. simpl.
    destruct (Ei "max_time_minutes" 1 60 10 Hmt) as [mt ->]. simpl.
    assert (Es : forall name default,
              (forall v, body !! name = Some v -> exists s, as_str v = Some s) ->
              exists s, match body !! name with
                        | Some v => as_str v
                        | None => Some default
                        end = Some s).
    { intros name default H. destruct (body !! name) as [v|]; [|eauto].
      exact (H v eq_refl). }
    destruct (Es "output_length" "5 pages" Hol) as [ol ->]. simpl.
    destruct (Es "background_context" EmptyString Hbc) as [bc ->]. simpl.
    eexists. split; reflexivity.
Qed.

Lemma validate_accepts_well_formed_witness :
  exists request,
    validate exact_int exact_str
      {[ "query" := JStr "q"; "max_iterations" := JInt 20 ]} = Some request
    /\ ResearchRequest.query request = "q".
Proof.
  refine (proj2 (validate_accepts_well_formed exact_int exact_str
                   {[ "query" := JStr "q"; "max_iterations" := JInt 20 ]})
            "q" _ _ _ _ _ _).
  - exists (JStr "q"). split; reflexivity.
  - intros v H. vm_compute in H. discriminate.
  - intros v H. vm_compute in H. injection H as <-. exists 20. split; [reflexivity | lia].
  - intros v H. vm_compute in H. discriminate.
  - intros v H. vm_compute in H. discriminate.
  - intros v H. vm_compute in H. discriminate.
Defined.

Example validate_accepts_bounds :
  validate exact_int exact_str
    {[ "query" := JStr "q"; "max_iterations" := JInt 20; "max_time_minutes" := JInt 1 ]}
  = Some (ResearchRequest.mk "q" "iterative" 20 1 "5 pages" EmptyString)
  /\ validate exact_int exact_str
       {[ "query" := JStr "q"; "max_iterations" := JInt 0 ]} = None
  /\ validate exact_int exact_str
       {[ "query" := JStr "q"; "max_time_minutes" := JInt 61 ]} = None.
Proof. repeat split; reflexivity. Qed.

(* ===================================================================== *)
(** * The text of the tag events *)
(* ===================================================================== *)

Lemma replace_skip_empty_length (old s : string) :
  forall skip,
    (String.length (PyStr.replace_skip old EmptyString s skip) <= String.length s)%nat.
Proof.
  induction s as [|c s IH]; intros skip; [simpl; lia|].
  cbn [PyStr.replace_skip].
  destruct skip as [|k]; [|specialize (IH k); cbn [String.length]; lia].
  destruct (PyStr.startswith old (String c s)).
  - rewrite append_nil. specialize (IH (String.length old - 1)%nat).
    cbn [String.length]. lia.
  - specialize (IH 0%nat). cbn [String.length]. lia.
Qed.

Lemma intersperse_empty (s : string) : PyStr.intersperse EmptyString s = s.
Proof.
  induction s as [|c s IH]; [reflexivity|]. simpl. now rewrite append_nil, IH.
Qed.

Lemma replace_empty_length (old s : string) :
  (String.length (PyStr.replace old EmptyString s) <= String.length s)%nat.
Proof.
  unfold PyStr.replace. destruct (PyStr.is_empty old).
  - rewrite intersperse_empty. lia.
  - apply replace_skip_empty_length.
Qed.

Lemma untag_clean (open close message : string) :
  PyStr.strip (untag open close message) = untag open close message
  /\ (String.length (untag open close message) <= String.length message)%nat.
Proof.
  unfold untag. split; [apply strip_idempotent|].
  pose proof (strip_length
    (PyStr.replace close EmptyString (PyStr.replace open EmptyString message))).
  pose proof (replace_empty_length close (PyStr.replace open EmptyString message)).
  pose proof (replace_empty_length open message). lia.
Qed.

Arguments untag : simpl never.

Definition tag_event_types : list string :=
  ["observations"; "gap_detected"; "tool_selection"; "findings_update"].

(** X16. The events made from a tagged message (observations, gap_detected,
    tool_selection, findings_update) carry one text: it has no white space
    at its ends and is never longer than the message. *)
Theorem tag_events_carry_clean_text (message : string) (w : world)
  (event_type : string) (data : json) :
  tasks (iterative_chain message w).2 = tasks w ++ [EmitEvent event_type data] ->
  In event_type tag_event_types ->
  exists key text,
    data = JDict [(key, JStr text)]
    /\ PyStr.strip text = text
    /\ (String.length text <= String.length message)%nat.
Proof.
  unfold iterative_chain, tag_event_types.
  destruct (PyStr.contains "Starting Iteration" message).
  { run_gen. intros H%app_inv_head. injection H as <- <-.
    intros Hin. simpl in Hin. exfalso.
    repeat (destruct Hin as [Hin|Hin]; [discriminate|]). exact Hin. }
  repeat match goal with
  | |- context [if PyStr.contains ?p message then _ else _] =>
      destruct (PyStr.contains p message);
      [run_gen; intros H%app_inv_head; injection H as <- <-; intros Hin;
       first [ eexists _, _; split; [reflexivity | apply untag_clean]
             | exfalso; simpl in Hin;
               repeat (destruct Hin as [Hin|Hin]; [discriminate|]); exact Hin ]|]
  end.
  run_gen. intros H. exfalso.
  apply (f_equal (@length _)) in H. rewrite length_app in H. simpl in H. lia.
Qed.

Lemma tag_events_carry_clean_text_witness :
  exists key text,
    JDict [("content", JStr "look here")] = JDict [(key, JStr text)]
    /\ PyStr.strip text = text
    /\ (String.length text <= String.length "<thought> look here </thought>")%nat.
Proof.
  refine (tag_events_carry_clean_text "<thought> look here </thought>" (new_world [])
            "observations" (JDict [("content", JStr "look here")]) _ _).
  - reflexivity.
  - left. reflexivity.
Defined.

(** A tag is removed in one pass: what the removal leaves may hold the tag
    again. *)
Example untag_is_one_pass :
  untag "<thought>" "</thought>" "<tho<thought>ught>x" = "<thought>x".
Proof. reflexivity. Qed.

(* ===================================================================== *)
(** * The title of a repeated URL *)
(* ===================================================================== *)

(** X17. The title is looked for near the first occurrence of the URL in the
    finding ([text.find]), not near the match at hand: all the citations
    that one finding gives for one URL have the same title and the same
    snippet. *)
Theorem repeated_url_same_title (finding : string) (c1 c2 : Citation.t) :
  In c1 (_extract_citations_from_findings [finding]) ->
  In c2 (_extract_citations_from_findings [finding]) ->
  Citation.url c1 = Citation.url c2 ->
  Citation.title c1 = Citation.title c2
  /\ Citation.snippet c1 = Citation.snippet c2.
Proof.
  intros H1 H2 Hurl.
  pose proof (findings_provenance [finding]) as Hall.
  rewrite Forall_forall in Hall.
  destruct (Hall c1 (proj2 (list_elem_of_In _ _) H1)) as (f1 & [<-|[]] & _ & T1 & S1).
  destruct (Hall c2 (proj2 (list_elem_of_In _ _) H2)) as (f2 & [<-|[]] & _ & T2 & S2).
  rewrite T1, T2, S1, S2, Hurl. split; reflexivity.
Qed.

Lemma repeated_url_same_title_witness :
  Citation.title (Citation.mk 1 "http://x.y" "First" "web" "First http://x.y then Second http://x.y")
  = Citation.title (Citation.mk 2 "http://x.y" "First" "web" "First http://x.y then Second http://x.y")
  /\ Citation.snippet (Citation.mk 1 "http://x.y" "First" "web" "First http://x.y then Second http://x.y")
     = Citation.snippet (Citation.mk 2 "http://x.y" "First" "web" "First http://x.y then Second http://x.y").
Proof.
  refine (repeated_url_same_title "First http://x.y then Second http://x.y"
            (Citation.mk 1 "http://x.y" "First" "web" "First http://x.y then Second http://x.y")
            (Citation.mk 2 "http://x.y" "First" "web" "First http://x.y then Second http://x.y")
            _ _ _).
  - vm_compute. left. reflexivity.
  - vm_compute. right. left. reflexivity.
  - reflexivity.
Defined.

Example second_occurrence_gets_first_title :
  List.map Citation.title
    (_extract_citations_from_findings ["First http://x.y then Second http://x.y"])
  = ["First"; "First"].
Proof. reflexivity. Qed.
